(** * Zero-noise extrapolation factories: a shallow embedding of
      [mitiq/zne/inference.py]

    The development follows the Python module top to bottom: the warning and
    exception vocabulary, the numeric wrappers [mitiq_curve_fit] and
    [mitiq_polyfit], the abstract [Factory], the batched and the adaptive
    collection strategies and the extrapolation models.

    Modelling conventions.
    - A Python [float] is a real number ([R]); [np.exp], [np.log], [np.sqrt],
      [np.cos] and [np.pi] are the corresponding functions of the real
      library.  Rounding is not modelled.  A division whose divisor can be
      zero is written out case by case where the source relies on it.
    - A [Dict[str, float]] is a [gmap string R].
    - A method that mutates [self] takes the object and returns the new one.
      A computation that can warn or raise lives in the monad [Py]: the list
      of warnings it emitted, then either the exception or the value.
    - [numpy.polyfit], [scipy.optimize.curve_fit] and the [pymc3] sampler are
      external: they are the fields of the class [Numerics]. *)

From Stdlib Require Import Reals Lra Lia ZArith.
From stdpp Require Import base gmap strings list.

Local Open Scope string_scope.
Local Open Scope list_scope.

(** ** Exceptions and warnings *)

Inductive WarningCategory :=
| ExtrapolationWarning
| ConvergenceWarning
| RankWarning
| OptimizeWarning
| DeprecationWarning
| RuntimeWarning.

Definition category_eqb (a b : WarningCategory) : bool :=
  match a, b with
  | ExtrapolationWarning, ExtrapolationWarning
  | ConvergenceWarning, ConvergenceWarning
  | RankWarning, RankWarning
  | OptimizeWarning, OptimizeWarning
  | DeprecationWarning, DeprecationWarning
  | RuntimeWarning, RuntimeWarning => true
  | _, _ => false
  end.

Record Warning := mkWarning { category : WarningCategory; message : string }.

Inductive Exn :=
| ValueError (msg : string)
| TypeError (msg : string)
| IndexError (msg : string)
| AttributeError (msg : string)
| KeyError (msg : string)
| UnboundLocalError (msg : string)
| RuntimeError (msg : string)
| LinAlgError (msg : string)
| ExtrapolationError (msg : string).

Definition _EXTR_ERR : string :=
  "The extrapolation fit failed to converge. The problem may be solved by switching to a more stable extrapolation model such as `LinearFactory`.".

Definition _EXTR_WARN : string :=
  "The extrapolation fit may be ill-conditioned. Likely, more data points are necessary to fit the parameters of the model.".

Definition DATA_MISSING_ERR : string :=
  "Data is either ill-defined or not enough to evaluate the required information. Please make sure that the 'run' and 'reduce' methods have been called and that enough expectation values have been measured.".

(** ** The monad of Python computations *)

Definition Py (A : Type) : Type := (list Warning * (Exn + A))%type.

Definition ret {A} (a : A) : Py A := ([], inr a).
Definition raise {A} (e : Exn) : Py A := ([], inl e).
Definition warn (c : WarningCategory) (m : string) : Py unit :=
  ([mkWarning c m], inr tt).

Definition bind {A B} (m : Py A) (k : A -> Py B) : Py B :=
  match m with
  | (ws, inl e) => (ws, inl e)
  | (ws, inr a) => let '(ws', r) := k a in (ws ++ ws', r)
  end.

Arguments bind : simpl never.

Notation "'let!' x ':=' m 'in' k" := (bind m (fun x => k))
  (at level 10, x pattern, m at level 200, k at level 200, only parsing).
Notation "'do!' m 'in' k" := (bind m (fun _ => k))
  (at level 10, m at level 200, k at level 200, only parsing).

Definition warnings_of {A} (m : Py A) : list Warning := fst m.
Definition outcome {A} (m : Py A) : Exn + A := snd m.

(** [returns m a]: the computation ends normally with value [a]. *)
Definition returns {A} (m : Py A) (a : A) : Prop := outcome m = inr a.
(** [raises m e]: the computation ends with the exception [e]. *)
Definition raises {A} (m : Py A) (e : Exn) : Prop := outcome m = inl e.

Definition emits {A} (m : Py A) (c : WarningCategory) : bool :=
  existsb (fun w => category_eqb (category w) c) (warnings_of m).

(** A list comprehension whose body can raise. *)
Fixpoint mapM {A B} (f : A -> Py B) (l : list A) : Py (list B) :=
  match l with
  | [] => ret []
  | a :: l' => let! b := f a in let! bs := mapM f l' in ret (b :: bs)
  end.

(** ** Arrays *)

(** A two-dimensional [np.ndarray], row by row. *)
Definition matrix : Type := list (list R).

Definition shape (m : matrix) : Z * Z :=
  (Z.of_nat (length m),
   match m with [] => 0%Z | row :: _ => Z.of_nat (length row) end).

(** Python indexing of a sequence: a negative index counts from the end. *)
Definition py_index {A} (l : list A) (i : Z) : option A :=
  let n := Z.of_nat (length l) in
  if (0 <=? i)%Z then l !! Z.to_nat i
  else if (0 <=? n + i)%Z then l !! Z.to_nat (n + i)
  else None.

Definition getitem {A} (l : list A) (i : Z) : Py A :=
  match py_index l i with
  | Some a => ret a
  | None => raise (IndexError "index out of range")
  end.

(** [m[i, j]] *)
Definition getitem2 (m : matrix) (i j : Z) : Py R :=
  let! row := getitem m i in getitem row j.

(** [np.polyval(p, x)]: coefficients from the highest power down. *)
Definition polyval (p : list R) (x : R) : R :=
  fold_left (fun acc c => acc * x + c)%R p 0%R.

(** [np.sign] *)
Definition np_sign (x : R) : R :=
  if Rlt_dec x 0 then (-1)%R else if Rlt_dec 0 x then 1%R else 0%R.

Definition Rleb (x y : R) : bool := if Rle_dec x y then true else false.

(** [np.isclose(a, b)] on two floats, default tolerances. *)
Definition isclose (a b : R) : bool :=
  Rleb (Rabs (a - b)) (1.0e-8 + 1.0e-5 * Rabs b).

(** [np.allclose(a, b)] on two one-dimensional sequences.  Sequences of
    different lengths broadcast only when one of them has length one. *)
Fixpoint all_isclose (a b : list R) : bool :=
  match a, b with
  | x :: a', y :: b' => isclose x y && all_isclose a' b'
  | _, _ => true
  end.

Definition allclose (a b : list R) : Py bool :=
  if Nat.eqb (length a) (length b) then ret (all_isclose a b)
  else match a, b with
       | [x], _ => ret (forallb (fun y => isclose x y) b)
       | _, [y] => ret (forallb (fun x => isclose x y) a)
       | _, _ => raise (ValueError "operands could not be broadcast together")
       end.

(** [np.isclose] on the attribute [asymptote], which is a float or [None]:
    [None] is not a number and [np.isclose] raises [TypeError] on it. *)
Definition isclose_opt (a b : option R) : Py bool :=
  match a, b with
  | Some x, Some y => ret (isclose x y)
  | _, _ => raise (TypeError "ufunc 'isfinite' not supported for the input types")
  end.

(** ** External numeric routines *)

(** The covariance request of [np.polyfit] and its two result shapes. *)
Inductive PolyfitResult :=
| Coeffs (p : list R)
| CoeffsCov (p : list R) (cov : matrix).

Class Numerics := {
  (** [np.polyfit(x, y, deg, w=w, cov=cov)] *)
  np_polyfit :
    list R -> list R -> Z -> option (list R) -> bool -> Py PolyfitResult;
  (** [scipy.optimize.curve_fit(f, xdata, ydata, p0=p0)]; the ansatz takes
      the abscissa and the parameter list. *)
  curve_fit :
    (R -> list R -> R) -> list R -> list R -> option (list R) ->
    Py (list R * matrix);
  (** The posterior means of [a], [b], [c] and [eps] of the model sampled in
      [ExpBayesFactory.extrapolate]. *)
  pm_sample_means : list R -> list R -> Py (R * R * R * R)
}.

(** ** Numeric wrappers *)

Section Wrappers.
Context `{Numerics}.

(** The loop that re-raises the recorded warnings, a category replaced. *)
Definition replace_category (old : WarningCategory) (w : Warning) : Warning :=
  if category_eqb (category w) old
  then mkWarning ExtrapolationWarning _EXTR_WARN
  else w.

Definition mitiq_curve_fit (ansatz : R -> list R -> R)
    (scale_factors exp_values : list R) (init_params : option (list R))
  : Py (list R * matrix) :=
  let '(warn_list, r) := curve_fit ansatz scale_factors exp_values init_params in
  match r with
  | inl (RuntimeError _) => raise (ExtrapolationError _EXTR_ERR)
  | inl e => ([], inl e)
  | inr (opt_params, params_cov) =>
      (map (replace_category OptimizeWarning) warn_list,
       inr (opt_params, params_cov))
  end.

Definition mitiq_polyfit (scale_factors exp_values : list R) (deg : Z)
    (weights : option (list R)) : Py (list R * option matrix) :=
  let first := np_polyfit scale_factors exp_values deg weights true in
  let attempt : Py PolyfitResult :=
    match first with
    | (ws, inl (ValueError _)) | (ws, inl (LinAlgError _)) =>
        let '(ws', r) := np_polyfit scale_factors exp_values deg weights false in
        (ws ++ ws', r)
    | _ => first
    end in
  let '(warn_list, r) := attempt in
  match r with
  | inl e => ([], inl e)
  | inr res =>
      (map (replace_category RankWarning) warn_list,
       inr match res with
           | CoeffsCov p cov => (p, Some cov)
           | Coeffs p => (p, None)
           end)
  end.
End Wrappers.

(** ** Data model *)

(** [_outstack] is a Python list, except after [BatchedFactory.run], which
    stores the [np.ndarray] returned by [np.average]. *)
Inductive PySeq :=
| PyList (xs : list R)
| NdArray (xs : list R).

Definition items (s : PySeq) : list R :=
  match s with PyList xs | NdArray xs => xs end.

(** The attributes set by [Factory.__init__]. *)
Record Factory := mkFactory {
  _instack : list (gmap string R);
  _outstack : PySeq;
  _opt_params : option (list R);
  _params_cov : option matrix;
  _zne_limit : option R;
  _zne_error : option R;
  _zne_curve : option (R -> R);
  _already_reduced : bool
}.

(** A value of a shot list as the caller passes it. *)
Inductive PyVal :=
| PyInt (z : Z)
| PyBool (b : bool)
| PyFloat (r : R)
| PyStr (s : string)
| PyNone.

(** [BatchedFactory]: after the constructor's check the shot list holds
    integers only. *)
Record BatchedFactory := mkBatchedFactory {
  Batched_super : Factory;
  _scale_factors : list R;
  _shot_list : option (list Z)
}.

(** The attribute names [order], [asymptote] and [avoid_log] occur in several
    classes; a field carries the name of its class in front. *)
Record PolyFactory := mkPolyFactory {
  Poly_super : BatchedFactory;
  Poly_order : Z
}.

Record ExpFactory := mkExpFactory {
  Exp_super : BatchedFactory;
  Exp_asymptote : option R;
  Exp_avoid_log : bool
}.

Record PolyExpFactory := mkPolyExpFactory {
  PolyExp_super : BatchedFactory;
  PolyExp_order : Z;
  PolyExp_asymptote : option R;
  PolyExp_avoid_log : bool
}.

(** [OptimizationHistory]: inputs, outputs, parameters and zero-noise limit
    at each completed [reduce]. *)
Definition OptimizationHistory : Type :=
  list (list (gmap string R) * PySeq * list R * R).

Record AdaExpFactory := mkAdaExpFactory {
  AdaExp_super : Factory;
  _steps : Z;
  _scale_factor : R;
  AdaExp_asymptote : option R;
  AdaExp_avoid_log : bool;
  max_scale_factor : R;
  history : OptimizationHistory
}.

(** An object of any type, as the argument [other: Any] of [__eq__]:
    an instance of one of the concrete classes, or something else. *)
Inductive Any :=
| OfPolyFactory (o : PolyFactory)
| OfRichardsonFactory (o : BatchedFactory)
| OfFakeNodesFactory (o : BatchedFactory)
| OfLinearFactory (o : BatchedFactory)
| OfExpFactory (o : ExpFactory)
| OfPolyExpFactory (o : PolyExpFactory)
| OfExpBayesFactory (o : BatchedFactory)
| OfAdaExpFactory (o : AdaExpFactory)
| NotAFactory.

(** The [BatchedFactory] part of an object, when it has one. *)
Definition as_BatchedFactory (o : Any) : option BatchedFactory :=
  match o with
  | OfPolyFactory p => Some (Poly_super p)
  | OfRichardsonFactory b | OfFakeNodesFactory b | OfLinearFactory b
  | OfExpBayesFactory b => Some b
  | OfExpFactory e => Some (Exp_super e)
  | OfPolyExpFactory e => Some (PolyExp_super e)
  | OfAdaExpFactory _ | NotAFactory => None
  end.

(** [isinstance(other, Factory)], with the [Factory] part. *)
Definition as_Factory (o : Any) : option Factory :=
  match o with
  | OfAdaExpFactory a => Some (AdaExp_super a)
  | _ => Batched_super <$> as_BatchedFactory o
  end.

Definition no_attribute {A} (name : string) : Py A :=
  raise (AttributeError ("object has no attribute " ++ name)%string).

(** [other._scale_factors], [other.order], [other.asymptote],
    [other.avoid_log] on an arbitrary object. *)
Definition attr_scale_factors (o : Any) : Py (list R) :=
  match as_BatchedFactory o with
  | Some b => ret (_scale_factors b)
  | None => no_attribute "_scale_factors"
  end.

Definition attr_order (o : Any) : Py Z :=
  match o with
  | OfPolyFactory p => ret (Poly_order p)
  | OfPolyExpFactory p => ret (PolyExp_order p)
  | _ => no_attribute "order"
  end.

Definition attr_asymptote (o : Any) : Py (option R) :=
  match o with
  | OfExpFactory e => ret (Exp_asymptote e)
  | OfPolyExpFactory e => ret (PolyExp_asymptote e)
  | OfAdaExpFactory e => ret (AdaExp_asymptote e)
  | _ => no_attribute "asymptote"
  end.

Definition attr_avoid_log (o : Any) : Py bool :=
  match o with
  | OfExpFactory e => ret (Exp_avoid_log e)
  | OfPolyExpFactory e => ret (PolyExp_avoid_log e)
  | OfAdaExpFactory e => ret (AdaExp_avoid_log e)
  | _ => no_attribute "avoid_log"
  end.

(** Python's short-circuit [a and b] on booleans. *)
Definition and_then (a : Py bool) (b : Py bool) : Py bool :=
  let! x := a in if x : bool then b else ret false.

Infix "&&&" := and_then (at level 40, left associativity).

(** What [extrapolate] returns: the limit alone, or the five outputs when
    [full_output] is set. *)
Inductive Extrapolation :=
| Limit (zne_limit : R)
| Full (zne_limit : R) (zne_error : option R) (opt_params : list R)
       (params_cov : option matrix) (zne_curve : R -> R).

(** The zero-noise limit, first component of the tuple or sole value. *)
Definition limit_of (e : Extrapolation) : R :=
  match e with Limit l | Full l _ _ _ _ => l end.

(** Modelled from the spec: [mitiq.utils._are_close_dict] is imported by the
    module and its source is not at hand.  The spec compares Input Records
    pairwise-close by value, including extra keys: the two records have the
    same keys and [np.isclose] values under each key. *)
Definition _are_close_dict (dict_a dict_b : gmap string R) : bool :=
  bool_decide (dom dict_a = dom dict_b)
  && forallb (fun kv => match dict_b !! kv.1 with
                        | Some vb => isclose kv.2 vb
                        | None => false
                        end) (map_to_list dict_a).

(** ** [class Factory] *)

Module Factory.

Definition __init__ : Factory :=
  {| _instack := []; _outstack := PyList [];
     _opt_params := None; _params_cov := None;
     _zne_limit := None; _zne_error := None; _zne_curve := None;
     _already_reduced := false |}.

(** [np.array([params.get("scale_factor") for params in self._instack])] *)
Definition get_scale_factors (self : Factory) : list (option R) :=
  map (fun params : gmap string R => params !! "scale_factor") (_instack self).

Definition get_expectation_values (self : Factory) : list R :=
  items (_outstack self).

Definition get_optimal_parameters (self : Factory) : Py (list R) :=
  match _opt_params self with
  | None => raise (ValueError DATA_MISSING_ERR)
  | Some p => ret p
  end.

Definition get_parameters_covariance (self : Factory) : Py matrix :=
  match _params_cov self with
  | None => raise (ValueError DATA_MISSING_ERR)
  | Some c => ret c
  end.

Definition get_zero_noise_limit (self : Factory) : Py R :=
  match _zne_limit self with
  | None => raise (ValueError DATA_MISSING_ERR)
  | Some l => ret l
  end.

Definition get_zero_noise_limit_error (self : Factory) : Py R :=
  match _zne_error self with
  | None => raise (ValueError DATA_MISSING_ERR)
  | Some e => ret e
  end.

Definition get_extrapolation_curve (self : Factory) : Py (R -> R) :=
  match _zne_curve self with
  | None => raise (ValueError DATA_MISSING_ERR)
  | Some c => ret c
  end.

Definition PUSH_WARN : string :=
  "You are pushing new data into a factory object despite its .reduce() method has already been called. Please make sure your intention is to append new data to the stack of previous data. Otherwise, the method .reset() can be used to clean the internal state of the factory.".

(** [self._outstack.append] exists on a list only. *)
Definition push (self : Factory) (instack_val : gmap string R)
    (outstack_val : R) : Py Factory :=
  do! (if _already_reduced self
       then warn ExtrapolationWarning PUSH_WARN else ret tt) in
  match _outstack self with
  | PyList xs =>
      ret {| _instack := _instack self ++ [instack_val];
             _outstack := PyList (xs ++ [outstack_val]);
             _opt_params := _opt_params self;
             _params_cov := _params_cov self;
             _zne_limit := _zne_limit self;
             _zne_error := _zne_error self;
             _zne_curve := _zne_curve self;
             _already_reduced := _already_reduced self |}
  | NdArray _ =>
      raise (AttributeError "'numpy.ndarray' object has no attribute 'append'")
  end.

(** The assignments of [reset], one per line of the source; [_zne_curve]
    is not among them. *)
Definition reset (self : Factory) : Factory :=
  {| _instack := [];
     _outstack := PyList [];
     _opt_params := None;
     _params_cov := None;
     _zne_limit := None;
     _zne_error := None;
     _zne_curve := _zne_curve self;
     _already_reduced := false |}.

(** The loop over [zip(self._instack, other._instack)]. *)
Definition instacks_close (a b : list (gmap string R)) : bool :=
  forallb (fun ab => _are_close_dict ab.1 ab.2) (zip a b).

Definition __eq__ (self : Factory) (other : Any) : Py bool :=
  match as_Factory other with
  | None => ret false
  | Some other =>
      if negb (eqb (_already_reduced self) (_already_reduced other))
      then ret false
      else if negb (Nat.eqb (length (_instack self)) (length (_instack other)))
      then ret false
      else if negb (instacks_close (_instack self) (_instack other))
      then ret false
      else allclose (items (_outstack self)) (items (_outstack other))
  end.

(** The five cached outputs assigned by every [reduce], and the flag. *)
Definition store (self : Factory) (e : Extrapolation) : Py (R * Factory) :=
  match e with
  | Full zne_limit zne_error opt_params params_cov zne_curve =>
      ret (zne_limit,
           {| _instack := _instack self;
              _outstack := _outstack self;
              _opt_params := Some opt_params;
              _params_cov := params_cov;
              _zne_limit := Some zne_limit;
              _zne_error := zne_error;
              _zne_curve := Some zne_curve;
              _already_reduced := true |})
  | Limit _ => raise (TypeError "cannot unpack non-iterable float object")
  end.

(** The arrays handed to [extrapolate]: a record without the key
    [scale_factor] contributes [None], which no fit accepts. *)
Definition float_array (l : list (option R)) : Py (list R) :=
  mapM (fun x : option R =>
          match x with
          | Some r => ret r
          | None => raise (TypeError "unsupported operand type: NoneType")
          end) l.

End Factory.

(** ** [class BatchedFactory] *)

(** An executor, by the return annotation [_is_executor_batched] inspects:
    a single executor maps a circuit and keyword arguments to a value; a
    batched one (annotated [List[float]], [Sequence[float]], ...) maps the
    list of circuits, and the keyword list when passed, to a list. *)
Inductive Executor (QPROGRAM : Type) :=
| SingleExecutor (call : QPROGRAM -> gmap string R -> Py R)
| BatchedExecutor
    (call : list QPROGRAM -> option (list (gmap string R)) -> Py (list R)).
Arguments SingleExecutor {QPROGRAM} call.
Arguments BatchedExecutor {QPROGRAM} call.

(** [isinstance(shots, int)]: [bool] is a subclass of [int]. *)
Definition is_int (v : PyVal) : bool :=
  match v with PyInt _ | PyBool _ => true | _ => false end.

Definition int_value (v : PyVal) : Z :=
  match v with
  | PyInt z => z
  | PyBool b => if b then 1%Z else 0%Z
  | _ => 0%Z
  end.

(** Truth value of an optional list: [None] and [[]] are false. *)
Definition truthy {A} (l : option (list A)) : bool :=
  match l with Some (_ :: _) => true | _ => false end.

(** [np.average] of one row. *)
Definition average (row : list R) : R :=
  (fold_right Rplus 0 row / INR (length row))%R.

(** [rows] consecutive rows of [k] entries. *)
Fixpoint split_rows (rows k : nat) (l : list R) : list (list R) :=
  match rows with
  | O => []
  | S r => take k l :: split_rows r k (drop k l)
  end.

(** [np.array(res).reshape((-1, num_to_average))]: the column count must be
    positive and divide the size. *)
Definition reshape (res : list R) (num_to_average : Z) : Py (list (list R)) :=
  if (num_to_average <=? 0)%Z
  then raise (ValueError "cannot reshape array")
  else let k := Z.to_nat num_to_average in
       if Nat.eqb (length res mod k) 0
       then ret (split_rows (length res / k) k res)
       else raise (ValueError "cannot reshape array").

Module BatchedFactory.

Definition LENGTH_ERR : string :=
  "The arguments scale_factors and shot_list must have the same length.".

(** [shot_list] is typed [Optional[List[int]]]: a list is a [Sequence],
    so only the element test of the second guard can fail. *)
Definition __init__ (scale_factors : list R)
    (shot_list : option (list PyVal)) : Py BatchedFactory :=
  if (length scale_factors <? 2)%nat
  then raise (ValueError "At least 2 scale factors are necessary.")
  else if truthy shot_list
          && negb (forallb is_int (default [] shot_list))
  then raise (TypeError
    "The optional argument shot_list must be None or a valid iterator of integers.")
  else if truthy shot_list
          && negb (Nat.eqb (length scale_factors)
                           (length (default [] shot_list)))
  then raise (IndexError LENGTH_ERR)
  else ret {| Batched_super := Factory.__init__;
              _scale_factors := scale_factors;
              _shot_list := map int_value <$> shot_list |}.

Definition set_super (self : BatchedFactory) (f : Factory) : BatchedFactory :=
  {| Batched_super := f;
     _scale_factors := _scale_factors self;
     _shot_list := _shot_list self |}.

Definition set_instack (f : Factory) (l : list (gmap string R)) : Factory :=
  mkFactory l (_outstack f) (_opt_params f) (_params_cov f) (_zne_limit f)
            (_zne_error f) (_zne_curve f) (_already_reduced f).

Definition set_outstack (f : Factory) (o : PySeq) : Factory :=
  mkFactory (_instack f) o (_opt_params f) (_params_cov f) (_zne_limit f)
            (_zne_error f) (_zne_curve f) (_already_reduced f).

Definition get_scale_factors (self : BatchedFactory) : list (option R) :=
  Factory.get_scale_factors (Batched_super self).

Definition get_expectation_values (self : BatchedFactory) : list R :=
  Factory.get_expectation_values (Batched_super self).

Definition push (self : BatchedFactory) (instack_val : gmap string R)
    (outstack_val : R) : Py BatchedFactory :=
  let! f := Factory.push (Batched_super self) instack_val outstack_val in
  ret (set_super self f).

Definition reset (self : BatchedFactory) : BatchedFactory :=
  set_super self (Factory.reset (Batched_super self)).

Definition _batch_populate_instack (self : BatchedFactory) : BatchedFactory :=
  set_super self
    (set_instack (Batched_super self)
       (if truthy (_shot_list self)
        then map (fun ss : R * Z =>
                    {[ "scale_factor" := ss.1; "shots" := IZR ss.2 ]})
                 (zip (_scale_factors self) (default [] (_shot_list self)))
        else map (fun scale : R => {[ "scale_factor" := scale ]})
                 (_scale_factors self))).

(** [d.pop("scale_factor")] on the copy of a record: the key is removed,
    and a record without it raises [KeyError]. *)
Definition pop_scale_factor (d : gmap string R) : Py (gmap string R) :=
  match d !! "scale_factor" with
  | Some _ => ret (delete "scale_factor" d)
  | None => raise (KeyError "scale_factor")
  end.

(** [deepcopy], [pop("scale_factor")] on each copy, then each dictionary
    repeated [num_to_average] times. *)
Definition _get_keyword_args (self : BatchedFactory) (num_to_average : Z)
  : Py (list (gmap string R)) :=
  let! params := mapM pop_scale_factor (_instack (Batched_super self)) in
  ret (concat (map (fun k => replicate (Z.to_nat num_to_average) k) params)).

Section Run.
Variable QPROGRAM : Type.

Definition _is_executor_batched (executor : Executor QPROGRAM) : bool :=
  match executor with
  | BatchedExecutor _ => true
  | SingleExecutor _ => false
  end.

(** The loop runs over [self.get_scale_factors()]; an entry is a float
    for every record that [_batch_populate_instack] builds. *)
Definition _generate_circuits (self : BatchedFactory) (circuit : QPROGRAM)
    (scale_noise : QPROGRAM -> R -> Py QPROGRAM) (num_to_average : Z)
  : Py (list QPROGRAM) :=
  let! scales := Factory.float_array (get_scale_factors self) in
  let! per_scale :=
    mapM (fun scale_factor =>
            mapM (fun _ : unit => scale_noise circuit scale_factor)
                 (replicate (Z.to_nat num_to_average) tt))
         scales in
  ret (concat per_scale).

Definition run (self : BatchedFactory) (qp : QPROGRAM)
    (executor : Executor QPROGRAM)
    (scale_noise : QPROGRAM -> R -> Py QPROGRAM) (num_to_average : Z)
  : Py BatchedFactory :=
  let self := reset self in
  let self := _batch_populate_instack self in
  let! to_run := _generate_circuits self qp scale_noise num_to_average in
  let! kwargs_list := _get_keyword_args self num_to_average in
  let! res :=
    match executor with
    | BatchedExecutor call =>
        if forallb (fun kwargs : gmap string R => bool_decide (kwargs = ∅))
                   kwargs_list
        then call to_run None
        else call to_run (Some kwargs_list)
    | SingleExecutor call =>
        mapM (fun ck : QPROGRAM * gmap string R => call ck.1 ck.2)
             (zip to_run kwargs_list)
    end in
  let! res := reshape res num_to_average in
  ret (set_super self
         (set_outstack (Batched_super self) (NdArray (map average res)))).
End Run.

Definition run_classical (self : BatchedFactory)
    (scale_factor_to_expectation_value : R -> gmap string R -> Py R)
  : Py BatchedFactory :=
  let self := reset self in
  let self := _batch_populate_instack self in
  let! kwargs_list := _get_keyword_args self 1 in
  let! out :=
    mapM (fun sk : R * gmap string R =>
            scale_factor_to_expectation_value sk.1 sk.2)
         (zip (_scale_factors self) kwargs_list) in
  ret (set_super self (set_outstack (Batched_super self) (PyList out))).

Definition __eq__ (self : BatchedFactory) (other : Any) : Py bool :=
  Factory.__eq__ (Batched_super self) other
  &&& (let! theirs := attr_scale_factors other in
       allclose (_scale_factors self) theirs).

(** [reduce] of every batched class: [extrapolate] on the stored data with
    [full_output=True], the five outputs stored, the limit returned. *)
Definition reduce_with (extrapolate : list R -> list R -> Py Extrapolation)
    (self : BatchedFactory) : Py (R * BatchedFactory) :=
  let! scale_factors := Factory.float_array (get_scale_factors self) in
  let! e := extrapolate scale_factors (get_expectation_values self) in
  let! (zne_limit, f) := Factory.store (Batched_super self) e in
  ret (zne_limit, set_super self f).

End BatchedFactory.

(** ** [class AdaptiveFactory] *)

(** The abstract methods of [AdaptiveFactory] and the access to the
    [Factory] attributes of an instance. *)
Class Adaptive (T : Type) := {
  super : T -> Factory;
  set_super : T -> Factory -> T;
  next : T -> Py (gmap string R * T);
  is_converged : T -> Py bool;
  reduce : T -> Py (R * T)
}.

Module AdaptiveFactory.
Section Methods.
Context {T : Type} `{Adaptive T}.

Definition get_scale_factors (self : T) : list (option R) :=
  Factory.get_scale_factors (super self).

Definition get_expectation_values (self : T) : list R :=
  Factory.get_expectation_values (super self).

Definition push (self : T) (instack_val : gmap string R)
    (outstack_val : R) : Py T :=
  let! f := Factory.push (super self) instack_val outstack_val in
  ret (set_super self f).

Definition reset (self : T) : T :=
  set_super self (Factory.reset (super self)).

Definition CONVERGENCE_WARN : string :=
  "Factory iteration loop stopped before convergence. Maximum number of iterations was reached.".

(** The [while] loop.  [remaining] is [max_iterations - counter], so
    [counter < max_iterations] holds exactly when it is not zero. *)
Fixpoint iterations (remaining : nat) (counter : Z) (self : T)
    (scale_factor_to_expectation_value : R -> gmap string R -> Py R)
  : Py (Z * T) :=
  let! converged := is_converged self in
  if converged : bool then ret (counter, self)
  else match remaining with
       | O => ret (counter, self)
       | S remaining =>
           let! (next_in_params, self) := next self in
           let next_exec_params : gmap string R := next_in_params in
           let! scale_factor :=
             match next_exec_params !! "scale_factor" with
             | Some s => ret s
             | None => raise (KeyError "scale_factor")
             end in
           let next_exec_params := delete "scale_factor" next_exec_params in
           let! next_expval :=
             scale_factor_to_expectation_value scale_factor next_exec_params in
           let! self := push self next_in_params next_expval in
           iterations remaining (counter + 1)%Z self
                      scale_factor_to_expectation_value
       end.

Definition run_classical (self : T)
    (scale_factor_to_expectation_value : R -> gmap string R -> Py R)
    (max_iterations : Z) : Py T :=
  let self := reset self in
  let! (counter, self) :=
    iterations (Z.to_nat max_iterations) 0%Z self
               scale_factor_to_expectation_value in
  do! (if (counter =? max_iterations)%Z
       then warn ConvergenceWarning CONVERGENCE_WARN else ret tt) in
  ret self.

Definition run {QPROGRAM : Type} (self : T) (qp : QPROGRAM)
    (executor : QPROGRAM -> gmap string R -> Py R)
    (scale_noise : QPROGRAM -> R -> Py QPROGRAM)
    (num_to_average max_iterations : Z) : Py T :=
  let scale_factor_to_expectation_value
        (scale_factor : R) (exec_params : gmap string R) : Py R :=
    let! expectation_values :=
      mapM (fun _ : unit =>
              let! scaled_qp := scale_noise qp scale_factor in
              executor scaled_qp exec_params)
           (replicate (Z.to_nat num_to_average) tt) in
    ret (average expectation_values) in
  run_classical self scale_factor_to_expectation_value max_iterations.
End Methods.
End AdaptiveFactory.

(** ** The extrapolation models *)

Definition shape_is (m : matrix) (r c : Z) : bool :=
  ((shape m).1 =? r)%Z && ((shape m).2 =? c)%Z.

Module PolyFactory.
Section Fit.
Context `{Numerics}.

Definition __init__ (scale_factors : list R) (order : Z)
    (shot_list : option (list PyVal)) : Py PolyFactory :=
  if (order >? Z.of_nat (length scale_factors) - 1)%Z
  then raise (ValueError
    "The extrapolation order cannot exceed len(scale_factors) - 1.")
  else let! b := BatchedFactory.__init__ scale_factors shot_list in
       ret {| Poly_super := b; Poly_order := order |}.

Definition extrapolate (scale_factors exp_values : list R) (order : Z)
    (full_output : bool) : Py Extrapolation :=
  let! (opt_params, params_cov) :=
    mitiq_polyfit scale_factors exp_values order None in
  let! zne_limit := getitem opt_params (-1) in
  if negb full_output then ret (Limit zne_limit)
  else
    let! zne_error :=
      match params_cov with
      | Some cov =>
          if shape_is cov (order + 1) (order + 1)
          then let! v := getitem2 cov order order in ret (Some (sqrt v))
          else ret None
      | None => ret None
      end in
    let zne_curve (scale_factor : R) : R := polyval opt_params scale_factor in
    ret (Full zne_limit zne_error opt_params params_cov zne_curve).

Definition reduce (self : PolyFactory) : Py (R * PolyFactory) :=
  let! (zne_limit, b) :=
    BatchedFactory.reduce_with
      (fun sf ev => extrapolate sf ev (Poly_order self) true)
      (Poly_super self) in
  ret (zne_limit, {| Poly_super := b; Poly_order := Poly_order self |}).

Definition __eq__ (self : PolyFactory) (other : Any) : Py bool :=
  BatchedFactory.__eq__ (Poly_super self) other
  &&& (let! theirs := attr_order other in
       ret (Poly_order self =? theirs)%Z).
End Fit.
End PolyFactory.

Module RichardsonFactory.
Section Fit.
Context `{Numerics}.

Definition extrapolate (scale_factors exp_values : list R)
    (full_output : bool) : Py Extrapolation :=
  let order := (Z.of_nat (length scale_factors) - 1)%Z in
  PolyFactory.extrapolate scale_factors exp_values order full_output.

Definition reduce (self : BatchedFactory) : Py (R * BatchedFactory) :=
  BatchedFactory.reduce_with (fun sf ev => extrapolate sf ev true) self.
End Fit.
End RichardsonFactory.

(** [np.sort] and [np.diff] on a one-dimensional array. *)
Fixpoint insert_sorted (x : R) (l : list R) : list R :=
  match l with
  | [] => [x]
  | y :: l' => if Rle_dec x y then x :: l else y :: insert_sorted x l'
  end.

Definition np_sort (l : list R) : list R := fold_right insert_sorted [] l.

Definition np_diff (l : list R) : list R :=
  zip_with (fun a b => b - a)%R l (tail l).

(** The builtins [min] and [max] on a sequence; an empty one raises. *)
Definition py_min (l : list R) : Py R :=
  match l with
  | [] => raise (ValueError "min() arg is an empty sequence")
  | x :: l' => ret (fold_left Rmin l' x)
  end.

Definition py_max (l : list R) : Py R :=
  match l with
  | [] => raise (ValueError "max() arg is an empty sequence")
  | x :: l' => ret (fold_left Rmax l' x)
  end.

Module FakeNodesFactory.
Section Fit.
Context `{Numerics}.

(** The mapping function [S] of [_map_to_fake_nodes]. *)
Definition S (a b x : R) : R :=
  ((a - b) / 2 * cos (PI * (x - a) / (b - a)) + (a + b) / 2)%R.

(** [_map_to_fake_nodes] on a sequence; on a single float it is [S]. *)
Definition _map_to_fake_nodes (x : list R) (a b : R) : list R :=
  map (S a b) x.

Definition _is_equally_spaced (arr : list R) : Py bool :=
  let diff_arr := np_diff (np_sort arr) in
  let! d0 := getitem diff_arr 0 in
  ret (forallb (fun d => isclose d d0) diff_arr).

Definition extrapolate (scale_factors exp_values : list R)
    (full_output : bool) : Py Extrapolation :=
  let! spaced := _is_equally_spaced scale_factors in
  if negb spaced
  then raise (ValueError "The scale factors must be equally spaced.")
  else
    let a := 0%R in
    let! lo := py_min scale_factors in
    let! hi := py_max scale_factors in
    let b := (lo + hi)%R in
    let fake_nodes := _map_to_fake_nodes scale_factors a b in
    if negb full_output
    then RichardsonFactory.extrapolate fake_nodes exp_values false
    else
      let! e := RichardsonFactory.extrapolate fake_nodes exp_values true in
      match e with
      | Full zne_limit zne_error opt_params params_cov zne_curve =>
          let new_curve (scale_factor : R) : R :=
            zne_curve (S a b scale_factor) in
          ret (Full zne_limit zne_error opt_params params_cov zne_curve)
      | Limit _ =>
          raise (TypeError "cannot unpack non-iterable float object")
      end.

Definition reduce (self : BatchedFactory) : Py (R * BatchedFactory) :=
  BatchedFactory.reduce_with (fun sf ev => extrapolate sf ev true) self.
End Fit.
End FakeNodesFactory.

Module LinearFactory.
Section Fit.
Context `{Numerics}.

Definition extrapolate (scale_factors exp_values : list R)
    (full_output : bool) : Py Extrapolation :=
  PolyFactory.extrapolate scale_factors exp_values 1 full_output.

Definition reduce (self : BatchedFactory) : Py (R * BatchedFactory) :=
  BatchedFactory.reduce_with (fun sf ev => extrapolate sf ev true) self.
End Fit.
End LinearFactory.

(** The constructor argument [asymptote]: a float, [None], or a value the
    constructors of the exponential models refuse. *)
Definition check_asymptote (asymptote : PyVal) : Py (option R) :=
  match asymptote with
  | PyNone => ret None
  | PyFloat r => ret (Some r)
  | _ => raise (ValueError
      "The argument 'asymptote' must be either a float or None")
  end.

Module PolyExpFactory.
Section Fit.
Context `{Numerics}.

Definition __init__ (scale_factors : list R) (order : Z)
    (asymptote : PyVal) (avoid_log : bool)
    (shot_list : option (list PyVal)) : Py PolyExpFactory :=
  let! b := BatchedFactory.__init__ scale_factors shot_list in
  let! asymptote := check_asymptote asymptote in
  ret {| PolyExp_super := b; PolyExp_order := order;
         PolyExp_asymptote := asymptote;
         PolyExp_avoid_log := avoid_log |}.

Definition DATA_ERR : string :=
  "Data is not enough: at least two data points are necessary.".

Definition ORDER_ERR : string :=
  "Extrapolation order is too high. The order cannot exceed the number of data points minus 1 + shift.".

(** [coeffs[i]] inside an ansatz; the fits call it with enough
    parameters. *)
Definition coeff (coeffs : list R) (i : nat) : R := nth i coeffs 0%R.

Definition _ansatz_unknown (x : R) (coeffs : list R) : R :=
  let z_coeffs := rev (drop 2 coeffs) in
  (coeff coeffs 0 + coeff coeffs 1 * exp (x * polyval z_coeffs x))%R.

Definition _ansatz_known (asymptote : R) (x : R) (coeffs : list R) : R :=
  let z_coeffs := rev (drop 1 coeffs) in
  (asymptote + coeff coeffs 0 * exp (x * polyval z_coeffs x))%R.

Definition extrapolate (scale_factors exp_values : list R) (order : Z)
    (asymptote : option R) (avoid_log : bool) (eps : R)
    (full_output : bool) : Py Extrapolation :=
  let shift := match asymptote with None => 1%Z | Some _ => 0%Z end in
  if negb (Nat.eqb (length scale_factors) (length exp_values))
     || (length scale_factors <? 2)%nat
  then raise (ValueError DATA_ERR)
  else if (order >? Z.of_nat (length scale_factors) - (1 + shift))%Z
  then raise (ValueError ORDER_ERR)
  else
    (* Initialize default errors *)
    let zne_error : option R := None in
    let params_cov : option matrix := None in
    (* Deduce the sign parameter of the exponential ansatz *)
    let! (linear_params, _) :=
      mitiq_polyfit scale_factors exp_values 1 None in
    let! slope := getitem linear_params 0 in
    let sign := np_sign (- slope) in
    match asymptote with
    | None =>
        (* CASE 1: asymptote is None *)
        let p_zero := [0; sign; -1]%R
                      ++ replicate (Z.to_nat (order - 1)) 0%R in
        let! (opt_params, cov) :=
          mitiq_curve_fit _ansatz_unknown scale_factors exp_values
                          (Some p_zero) in
        let! p0 := getitem opt_params 0 in
        let! p1 := getitem opt_params 1 in
        let zne_limit := (p0 + p1)%R in
        let zne_curve (scale_factor : R) : R :=
          _ansatz_unknown scale_factor opt_params in
        let! zne_error :=
          if shape_is cov (order + 2) (order + 2)
          then let! c00 := getitem2 cov 0 0 in
               let! c01 := getitem2 cov 0 1 in
               let! c11 := getitem2 cov 1 1 in
               ret (Some (sqrt (c00 + 2 * c01 + c11)))
          else ret zne_error in
        if full_output
        then ret (Full zne_limit zne_error opt_params (Some cov) zne_curve)
        else ret (Limit zne_limit)
    | Some asymptote =>
        if avoid_log then
          (* CASE 2: asymptote is given and avoid_log is True *)
          let p_zero := [sign; -1]%R
                        ++ replicate (Z.to_nat (order - 1)) 0%R in
          let! (opt_params, cov) :=
            mitiq_curve_fit (_ansatz_known asymptote) scale_factors
                            exp_values (Some p_zero) in
          let! p0 := getitem opt_params 0 in
          let zne_limit := (asymptote + p0)%R in
          let! zne_error :=
            if shape_is cov (order + 1) (order + 1)
            then let! c00 := getitem2 cov 0 0 in ret (Some (sqrt c00))
            else ret zne_error in
          let opt_params := asymptote :: opt_params in
          (* the closure [zne_curve] reads the variable [opt_params]
             when it is called, that is after the rebinding above *)
          let zne_curve (scale_factor : R) : R :=
            _ansatz_known asymptote scale_factor opt_params in
          if full_output
          then ret (Full zne_limit zne_error opt_params (Some cov) zne_curve)
          else ret (Limit zne_limit)
        else
          (* CASE 3: asymptote is given and avoid_log is False *)
          let shifted_y :=
            map (fun y => Rmax (sign * (y - asymptote)) eps) exp_values in
          let zstack := map ln shifted_y in
          (* the covariance of this fit is bound to [param_cov] *)
          let! (z_coefficients, param_cov) :=
            mitiq_polyfit scale_factors zstack order
              (Some (map (fun y => sqrt (Rabs y)) shifted_y)) in
          let! z_last := getitem z_coefficients (-1) in
          let zero_limit := (asymptote + sign * exp z_last)%R in
          let _zne_curve (scale_factor : R) : R :=
            (asymptote + sign * exp (polyval z_coefficients scale_factor))%R in
          let! zne_error :=
            match params_cov with
            | Some cov =>
                if shape_is cov (order + 1) (order + 1)
                then let! v := getitem2 cov (order + 1) (order + 1) in
                     ret (Some (exp z_last * sqrt v)%R)
                else ret zne_error
            | None => ret zne_error
            end in
          let opt_params := asymptote :: rev z_coefficients in
          if full_output
          then ret (Full zero_limit zne_error opt_params params_cov _zne_curve)
          else
            (* [return zne_limit]: no assignment to that name is
               executed on this path *)
            raise (UnboundLocalError
              "local variable 'zne_limit' referenced before assignment")
    end.

Definition __eq__ (self : PolyExpFactory) (other : Any) : Py bool :=
  BatchedFactory.__eq__ (PolyExp_super self) other
  &&& ret (match other with OfPolyExpFactory _ => true | _ => false end)
  &&& (let! theirs := attr_asymptote other in
       isclose_opt (PolyExp_asymptote self) theirs)
  &&& (let! theirs := attr_avoid_log other in
       ret (eqb (PolyExp_avoid_log self) theirs))
  &&& (let! theirs := attr_order other in
       ret (PolyExp_order self =? theirs)%Z).

Definition reduce (self : PolyExpFactory) : Py (R * PolyExpFactory) :=
  let! (zne_limit, b) :=
    BatchedFactory.reduce_with
      (fun sf ev => extrapolate sf ev (PolyExp_order self)
                      (PolyExp_asymptote self) (PolyExp_avoid_log self)
                      1.0e-6 true)
      (PolyExp_super self) in
  ret (zne_limit,
       {| PolyExp_super := b; PolyExp_order := PolyExp_order self;
          PolyExp_asymptote := PolyExp_asymptote self;
          PolyExp_avoid_log := PolyExp_avoid_log self |}).
End Fit.
End PolyExpFactory.

(** Truth value of the attribute [asymptote]: [None] and [0.0] are false. *)
Definition asymptote_truthy (a : option R) : bool :=
  match a with
  | Some r => if Req_dec_T r 0 then false else true
  | None => false
  end.

Definition is_None {A} (a : option A) : bool :=
  match a with None => true | Some _ => false end.

Module ExpFactory.
Section Fit.
Context `{Numerics}.

Definition __init__ (scale_factors : list R) (asymptote : PyVal)
    (avoid_log : bool) (shot_list : option (list PyVal)) : Py ExpFactory :=
  let! b := BatchedFactory.__init__ scale_factors shot_list in
  let! asymptote := check_asymptote asymptote in
  ret {| Exp_super := b; Exp_asymptote := asymptote;
         Exp_avoid_log := avoid_log |}.

Definition extrapolate (scale_factors exp_values : list R)
    (asymptote : option R) (avoid_log : bool) (eps : R)
    (full_output : bool) : Py Extrapolation :=
  PolyExpFactory.extrapolate scale_factors exp_values 1 asymptote
                             avoid_log eps full_output.

Definition reduce (self : ExpFactory) : Py (R * ExpFactory) :=
  let! (zne_limit, b) :=
    BatchedFactory.reduce_with
      (fun sf ev => extrapolate sf ev (Exp_asymptote self)
                      (Exp_avoid_log self) 1.0e-6 true)
      (Exp_super self) in
  ret (zne_limit,
       {| Exp_super := b; Exp_asymptote := Exp_asymptote self;
          Exp_avoid_log := Exp_avoid_log self |}).

Definition __eq__ (self : ExpFactory) (other : Any) : Py bool :=
  match other with
  | OfExpFactory o =>
      if asymptote_truthy (Exp_asymptote self) && is_None (Exp_asymptote o)
         || is_None (Exp_asymptote self) && asymptote_truthy (Exp_asymptote o)
      then ret false
      else if is_None (Exp_asymptote self) && is_None (Exp_asymptote o)
      then BatchedFactory.__eq__ (Exp_super self) other
           &&& ret (eqb (Exp_avoid_log self) (Exp_avoid_log o))
      else BatchedFactory.__eq__ (Exp_super self) other
           &&& isclose_opt (Exp_asymptote self) (Exp_asymptote o)
           &&& ret (eqb (Exp_avoid_log self) (Exp_avoid_log o))
  | _ => ret false
  end.
End Fit.
End ExpFactory.

Module ExpBayesFactory.
Section Fit.
Context `{Numerics}.

Definition _exp_ansatz (a b c scale_factor : R) : R :=
  (a + b * exp (-1 * c * scale_factor))%R.

Definition extrapolate (scale_factors exp_values : list R)
    (full_output : bool) : Py Extrapolation :=
  let! (a, b, c, eps_mean) := pm_sample_means scale_factors exp_values in
  let opt_params := [a; b; c] in
  let zne_error := eps_mean in
  let zne_curve (scale_factor : R) : R := _exp_ansatz a b c scale_factor in
  let zne_limit := _exp_ansatz a b c 0 in
  if negb full_output then ret (Limit zne_limit)
  else
    let params_cov : option matrix := None in
    ret (Full zne_limit (Some zne_error) opt_params params_cov zne_curve).

Definition reduce (self : BatchedFactory) : Py (R * BatchedFactory) :=
  BatchedFactory.reduce_with (fun sf ev => extrapolate sf ev true) self.

Definition __eq__ (self : BatchedFactory) (other : Any) : Py bool :=
  BatchedFactory.__eq__ self other.
End Fit.
End ExpBayesFactory.

(** [np.allclose] on two optimization histories.  An entry holds the list
    of input dictionaries, which is not numeric data: the comparison is
    defined on empty histories only. *)
Definition allclose_history (a b : OptimizationHistory) : Py bool :=
  match a, b with
  | [], [] => ret true
  | _, _ => raise (TypeError "ufunc 'isfinite' not supported for the input types")
  end.

Module AdaExpFactory.
Section Fit.
Context `{Numerics}.

Definition _SHIFT_FACTOR : R := 1.27846.
Definition _EPSILON : R := 1.0e-9.

Definition __init__ (steps : Z) (scale_factor : R) (asymptote : PyVal)
    (avoid_log : bool) (max_scale_factor : R) : Py AdaExpFactory :=
  let! asymptote := check_asymptote asymptote in
  if Rle_dec scale_factor 1
  then raise (ValueError
    "The argument 'scale_factor' must be strictly larger than one.")
  else if (steps <? 3 + (if is_None asymptote then 1 else 0))%Z
  then raise (ValueError
    "The argument 'steps' must be an integer greater or equal to 3. If 'asymptote' is None, 'steps' must be greater or equal to 4.")
  else if Rle_dec max_scale_factor 1
  then raise (ValueError
    "The argument 'max_scale_factor' must be strictly larger than one.")
  else ret {| AdaExp_super := Factory.__init__;
              _steps := steps;
              _scale_factor := scale_factor;
              AdaExp_asymptote := asymptote;
              AdaExp_avoid_log := avoid_log;
              max_scale_factor := max_scale_factor;
              history := [] |}.

Definition extrapolate (scale_factors exp_values : list R)
    (asymptote : option R) (avoid_log : bool) (eps : R)
    (full_output : bool) : Py Extrapolation :=
  ExpFactory.extrapolate scale_factors exp_values asymptote avoid_log
                         eps full_output.

Definition with_state (self : AdaExpFactory) (f : Factory)
    (h : OptimizationHistory) : AdaExpFactory :=
  {| AdaExp_super := f;
     _steps := _steps self;
     _scale_factor := _scale_factor self;
     AdaExp_asymptote := AdaExp_asymptote self;
     AdaExp_avoid_log := AdaExp_avoid_log self;
     max_scale_factor := max_scale_factor self;
     history := h |}.

Definition reduce (self : AdaExpFactory) : Py (R * AdaExpFactory) :=
  let! scale_factors :=
    Factory.float_array (Factory.get_scale_factors (AdaExp_super self)) in
  let! e :=
    extrapolate scale_factors
                (Factory.get_expectation_values (AdaExp_super self))
                (AdaExp_asymptote self) (AdaExp_avoid_log self)
                1.0e-6 true in
  let! (zne_limit, f) := Factory.store (AdaExp_super self) e in
  (* Update optimization history *)
  let entry := (_instack f, _outstack f,
                default [] (_opt_params f), zne_limit) in
  ret (zne_limit, with_state self f (history self ++ [entry])).

Definition set_already_reduced (f : Factory) (b : bool) : Factory :=
  mkFactory (_instack f) (_outstack f) (_opt_params f) (_params_cov f)
            (_zne_limit f) (_zne_error f) (_zne_curve f) b.

(** [warnings.simplefilter("ignore", ExtrapolationWarning)] around a
    computation. *)
Definition ignoring {A} (c : WarningCategory) (m : Py A) : Py A :=
  (filter (fun w => category_eqb (category w) c = false) m.1, m.2).

(** The adaptive rule.  [np.abs] of a zero argument makes the quotient
    infinite, and [min] then selects [max_scale_factor]. *)
Definition next_scale_factor (exponent max_scale_factor : R) : R :=
  if Req_dec_T (exponent + _EPSILON) 0 then max_scale_factor
  else Rmin (1.0 + _SHIFT_FACTOR / Rabs (exponent + _EPSILON))
            max_scale_factor.

Definition next (self : AdaExpFactory)
  : Py (gmap string R * AdaExpFactory) :=
  let n := length (_instack (AdaExp_super self)) in
  (* The 1st scale factor is always 1 *)
  if Nat.eqb n 0 then ret ({[ "scale_factor" := 1.0%R ]}, self)
  (* The 2nd scale factor is self._scale_factor *)
  else if Nat.eqb n 1
  then ret ({[ "scale_factor" := _scale_factor self ]}, self)
  (* If asymptote is None we use 2 * scale_factor as third noise parameter *)
  else if Nat.eqb n 2 && is_None (AdaExp_asymptote self)
  then ret ({[ "scale_factor" := (2 * _scale_factor self)%R ]}, self)
  else
    let! self :=
      ignoring ExtrapolationWarning
        (let! (_, self) := reduce self in
         ret (with_state self
                (set_already_reduced (AdaExp_super self) false)
                (history self))) in
    (* Get the most recent fitted parameters from self.history *)
    let! (_, _, params, _) := getitem (history self) (-1) in
    (* The exponent parameter is the 3rd element of params *)
    let! exponent := getitem params 2 in
    ret ({[ "scale_factor" :=
              next_scale_factor exponent (max_scale_factor self) ]}, self).

Definition is_converged (self : AdaExpFactory) : Py bool :=
  let f := AdaExp_super self in
  if negb (Nat.eqb (length (items (_outstack f))) (length (_instack f)))
  then raise (IndexError
    "The length of 'self._instack' and 'self._outstack' must be equal.")
  else ret (Z.of_nat (length (items (_outstack f))) =? _steps self)%Z.

Definition __eq__ (self : AdaExpFactory) (other : Any) : Py bool :=
  Factory.__eq__ (AdaExp_super self) other
  &&& match other with
      | OfAdaExpFactory o =>
          ret (_steps self =? _steps o)%Z
          &&& ret (if Req_dec_T (_scale_factor self) (_scale_factor o)
                   then true else false)
          &&& isclose_opt (AdaExp_asymptote self) (AdaExp_asymptote o)
          &&& ret (eqb (AdaExp_avoid_log self) (AdaExp_avoid_log o))
          &&& allclose_history (history self) (history o)
      | _ => ret false
      end.

#[global] Instance adaptive : Adaptive AdaExpFactory :=
  Build_Adaptive AdaExpFactory AdaExp_super
    (fun self f => with_state self f (history self))
    next is_converged reduce.
End Fit.
End AdaExpFactory.

(** ** Method dispatch on the concrete class *)

Section Dispatch.
Context `{Numerics}.

(** [obj.reduce()] *)
Definition reduce_of (obj : Any) : Py (R * Any) :=
  match obj with
  | OfPolyFactory o =>
      let! (l, o) := PolyFactory.reduce o in ret (l, OfPolyFactory o)
  | OfRichardsonFactory o =>
      let! (l, o) := RichardsonFactory.reduce o in ret (l, OfRichardsonFactory o)
  | OfFakeNodesFactory o =>
      let! (l, o) := FakeNodesFactory.reduce o in ret (l, OfFakeNodesFactory o)
  | OfLinearFactory o =>
      let! (l, o) := LinearFactory.reduce o in ret (l, OfLinearFactory o)
  | OfExpFactory o =>
      let! (l, o) := ExpFactory.reduce o in ret (l, OfExpFactory o)
  | OfPolyExpFactory o =>
      let! (l, o) := PolyExpFactory.reduce o in ret (l, OfPolyExpFactory o)
  | OfExpBayesFactory o =>
      let! (l, o) := ExpBayesFactory.reduce o in ret (l, OfExpBayesFactory o)
  | OfAdaExpFactory o =>
      let! (l, o) := AdaExpFactory.reduce o in ret (l, OfAdaExpFactory o)
  | NotAFactory => no_attribute "reduce"
  end.

(** [obj.reset()] *)
Definition reset_of (obj : Any) : Py Any :=
  match obj with
  | OfPolyFactory o =>
      ret (OfPolyFactory
             (mkPolyFactory (BatchedFactory.reset (Poly_super o)) (Poly_order o)))
  | OfRichardsonFactory o => ret (OfRichardsonFactory (BatchedFactory.reset o))
  | OfFakeNodesFactory o => ret (OfFakeNodesFactory (BatchedFactory.reset o))
  | OfLinearFactory o => ret (OfLinearFactory (BatchedFactory.reset o))
  | OfExpFactory o =>
      ret (OfExpFactory
             (mkExpFactory (BatchedFactory.reset (Exp_super o))
                           (Exp_asymptote o) (Exp_avoid_log o)))
  | OfPolyExpFactory o =>
      ret (OfPolyExpFactory
             (mkPolyExpFactory (BatchedFactory.reset (PolyExp_super o))
                               (PolyExp_order o) (PolyExp_asymptote o)
                               (PolyExp_avoid_log o)))
  | OfExpBayesFactory o => ret (OfExpBayesFactory (BatchedFactory.reset o))
  | OfAdaExpFactory o => ret (OfAdaExpFactory (AdaptiveFactory.reset o))
  | NotAFactory => no_attribute "reset"
  end.
End Dispatch.

(** ** Sequences of calls on a factory *)

(** The calls of the collection protocol on a batched factory.  The classes
    derived from [BatchedFactory] inherit [run], [run_classical] and [push]
    unchanged, so a call acts on the [BatchedFactory] attributes. *)
Inductive BatchedCall (QPROGRAM : Type) :=
| BatchedPush (instack_val : gmap string R) (outstack_val : R)
| BatchedRun (qp : QPROGRAM) (executor : Executor QPROGRAM)
             (scale_noise : QPROGRAM -> R -> Py QPROGRAM) (num_to_average : Z)
| BatchedRunClassical (fn : R -> gmap string R -> Py R).
Arguments BatchedPush {QPROGRAM}.
Arguments BatchedRun {QPROGRAM}.
Arguments BatchedRunClassical {QPROGRAM}.

Definition batched_call {QPROGRAM} (self : BatchedFactory)
    (c : BatchedCall QPROGRAM) : Py BatchedFactory :=
  match c with
  | BatchedPush i o => BatchedFactory.push self i o
  | BatchedRun qp executor scale_noise n =>
      BatchedFactory.run QPROGRAM self qp executor scale_noise n
  | BatchedRunClassical fn => BatchedFactory.run_classical self fn
  end.

Fixpoint batched_calls {QPROGRAM} (self : BatchedFactory)
    (cs : list (BatchedCall QPROGRAM)) : Py BatchedFactory :=
  match cs with
  | [] => ret self
  | c :: cs => let! self := batched_call self c in batched_calls self cs
  end.

(** The executor contract: a batched executor returns one value for each
    circuit it is given. *)
Definition one_value_per_circuit {QPROGRAM} (e : Executor QPROGRAM) : Prop :=
  match e with
  | SingleExecutor _ => True
  | BatchedExecutor call =>
      forall circuits kwargs_list res,
        returns (call circuits kwargs_list) res ->
        length res = length circuits
  end.

Definition call_respects_contract {QPROGRAM} (c : BatchedCall QPROGRAM) : Prop :=
  match c with
  | BatchedRun _ executor _ _ => one_value_per_circuit executor
  | _ => True
  end.

(** The calls of the collection protocol on an adaptive factory. *)
Inductive AdaptiveCall (QPROGRAM : Type) :=
| AdaptivePush (instack_val : gmap string R) (outstack_val : R)
| AdaptiveRun (qp : QPROGRAM) (executor : QPROGRAM -> gmap string R -> Py R)
              (scale_noise : QPROGRAM -> R -> Py QPROGRAM)
              (num_to_average max_iterations : Z)
| AdaptiveRunClassical (fn : R -> gmap string R -> Py R) (max_iterations : Z).
Arguments AdaptivePush {QPROGRAM}.
Arguments AdaptiveRun {QPROGRAM}.
Arguments AdaptiveRunClassical {QPROGRAM}.

Definition adaptive_call {QPROGRAM T} `{Adaptive T} (self : T)
    (c : AdaptiveCall QPROGRAM) : Py T :=
  match c with
  | AdaptivePush i o => AdaptiveFactory.push self i o
  | AdaptiveRun qp executor scale_noise n m =>
      AdaptiveFactory.run self qp executor scale_noise n m
  | AdaptiveRunClassical fn m => AdaptiveFactory.run_classical self fn m
  end.

Fixpoint adaptive_calls {QPROGRAM T} `{Adaptive T} (self : T)
    (cs : list (AdaptiveCall QPROGRAM)) : Py T :=
  match cs with
  | [] => ret self
  | c :: cs => let! self := adaptive_call self c in adaptive_calls self cs
  end.

(** [len(self._instack) == len(self._outstack)] *)
Definition balanced (f : Factory) : Prop :=
  length (_instack f) = length (items (_outstack f)).

(** ** A reference instance of the numeric routines

    The least-squares line in exact arithmetic: [np.polyfit] for [deg = 1],
    weights multiplying the residuals, the covariance scaled by the residual
    sum over [len(x) - 2] and refused when there are no more than two
    points.  The optimizer of [curve_fit] and the sampler are absent from
    this instance: a call ends with [RuntimeError]. *)
Module LeastSquares.

Definition total (l : list R) : R := fold_right Rplus 0%R l.

(** [sum(W * f * g)] *)
Definition wsum (W f g : list R) : R :=
  total (zip_with Rmult W (zip_with Rmult f g)).

Definition ones (l : list R) : list R := map (fun _ => 1%R) l.

(** The squared weights: [np.polyfit] multiplies each residual by its
    weight before squaring. *)
Definition weights (w : option (list R)) (x : list R) : list R :=
  match w with
  | Some w => map (fun wi => wi * wi)%R w
  | None => ones x
  end.

(** Determinant of the normal equations. *)
Definition det (W x : list R) : R :=
  (wsum W (ones x) (ones x) * wsum W x x
   - wsum W x (ones x) * wsum W x (ones x))%R.

Definition slope (W x y : list R) : R :=
  ((wsum W (ones x) (ones x) * wsum W x y
    - wsum W x (ones x) * wsum W y (ones x)) / det W x)%R.

Definition intercept (W x y : list R) : R :=
  ((wsum W x x * wsum W y (ones x)
    - wsum W x (ones x) * wsum W x y) / det W x)%R.

Definition covariance (W x y : list R) : matrix :=
  let a := slope W x y in
  let b := intercept W x y in
  let residual :=
    map (fun xy : R * R => xy.2 - (a * xy.1 + b))%R (zip x y) in
  let fac := (wsum W residual residual / (INR (length x) - 2))%R in
  let D := det W x in
  [[wsum W (ones x) (ones x) / D * fac; - wsum W x (ones x) / D * fac];
   [- wsum W x (ones x) / D * fac; wsum W x x / D * fac]]%R.

Definition polyfit (x y : list R) (deg : Z) (w : option (list R))
    (cov : bool) : Py PolyfitResult :=
  if negb (deg =? 1)%Z
  then raise (RuntimeError "degree outside the reference instance")
  else if negb (Nat.eqb (length x) (length y))
  then raise (TypeError "expected x and y to have same length")
  else
    let W := weights w x in
    if Req_dec_T (det W x) 0
    then raise (LinAlgError "Singular matrix")
    else
      let p := [slope W x y; intercept W x y] in
      if negb cov then ret (Coeffs p)
      else if (length x <=? 2)%nat
      then raise (ValueError
        "the number of data points must exceed order to scale the covariance matrix")
      else ret (CoeffsCov p (covariance W x y)).

#[export] Instance numerics : Numerics := {|
  np_polyfit := polyfit;
  curve_fit _ _ _ _ := raise (RuntimeError "Optimal parameters not found");
  pm_sample_means _ _ := raise (RuntimeError "sampling is not available")
|}.

End LeastSquares.

(** ** Definitions used in the statements *)

(** What a successful [reduce] leaves in the [Factory] attributes: the
    stacks as they were, and a cached curve. *)
Definition reduced_from (f f' : Factory) : Prop :=
  _instack f' = _instack f /\ _outstack f' = _outstack f
  /\ exists curve, _zne_curve f' = Some curve.

(** The input record [{"scale_factor": scale_factor}]. *)
Definition record (scale_factor : R) : gmap string R :=
  {[ "scale_factor" := scale_factor ]}.

(** A [LinearFactory] after [run_classical] on the line [2 x + 1]. *)
Definition linear_data : BatchedFactory :=
  mkBatchedFactory
    (mkFactory (map record [1; 2; 3]%R)
               (PyList [3; 5; 7]%R) None None None None None false)
    [1; 2; 3]%R None.

Definition linear_example : Any := OfLinearFactory linear_data.

(** An [AdaExpFactory] (five steps, known asymptote [0.0], logarithmic fit,
    [max_scale_factor = 6.0]) holding three points of [exp (3 - x)]. *)
Definition exp_decay_state : AdaExpFactory :=
  mkAdaExpFactory
    (mkFactory (map record [1; 2; 3]%R)
               (PyList [exp 2; exp 1; exp 0])
               None None None None None false)
    5 2%R (Some 0%R) false 6%R [].

(** The data handed to the logarithmic fit of [PolyExpFactory.extrapolate]
    and its weights. *)
Definition shifted_y (sign asymptote eps : R) (exp_values : list R) : list R :=
  map (fun y => Rmax (sign * (y - asymptote)) eps) exp_values.

Definition log_weights (shifted : list R) : option (list R) :=
  Some (map (fun y => sqrt (Rabs y)) shifted).

Definition UNBOUND : Exn :=
  UnboundLocalError "local variable 'zne_limit' referenced before assignment".

(** A batched factory with shot counts, as its constructor returns it, and a
    sequence of calls on it: [run] with a single executor and two circuits
    per scale factor, [run_classical], [push]. *)
Definition batched_example : BatchedFactory :=
  mkBatchedFactory Factory.__init__ [1; 2; 3]%R (Some [100; 100; 100]%Z).

Definition batched_example_calls : list (BatchedCall unit) :=
  [ BatchedRun tt (SingleExecutor (fun _ kwargs => ret 1%R))
               (fun qp _ => ret qp) 2;
    BatchedRunClassical (fun x kwargs => ret (2 * x + 1)%R);
    BatchedPush (record 4) 9%R ].

(** An adaptive factory with three steps and a known asymptote, as its
    constructor returns it, and a sequence of calls on it. *)
Definition adaptive_example : AdaExpFactory :=
  mkAdaExpFactory Factory.__init__ 3 2%R (Some 0%R) false 6%R [].

Definition adaptive_example_calls : list (AdaptiveCall unit) :=
  [ AdaptiveRunClassical (fun x kwargs => ret (exp (- x))) 2;
    AdaptivePush (record 5) 0.5%R ].

(** The classical model [x -> exp(-x)], which takes no keyword. *)
Definition decay (x : R) (kwargs : gmap string R) : Py R := ret (exp (- x)).

(** ** Further definitions: the deprecated [iterate], expected keywords *)

Definition ITERATE_WARN : string :=
  "The `iterate` method is deprecated in v0.3.0 and will be removed in v0.4.0. Use `run_classical` instead.".

(** [Factory.iterate] as a batched factory inherits it: the warning, then
    [self.run_classical(noise_to_expval)]; [max_iterations] is not used. *)
Definition iterate_on_batched (self : BatchedFactory)
    (noise_to_expval : R -> gmap string R -> Py R) (max_iterations : Z)
  : Py BatchedFactory :=
  do! warn DeprecationWarning ITERATE_WARN in
  BatchedFactory.run_classical self noise_to_expval.

(** [Factory.iterate] as an adaptive factory inherits it:
    [run_classical] is called without [max_iterations] and takes its
    default, 100. *)
Definition iterate_on_adaptive {T : Type} `{Adaptive T} (self : T)
    (noise_to_expval : R -> gmap string R -> Py R) (max_iterations : Z)
  : Py T :=
  do! warn DeprecationWarning ITERATE_WARN in
  AdaptiveFactory.run_classical self noise_to_expval 100.

(** The keyword dictionaries that go with the scale factors of a batched
    factory: [{"shots": n}] under a shot list, [{}] otherwise. *)
Definition expected_kwargs (self : BatchedFactory) : list (gmap string R) :=
  if truthy (_shot_list self)
  then map (fun shots : Z => {[ "shots" := IZR shots ]})
           (default [] (_shot_list self))
  else map (fun _ : R => ∅) (_scale_factors self).

(** What the constructor guarantees about a shot list in use. *)
Definition shots_consistent (self : BatchedFactory) : Prop :=
  truthy (_shot_list self) = true ->
  length (default [] (_shot_list self)) = length (_scale_factors self).

(** ** A second instance of the numeric routines

    The least-squares line as in the first instance, and an optimizer for
    [curve_fit] that stays at the initial guess when the ansatz reproduces
    the data exactly there (the residual, and with it the scaled
    covariance, is zero) and fails otherwise. *)
Module ExactFit.

Definition reproduces (f : R -> list R -> R) (xdata ydata p : list R) : bool :=
  Nat.eqb (length xdata) (length ydata)
  && forallb (fun xy : R * R =>
                if Req_dec_T (f xy.1 p) xy.2 then true else false)
             (zip xdata ydata).

Definition zeros (n : nat) : matrix := replicate n (replicate n 0%R).

Definition fit (f : R -> list R -> R) (xdata ydata : list R)
    (p0 : option (list R)) : Py (list R * matrix) :=
  match p0 with
  | Some p =>
      if reproduces f xdata ydata p then ret (p, zeros (length p))
      else raise (RuntimeError "Optimal parameters not found")
  | None => raise (RuntimeError "Optimal parameters not found")
  end.

#[export] Instance numerics : Numerics :=
  Build_Numerics LeastSquares.polyfit fit
    (fun _ _ => raise (RuntimeError "sampling is not available")).

End ExactFit.

(** Three points of the exponential ansatz with the asymptote [0.5], the
    amplitude [1] and the rate [-1], that is of [0.5 + exp (- x)]. *)
Definition avoid_log_data : list R :=
  map (fun x => PolyExpFactory._ansatz_known 0.5 x [1; -1]%R) [1; 2; 3]%R.

(** * Properties *)

(** ** The monad *)

Lemma bind_returns_inv {A B} (m : Py A) (k : A -> Py B) (b : B) :
  returns (bind m k) b -> exists a, returns m a /\ returns (k a) b.
Proof.
  unfold returns, outcome, bind.
  destruct m as [ws [e | a]]; simpl; [discriminate |].
  destruct (k a) as [ws' r] eqn:Hk; simpl; intros ->.
  exists a. rewrite Hk. auto.
Qed.

Lemma bind_returns {A B} (m : Py A) (k : A -> Py B) (a : A) (b : B) :
  returns m a -> returns (k a) b -> returns (bind m k) b.
Proof.
  unfold returns, outcome, bind.
  destruct m as [ws [e | a']]; simpl; [discriminate |].
  intros [= ->]. destruct (k a) as [ws' r]; simpl. auto.
Qed.

Lemma bind_raises_l {A B} (m : Py A) (k : A -> Py B) (e : Exn) :
  raises m e -> raises (bind m k) e.
Proof.
  unfold raises, outcome, bind.
  destruct m as [ws [e' | a]]; simpl; intros Hx; [congruence | discriminate Hx].
Qed.

Lemma bind_raises_r {A B} (m : Py A) (k : A -> Py B) (a : A) (e : Exn) :
  returns m a -> raises (k a) e -> raises (bind m k) e.
Proof.
  unfold returns, raises, outcome, bind.
  destruct m as [ws [e' | a']]; simpl; [discriminate |].
  intros [= ->]. destruct (k a) as [ws' r]; simpl. auto.
Qed.

Lemma ret_returns {A} (a b : A) : returns (ret a) b -> a = b.
Proof. unfold returns, outcome, ret; simpl. congruence. Qed.

Lemma raise_not_returns {A} (e : Exn) (a : A) : ~ returns (raise e) a.
Proof. unfold returns, outcome, raise; simpl. discriminate. Qed.

(** Inversion of a successful sequence of binds in a hypothesis. *)
Ltac py_inv H :=
  repeat match type of H with
  | returns (bind _ _) _ =>
      let a := fresh "v" in
      let Ha := fresh "Hv" in
      apply bind_returns_inv in H; destruct H as (a & Ha & H)
  | returns (ret _) _ => apply ret_returns in H
  | returns (raise _) _ => exfalso; exact (raise_not_returns _ _ H)
  end.

Lemma mapM_length {A B} (f : A -> Py B) (l : list A) (bs : list B) :
  returns (mapM f l) bs -> length bs = length l.
Proof.
  revert bs. induction l as [| a l IH]; intros bs Hr; simpl in Hr.
  - py_inv Hr. now subst.
  - py_inv Hr. subst bs. simpl. f_equal. now apply IH.
Qed.

Lemma mapM_returns {A B} (f : A -> Py B) (g : A -> B) (l : list A) :
  (forall a, returns (f a) (g a)) -> returns (mapM f l) (map g l).
Proof.
  intros Hf. induction l as [| a l IH]; simpl.
  - reflexivity.
  - eapply bind_returns; [apply Hf |].
    eapply bind_returns; [apply IH | reflexivity].
Qed.

(** ** Construction of a batched factory *)

Lemma BatchedFactory_init_cases (scale_factors : list R)
    (shot_list : option (list PyVal)) :
  BatchedFactory.__init__ scale_factors shot_list =
    if (length scale_factors <? 2)%nat
    then raise (ValueError "At least 2 scale factors are necessary.")
    else match shot_list with
         | Some (v :: l) =>
             if negb (forallb is_int (v :: l))
             then raise (TypeError
               "The optional argument shot_list must be None or a valid iterator of integers.")
             else if negb (Nat.eqb (length scale_factors) (length (v :: l)))
             then raise (IndexError BatchedFactory.LENGTH_ERR)
             else ret (mkBatchedFactory Factory.__init__ scale_factors
                         (Some (map int_value (v :: l))))
         | other =>
             ret (mkBatchedFactory Factory.__init__ scale_factors
                    (map int_value <$> other))
         end.
Proof.
  unfold BatchedFactory.__init__.
  destruct (length scale_factors <? 2)%nat; [reflexivity |].
  destruct shot_list as [[| v l] |]; reflexivity.
Qed.

(** C7, the claim as stated fails: an explicitly given, empty [shot_list]
    has a length different from that of two scale factors, and the
    construction returns an object instead of raising [IndexError]. *)
Lemma BatchedFactory_accepts_empty_shot_list :
  length (@nil PyVal) <> length [1; 2]%R
  /\ returns (BatchedFactory.__init__ [1; 2]%R (Some []))
             (mkBatchedFactory Factory.__init__ [1; 2]%R (Some [])).
Proof. split; [simpl; lia | reflexivity]. Qed.

(** C7, amended: construction raises [ValueError] when fewer than two scale
    factors are given; otherwise [TypeError] when a non-empty [shot_list]
    holds a non-integer; otherwise [IndexError] when a non-empty [shot_list]
    of integers has another length than [scale_factors]; otherwise (no
    [shot_list], an empty one, or integers of the right length) it
    succeeds. *)
Theorem BatchedFactory_init_outcome (scale_factors : list R)
    (shot_list : option (list PyVal)) :
  ((length scale_factors < 2)%nat ->
     exists msg, raises (BatchedFactory.__init__ scale_factors shot_list)
                        (ValueError msg))
  /\ ((2 <= length scale_factors)%nat ->
      forall l, shot_list = Some l -> l <> [] ->
      Exists (fun v => is_int v = false) l ->
      exists msg, raises (BatchedFactory.__init__ scale_factors shot_list)
                         (TypeError msg))
  /\ ((2 <= length scale_factors)%nat ->
      forall l, shot_list = Some l -> l <> [] ->
      Forall (fun v => is_int v = true) l ->
      length l <> length scale_factors ->
      exists msg, raises (BatchedFactory.__init__ scale_factors shot_list)
                         (IndexError msg))
  /\ ((2 <= length scale_factors)%nat ->
      shot_list = None \/ shot_list = Some []
      \/ (exists l, shot_list = Some l
                    /\ Forall (fun v => is_int v = true) l
                    /\ length l = length scale_factors) ->
      exists self, returns (BatchedFactory.__init__ scale_factors shot_list) self
                   /\ _scale_factors self = scale_factors
                   /\ balanced (Batched_super self)).
Proof.
  rewrite BatchedFactory_init_cases.
  repeat split.
  - intros Hlt. apply Nat.ltb_lt in Hlt. rewrite Hlt. eexists; reflexivity.
  - intros Hge l -> Hne Hex.
    apply Nat.ltb_ge in Hge. rewrite Hge.
    destruct l as [| v l]; [congruence |].
    assert (Hf : forallb is_int (v :: l) = false).
    { apply not_true_is_false. intros Hall.
      rewrite forallb_forall in Hall. apply Exists_exists in Hex.
      destruct Hex as (x & Hin & Hx). apply list_elem_of_In in Hin.
      rewrite (Hall x Hin) in Hx. discriminate. }
    rewrite Hf. eexists; reflexivity.
  - intros Hge l -> Hne Hall Hlen.
    apply Nat.ltb_ge in Hge. rewrite Hge.
    destruct l as [| v l]; [congruence |].
    assert (Hf : forallb is_int (v :: l) = true).
    { apply forallb_forall. intros x Hin. apply list_elem_of_In in Hin.
      rewrite Forall_forall in Hall. now apply Hall. }
    rewrite Hf. simpl negb.
    assert (Hn : Nat.eqb (length scale_factors) (length (v :: l)) = false).
    { apply Nat.eqb_neq. congruence. }
    simpl in Hn |- *. rewrite Hn. eexists; reflexivity.
  - intros Hge Hcase.
    apply Nat.ltb_ge in Hge. rewrite Hge.
    destruct Hcase as [-> | [-> | (l & -> & Hall & Hlen)]].
    + eexists; repeat split.
    + eexists; repeat split.
    + destruct l as [| v l]; [eexists; repeat split |].
      assert (Hf : forallb is_int (v :: l) = true).
      { apply forallb_forall. intros x Hin. apply list_elem_of_In in Hin.
        rewrite Forall_forall in Hall. now apply Hall. }
      rewrite Hf. rewrite <- Hlen, Nat.eqb_refl. simpl negb.
      eexists; repeat split.
Qed.

Lemma BatchedFactory_init_outcome_witness :
  (exists msg, raises (BatchedFactory.__init__ [1]%R None) (ValueError msg))
  /\ (exists msg, raises (BatchedFactory.__init__ [1; 2]%R
                            (Some [PyInt 10; PyFloat 0.5])) (TypeError msg))
  /\ (exists msg, raises (BatchedFactory.__init__ [1; 2]%R
                            (Some [PyInt 10])) (IndexError msg))
  /\ (exists self, returns (BatchedFactory.__init__ [1; 2]%R
                              (Some [PyInt 10; PyInt 20])) self
                   /\ _scale_factors self = [1; 2]%R
                   /\ balanced (Batched_super self)).
Proof.
  split; [| split; [| split]].
  - apply (proj1 (BatchedFactory_init_outcome [1]%R None)). simpl; lia.
  - apply (proj1 (proj2 (BatchedFactory_init_outcome [1; 2]%R
                           (Some [PyInt 10; PyFloat 0.5])))
             ltac:(simpl; lia) [PyInt 10; PyFloat 0.5] eq_refl).
    + discriminate.
    + apply Exists_cons_tl, Exists_cons_hd. reflexivity.
  - apply (proj1 (proj2 (proj2 (BatchedFactory_init_outcome [1; 2]%R
                                  (Some [PyInt 10]))))
             ltac:(simpl; lia) [PyInt 10] eq_refl).
    + discriminate.
    + repeat constructor.
    + simpl; lia.
  - apply (proj2 (proj2 (proj2 (BatchedFactory_init_outcome [1; 2]%R
                                  (Some [PyInt 10; PyInt 20]))))
             ltac:(simpl; lia)).
    right; right. exists [PyInt 10; PyInt 20].
    split; [reflexivity | split; [repeat constructor | reflexivity]].
Defined.

(** ** The reference instance *)

Section ReferenceInstance.
Import LeastSquares.
Existing Instance LeastSquares.numerics.

Lemma mitiq_polyfit_line (x y : list R) (w : option (list R)) :
  length x = length y ->
  det (weights w x) x <> 0%R ->
  mitiq_polyfit x y 1 w =
    ([], inr ([slope (weights w x) x y; intercept (weights w x) x y],
              if (length x <=? 2)%nat then None
              else Some (covariance (weights w x) x y))).
Proof.
  intros Hlen Hdet.
  unfold mitiq_polyfit, np_polyfit; simpl.
  unfold polyfit. simpl.
  rewrite Hlen, Nat.eqb_refl. simpl.
  destruct (Req_dec_T (det (weights w x) x) 0) as [Hz | _]; [contradiction |].
  simpl. rewrite <- Hlen.
  destruct (length x <=? 2)%nat; reflexivity.
Qed.

Lemma PolyFactory_extrapolate_line (x y : list R) :
  length x = length y ->
  det (weights None x) x <> 0%R ->
  exists err cov,
    returns (PolyFactory.extrapolate x y 1 true)
            (Full (intercept (weights None x) x y) err
                  [slope (weights None x) x y; intercept (weights None x) x y]
                  cov
                  (polyval [slope (weights None x) x y;
                            intercept (weights None x) x y])).
Proof.
  intros Hlen Hdet. unfold PolyFactory.extrapolate.
  rewrite (mitiq_polyfit_line x y None Hlen Hdet).
  destruct (length x <=? 2)%nat; do 2 eexists; reflexivity.
Qed.
End ReferenceInstance.

(** ** Richardson extrapolation *)

(** C6: on [n >= 2] points, [RichardsonFactory.extrapolate] returns what
    [PolyFactory.extrapolate] returns with [order = n - 1]: the same limit,
    error, parameters, covariance and curve, and the same warnings or
    exception. *)
Theorem Richardson_is_Poly_of_maximal_order `{Numerics}
    (scale_factors exp_values : list R) (n : nat) (full_output : bool) :
  length scale_factors = n -> length exp_values = n -> (2 <= n)%nat ->
  RichardsonFactory.extrapolate scale_factors exp_values full_output
  = PolyFactory.extrapolate scale_factors exp_values (Z.of_nat n - 1)
                            full_output.
Proof.
  intros Hs _ _. unfold RichardsonFactory.extrapolate. now rewrite Hs.
Qed.

Lemma Richardson_is_Poly_of_maximal_order_witness :
  @RichardsonFactory.extrapolate LeastSquares.numerics [1; 2]%R [3; 5]%R true
  = @PolyFactory.extrapolate LeastSquares.numerics [1; 2]%R [3; 5]%R
      (Z.of_nat 2 - 1) true.
Proof.
  apply (@Richardson_is_Poly_of_maximal_order LeastSquares.numerics
           [1; 2]%R [3; 5]%R 2%nat true); [reflexivity | reflexivity | lia].
Defined.

(** ** Cached fit outputs and [reset] *)

Lemma float_array_Some (l : list R) :
  returns (Factory.float_array (map Some l)) l.
Proof.
  unfold Factory.float_array.
  induction l as [| a l IH]; simpl.
  - reflexivity.
  - eapply bind_returns; [reflexivity |].
    eapply bind_returns; [apply IH | reflexivity].
Qed.

Lemma store_returns (f : Factory) (e : Extrapolation) (l : R) (f' : Factory) :
  returns (Factory.store f e) (l, f') ->
  exists err p cov curve,
    e = Full l err p cov curve
    /\ f' = mkFactory (_instack f) (_outstack f) (Some p) cov (Some l) err
                      (Some curve) true.
Proof.
  destruct e as [l0 | l0 err p cov curve]; simpl; intros Hr.
  - py_inv Hr.
  - py_inv Hr. injection Hr as <- <-. now exists err, p, cov, curve.
Qed.

Lemma reduce_with_returns (ex : list R -> list R -> Py Extrapolation)
    (self : BatchedFactory) (l : R) (b : BatchedFactory) :
  returns (BatchedFactory.reduce_with ex self) (l, b) ->
  reduced_from (Batched_super self) (Batched_super b).
Proof.
  unfold BatchedFactory.reduce_with. intros Hr. py_inv Hr.
  destruct v1 as [l1 f1]. py_inv Hr. injection Hr as <- <-.
  apply store_returns in Hv1 as (err & p & cov & curve & -> & ->).
  repeat split; simpl; eauto.
Qed.

Lemma AdaExp_reduce_returns `{Numerics} (self : AdaExpFactory) (l : R)
    (self' : AdaExpFactory) :
  returns (AdaExpFactory.reduce self) (l, self') ->
  reduced_from (AdaExp_super self) (AdaExp_super self').
Proof.
  unfold AdaExpFactory.reduce. intros Hr. py_inv Hr.
  destruct v1 as [l1 f1]. py_inv Hr. injection Hr as <- <-.
  apply store_returns in Hv1 as (err & p & cov & curve & -> & ->).
  repeat split; simpl; eauto.
Qed.

Lemma reduce_of_returns `{Numerics} (obj obj' : Any) (l : R) :
  returns (reduce_of obj) (l, obj') ->
  exists f f', as_Factory obj = Some f /\ as_Factory obj' = Some f'
               /\ reduced_from f f'.
Proof.
  destruct obj as [o | o | o | o | o | o | o | o |]; simpl; intros Hr;
    try (py_inv Hr; destruct v as [l0 o0]; py_inv Hr; injection Hr as <- <-).
  - unfold PolyFactory.reduce in Hv. py_inv Hv. destruct v as [l1 b].
    py_inv Hv. injection Hv as <- <-.
    apply reduce_with_returns in Hv0. simpl. eauto.
  - apply reduce_with_returns in Hv. simpl. eauto.
  - apply reduce_with_returns in Hv. simpl. eauto.
  - apply reduce_with_returns in Hv. simpl. eauto.
  - unfold ExpFactory.reduce in Hv. py_inv Hv. destruct v as [l1 b].
    py_inv Hv. injection Hv as <- <-.
    apply reduce_with_returns in Hv0. simpl. eauto.
  - unfold PolyExpFactory.reduce in Hv. py_inv Hv. destruct v as [l1 b].
    py_inv Hv. injection Hv as <- <-.
    apply reduce_with_returns in Hv0. simpl. eauto.
  - apply reduce_with_returns in Hv. simpl. eauto.
  - apply AdaExp_reduce_returns in Hv. simpl. eauto.
  - unfold no_attribute in Hr. py_inv Hr.
Qed.

Lemma reset_of_returns `{Numerics} (obj obj' : Any) :
  returns (reset_of obj) obj' ->
  exists f, as_Factory obj = Some f
            /\ as_Factory obj' = Some (Factory.reset f).
Proof.
  destruct obj as [o | o | o | o | o | o | o | o |]; simpl; intros Hr;
    try unfold no_attribute in Hr; py_inv Hr; subst obj'; simpl; eauto.
Qed.

(** C2, on the code: after a successful [reduce] and a [reset], the four
    accessors of the parameters, the covariance, the limit and its error
    raise the data-missing [ValueError], while [get_extrapolation_curve]
    returns the curve cached by the fit made before the reset. *)
Theorem reset_keeps_the_extrapolation_curve `{Numerics}
    (obj obj' obj'' : Any) (zne_limit : R) :
  returns (reduce_of obj) (zne_limit, obj') ->
  returns (reset_of obj') obj'' ->
  exists f' f'' curve,
    as_Factory obj' = Some f' /\ as_Factory obj'' = Some f''
    /\ _zne_curve f' = Some curve
    /\ returns (Factory.get_extrapolation_curve f'') curve
    /\ raises (Factory.get_optimal_parameters f'') (ValueError DATA_MISSING_ERR)
    /\ raises (Factory.get_parameters_covariance f'') (ValueError DATA_MISSING_ERR)
    /\ raises (Factory.get_zero_noise_limit f'') (ValueError DATA_MISSING_ERR)
    /\ raises (Factory.get_zero_noise_limit_error f'')
              (ValueError DATA_MISSING_ERR).
Proof.
  intros Hred Hreset.
  apply reduce_of_returns in Hred as (f & f' & _ & Hf' & _ & _ & curve & Hc).
  apply reset_of_returns in Hreset as (g & Hg & Hg').
  rewrite Hf' in Hg. injection Hg as <-.
  exists f', (Factory.reset f'), curve.
  repeat split; auto.
  unfold Factory.get_extrapolation_curve. simpl. now rewrite Hc.
Qed.

Section ReferenceExamples.
Import LeastSquares.

Lemma det_123 : det (weights None [1; 2; 3]%R) [1; 2; 3]%R <> 0%R.
Proof. unfold det, weights, wsum, ones, total. simpl. lra. Qed.

Lemma reduce_with_succeeds (ex : list R -> list R -> Py Extrapolation)
    (self : BatchedFactory) (sf : list R) l err p cov curve :
  BatchedFactory.get_scale_factors self = map Some sf ->
  returns (ex sf (BatchedFactory.get_expectation_values self))
          (Full l err p cov curve) ->
  exists b, returns (BatchedFactory.reduce_with ex self) (l, b).
Proof.
  intros Hsf Hex. eexists. unfold BatchedFactory.reduce_with. rewrite Hsf.
  eapply bind_returns; [apply float_array_Some |].
  eapply bind_returns; [exact Hex |].
  reflexivity.
Qed.

Lemma linear_example_reduces :
  exists l obj', returns (@reduce_of numerics linear_example) (l, obj').
Proof.
  destruct (PolyFactory_extrapolate_line [1; 2; 3]%R [3; 5; 7]%R eq_refl det_123)
    as (err & cov & Hex).
  destruct (reduce_with_succeeds
              (fun sf ev => @LinearFactory.extrapolate numerics sf ev true)
              linear_data [1; 2; 3]%R _ _ _ _ _ eq_refl Hex) as (b & Hb).
  do 2 eexists. unfold linear_example, reduce_of, LinearFactory.reduce.
  eapply bind_returns; [exact Hb | reflexivity].
Qed.

Lemma reset_keeps_the_extrapolation_curve_witness :
  exists obj' obj'' zne_limit f' f'' curve,
    returns (@reduce_of numerics linear_example) (zne_limit, obj')
    /\ returns (reset_of obj') obj''
    /\ as_Factory obj' = Some f' /\ as_Factory obj'' = Some f''
    /\ _zne_curve f' = Some curve
    /\ returns (Factory.get_extrapolation_curve f'') curve
    /\ raises (Factory.get_optimal_parameters f'') (ValueError DATA_MISSING_ERR)
    /\ raises (Factory.get_parameters_covariance f'') (ValueError DATA_MISSING_ERR)
    /\ raises (Factory.get_zero_noise_limit f'') (ValueError DATA_MISSING_ERR)
    /\ raises (Factory.get_zero_noise_limit_error f'')
              (ValueError DATA_MISSING_ERR).
Proof.
  destruct linear_example_reduces as (l & obj' & Hred).
  assert (Hreset : exists obj'', returns (reset_of obj') obj'').
  { destruct (@reduce_of_returns numerics _ _ _ Hred) as (f & f' & _ & Hf' & _).
    destruct obj'; simpl in Hf'; try discriminate; eexists; reflexivity. }
  destruct Hreset as (obj'' & Hreset).
  destruct (@reset_keeps_the_extrapolation_curve numerics _ _ _ _ Hred Hreset)
    as (f' & f'' & curve & Hall).
  exists obj', obj'', l, f', f'', curve. tauto.
Defined.
End ReferenceExamples.

(** ** The logarithmic fit of [PolyExpFactory.extrapolate] *)

Lemma polyval_app (p : list R) (c x : R) :
  polyval (p ++ [c]) x = (polyval p x * x + c)%R.
Proof. unfold polyval. now rewrite fold_left_app. Qed.

(** The value at zero of a polynomial is its last coefficient. *)
Lemma polyval_0 (p : list R) (c : R) :
  getitem p (-1) = ret c -> polyval p 0 = c.
Proof.
  unfold getitem, py_index. simpl.
  induction p as [| c0 p' _] using rev_ind; simpl; [discriminate |].
  rewrite length_app. simpl.
  replace (Z.of_nat (length p' + 1) + -1)%Z with (Z.of_nat (length p')) by lia.
  destruct (0 <=? Z.of_nat (length p'))%Z eqn:Hle; [| apply Z.leb_gt in Hle; lia].
  rewrite Nat2Z.id, lookup_app_r, Nat.sub_diag by lia. simpl.
  intros [= ->]. rewrite polyval_app. lra.
Qed.

Lemma getitem_returns {A} (l : list A) (i : Z) (a : A) :
  returns (getitem l i) a -> getitem l i = ret a.
Proof.
  unfold getitem. destruct (py_index l i); intros Hr; py_inv Hr; now subst.
Qed.

(** C3, on the code: with a known asymptote and [avoid_log=False], a call
    under [full_output=True] that returns has the limit
    [asymptote + sign * exp(z(0))] as first component, [z] being the
    polynomial fitted to the logarithm of the shifted data with the weights
    [sqrt |shifted y|] and [sign] the opposite of the sign of the slope of
    a degree-1 fit; the same call under [full_output=False] does not return
    the limit: it ends with [UnboundLocalError], since its last statement
    reads [zne_limit] while the limit is bound to [zero_limit]. *)
Theorem PolyExp_log_fit_limit `{Numerics}
    (scale_factors exp_values : list R) (order : Z) (asymptote eps : R)
    (r : Extrapolation) :
  returns (PolyExpFactory.extrapolate scale_factors exp_values order
             (Some asymptote) false eps true) r ->
  (exists linear_params cov0 slope z cov1,
      returns (mitiq_polyfit scale_factors exp_values 1 None)
              (linear_params, cov0)
      /\ getitem linear_params 0 = ret slope
      /\ let sign := np_sign (- slope) in
         let shifted := shifted_y sign asymptote eps exp_values in
         returns (mitiq_polyfit scale_factors (map ln shifted) order
                                (log_weights shifted)) (z, cov1)
         /\ limit_of r = (asymptote + sign * exp (polyval z 0))%R)
  /\ raises (PolyExpFactory.extrapolate scale_factors exp_values order
               (Some asymptote) false eps false) UNBOUND.
Proof.
  unfold PolyExpFactory.extrapolate.
  destruct (negb (Nat.eqb (length scale_factors) (length exp_values))
            || (length scale_factors <? 2)%nat);
    [intros Hr; py_inv Hr |].
  destruct (order >? Z.of_nat (length scale_factors) - (1 + 0))%Z;
    [intros Hr; py_inv Hr |].
  intros Hr.
  apply bind_returns_inv in Hr as ([linear_params cov0] & Hfit0 & Hr).
  apply bind_returns_inv in Hr as (slope & Hslope & Hr).
  apply bind_returns_inv in Hr as ([z cov1] & Hfit1 & Hr).
  apply bind_returns_inv in Hr as (z_last & Hlast & Hr).
  apply bind_returns_inv in Hr as (zne_error & Herr & Hr).
  apply ret_returns in Hr, Herr. subst r zne_error.
  apply getitem_returns in Hslope, Hlast.
  split.
  - exists linear_params, cov0, slope, z, cov1.
    repeat split; auto. simpl. now rewrite (polyval_0 z z_last Hlast).
  - eapply bind_raises_r; [exact Hfit0 |]. simpl.
    eapply bind_raises_r; [now rewrite Hslope |].
    eapply bind_raises_r; [exact Hfit1 |]. simpl.
    eapply bind_raises_r; [now rewrite Hlast |].
    eapply bind_raises_r; [reflexivity |].
    reflexivity.
Qed.

(** C10: with a known asymptote and [avoid_log=False], the tuple returned
    under [full_output=True] has [zne_error = None] (and no covariance),
    whatever covariance the polynomial fit of the exponent produced: the fit
    binds it to [param_cov], and the propagation of errors tests
    [params_cov], which is still [None]. *)
Theorem PolyExp_log_fit_error_is_None `{Numerics}
    (scale_factors exp_values : list R) (order : Z) (asymptote eps : R)
    (r : Extrapolation) :
  returns (PolyExpFactory.extrapolate scale_factors exp_values order
             (Some asymptote) false eps true) r ->
  exists zne_limit opt_params zne_curve,
    r = Full zne_limit None opt_params None zne_curve.
Proof.
  unfold PolyExpFactory.extrapolate.
  destruct (negb (Nat.eqb (length scale_factors) (length exp_values))
            || (length scale_factors <? 2)%nat);
    [intros Hr; py_inv Hr |].
  destruct (order >? Z.of_nat (length scale_factors) - (1 + 0))%Z;
    [intros Hr; py_inv Hr |].
  intros Hr.
  apply bind_returns_inv in Hr as ([linear_params cov0] & Hfit0 & Hr).
  apply bind_returns_inv in Hr as (slope & Hslope & Hr).
  apply bind_returns_inv in Hr as ([z cov1] & Hfit1 & Hr).
  apply bind_returns_inv in Hr as (z_last & Hlast & Hr).
  apply bind_returns_inv in Hr as (zne_error & Herr & Hr).
  apply ret_returns in Hr, Herr. subst r zne_error.
  do 3 eexists. reflexivity.
Qed.

Section LogFitExamples.
Import LeastSquares.

Lemma PolyExp_log_fit_line (x y : list R) (a eps : R) :
  length x = length y -> (2 <= length x)%nat ->
  det (weights None x) x <> 0%R ->
  let sign := np_sign (- slope (weights None x) x y) in
  let shifted := shifted_y sign a eps y in
  let W := weights (log_weights shifted) x in
  det W x <> 0%R ->
  exists curve,
    returns (@PolyExpFactory.extrapolate numerics x y 1 (Some a) false eps true)
            (Full (a + sign * exp (intercept W x (map ln shifted))) None
                  [a; intercept W x (map ln shifted);
                   slope W x (map ln shifted)]
                  None curve).
Proof.
  intros Hlen Hge Hdet0 sign shifted W Hdet1.
  unfold PolyExpFactory.extrapolate.
  rewrite Hlen, Nat.eqb_refl. simpl negb. rewrite <- Hlen.
  replace (length x <? 2)%nat with false by (symmetry; apply Nat.ltb_ge; lia).
  simpl orb. cbv iota.
  replace (1 >? Z.of_nat (length x) - (1 + 0))%Z with false
    by (symmetry; rewrite Z.gtb_ltb; apply Z.ltb_ge; lia).
  assert (Hfit0 : returns (mitiq_polyfit x y 1 None)
            ([slope (weights None x) x y; intercept (weights None x) x y],
             if (length x <=? 2)%nat then None
             else Some (covariance (weights None x) x y)))
    by now rewrite (mitiq_polyfit_line x y None Hlen Hdet0).
  assert (Hfit1 : returns (mitiq_polyfit x (map ln shifted) 1
                             (log_weights shifted))
            ([slope W x (map ln shifted); intercept W x (map ln shifted)],
             if (length x <=? 2)%nat then None
             else Some (covariance W x (map ln shifted)))).
  { rewrite mitiq_polyfit_line; [reflexivity | | exact Hdet1].
    unfold shifted, shifted_y. now rewrite !length_map. }
  eexists. eapply bind_returns; [exact Hfit0 |]. cbv beta iota.
  eapply bind_returns; [reflexivity |].
  eapply bind_returns; [exact Hfit1 |]. cbv beta iota.
  eapply bind_returns; [reflexivity |].
  eapply bind_returns; [reflexivity |].
  reflexivity.
Qed.

Lemma shifted_positive (sign a eps y : R) :
  (0 < eps)%R -> (0 < Rabs (Rmax (sign * (y - a)) eps))%R.
Proof.
  intros Heps. apply Rabs_pos_lt.
  pose proof (Rmax_r (sign * (y - a)) eps). lra.
Qed.

Lemma det_log_weights_123 (sign a eps y1 y2 y3 : R) :
  (0 < eps)%R ->
  det (weights (log_weights (shifted_y sign a eps [y1; y2; y3]))
               [1; 2; 3]%R) [1; 2; 3]%R <> 0%R.
Proof.
  intros Heps.
  unfold det, weights, log_weights, shifted_y, wsum, ones, total. simpl.
  rewrite !sqrt_sqrt by apply Rabs_pos.
  pose proof (shifted_positive sign a eps y1 Heps).
  pose proof (shifted_positive sign a eps y2 Heps).
  pose proof (shifted_positive sign a eps y3 Heps).
  nra.
Qed.

End LogFitExamples.

(** ** The adaptive rule of [AdaExpFactory.next] *)

Lemma getitem_last {A} (l : list A) (a : A) : getitem (l ++ [a]) (-1) = ret a.
Proof.
  unfold getitem, py_index. simpl. rewrite length_app. simpl.
  replace (Z.of_nat (length l + 1) + -1)%Z with (Z.of_nat (length l)) by lia.
  destruct (0 <=? Z.of_nat (length l))%Z eqn:Hle;
    [| apply Z.leb_gt in Hle; lia].
  now rewrite Nat2Z.id, lookup_app_r, Nat.sub_diag by lia.
Qed.

Lemma ignoring_returns {A} (c : WarningCategory) (m : Py A) (a : A) :
  returns (AdaExpFactory.ignoring c m) a <-> returns m a.
Proof. reflexivity. Qed.

Lemma ignoring_silent {A} (c : WarningCategory) (m : Py A) :
  emits (AdaExpFactory.ignoring c m) c = false.
Proof.
  unfold emits, warnings_of, AdaExpFactory.ignoring. simpl.
  induction (m.1) as [| w ws IH]; [reflexivity |].
  rewrite filter_cons.
  destruct (decide (category_eqb (category w) c = false)) as [Hc | Hc];
    simpl; [rewrite Hc |]; exact IH.
Qed.

Lemma emits_bind {A B} (m : Py A) (k : A -> Py B) (c : WarningCategory) :
  emits m c = false -> (forall a, emits (k a) c = false) ->
  emits (bind m k) c = false.
Proof.
  unfold emits, warnings_of, bind. intros Hm Hk.
  destruct m as [ws [e | a]]; simpl in *; [exact Hm |].
  specialize (Hk a). destruct (k a) as [ws' r]; simpl in *.
  now rewrite existsb_app, Hm, Hk.
Qed.

Lemma getitem_silent {A} (l : list A) (i : Z) (c : WarningCategory) :
  emits (getitem l i) c = false.
Proof. unfold getitem. now destruct (py_index l i). Qed.

(** C4, amended: on a state with at least three collected points, [next]
    makes the probe fit ([reduce] on the current data), emits no
    [ExtrapolationWarning], leaves [_already_reduced] false, and returns the
    record [{scale_factor: min(1 + 1.27846 / |exponent + 1e-9|,
    max_scale_factor)}], where [exponent] is the third fitted parameter of
    the probe; when [exponent + 1e-9] is zero the quotient is infinite and
    the record holds [max_scale_factor]. *)
Theorem AdaExp_next_rule `{Numerics} (self self' : AdaExpFactory)
    (d : gmap string R) :
  (3 <= length (_instack (AdaExp_super self)))%nat ->
  returns (AdaExpFactory.next self) (d, self') ->
  exists zne_limit probe params exponent,
    returns (AdaExpFactory.reduce self) (zne_limit, probe)
    /\ _opt_params (AdaExp_super probe) = Some params
    /\ getitem params 2 = ret exponent
    /\ ((exponent + 1.0e-9 <> 0)%R ->
        d = {[ "scale_factor" :=
                 Rmin (1 + 1.27846 / Rabs (exponent + 1.0e-9))
                      (max_scale_factor self) ]})
    /\ ((exponent + 1.0e-9 = 0)%R ->
        d = {[ "scale_factor" := max_scale_factor self ]})
    /\ _already_reduced (AdaExp_super self') = false
    /\ emits (AdaExpFactory.next self) ExtrapolationWarning = false.
Proof.
  intros Hlen. unfold AdaExpFactory.next.
  destruct (length (_instack (AdaExp_super self))) as [| [| [| n]]] eqn:Hn;
    try lia.
  simpl Nat.eqb. simpl andb. cbv iota.
  intros Hr.
  apply bind_returns_inv in Hr as (probe' & Hprobe & Hr).
  apply ignoring_returns in Hprobe.
  apply bind_returns_inv in Hprobe as ([zne_limit probe] & Hred & Hprobe).
  apply ret_returns in Hprobe. subst probe'.
  apply bind_returns_inv in Hr as ([[[ins outs] params] lim] & Hhist & Hr).
  apply bind_returns_inv in Hr as (exponent & Hexp & Hr).
  apply ret_returns in Hr. injection Hr as <- <-.
  exists zne_limit, probe, params, exponent.
  pose proof Hred as Hred'.
  unfold AdaExpFactory.reduce in Hred'.
  apply bind_returns_inv in Hred' as (sf & Hsf & Hred').
  apply bind_returns_inv in Hred' as (e & He & Hred').
  apply bind_returns_inv in Hred' as ([l f] & Hstore & Hred').
  apply ret_returns in Hred'. injection Hred' as <- <-.
  apply store_returns in Hstore as (err & p & cov & curve & -> & ->).
  simpl in Hhist. rewrite getitem_last in Hhist.
  apply ret_returns in Hhist. injection Hhist as <- <- <- <-.
  apply getitem_returns in Hexp.
  repeat split; auto.
  - intros Hnz. unfold AdaExpFactory.next_scale_factor,
      AdaExpFactory._EPSILON, AdaExpFactory._SHIFT_FACTOR.
    destruct (Req_dec_T (exponent + 1.0e-9) 0); [contradiction |].
    do 2 f_equal. lra.
  - intros Hz. unfold AdaExpFactory.next_scale_factor,
      AdaExpFactory._EPSILON.
    destruct (Req_dec_T (exponent + 1.0e-9) 0); [reflexivity | contradiction].
  - apply emits_bind; [apply ignoring_silent |]. intros a.
    apply emits_bind; [apply getitem_silent |]. intros [[[? ?] ?] ?].
    apply emits_bind; [apply getitem_silent |]. intros ?. reflexivity.
Qed.

Section AdaptiveExamples.
Import LeastSquares.

Lemma AdaExp_next_line (self : AdaExpFactory) (x y : list R) (a : R) :
  Factory.get_scale_factors (AdaExp_super self) = map Some x ->
  items (_outstack (AdaExp_super self)) = y ->
  AdaExp_asymptote self = Some a -> AdaExp_avoid_log self = false ->
  length x = length y -> (2 <= length x)%nat ->
  det (weights None x) x <> 0%R ->
  let sign := np_sign (- slope (weights None x) x y) in
  let shifted := shifted_y sign a 1.0e-6 y in
  let W := weights (log_weights shifted) x in
  det W x <> 0%R ->
  exists self',
    returns (@AdaExpFactory.next numerics self)
            ({[ "scale_factor" :=
                  AdaExpFactory.next_scale_factor
                    (slope W x (map ln shifted)) (max_scale_factor self) ]},
             self')
    /\ _instack (AdaExp_super self') = _instack (AdaExp_super self)
    /\ _outstack (AdaExp_super self') = _outstack (AdaExp_super self)
    /\ _already_reduced (AdaExp_super self') = false
    /\ _steps self' = _steps self.
Proof.
  intros Hsf Hy Ha Hlog Hlen Hge Hdet0 sign shifted W Hdet1.
  destruct (PolyExp_log_fit_line x y a 1.0e-6 Hlen Hge Hdet0 Hdet1)
    as (curve & Hfit).
  assert (Hn : length (_instack (AdaExp_super self)) = length x).
  { apply (f_equal length) in Hsf.
    unfold Factory.get_scale_factors in Hsf. now rewrite !length_map in Hsf. }
  eexists. split.
  - unfold AdaExpFactory.next. rewrite Hn.
    destruct (length x) as [| [| n]] eqn:Hx; try lia.
    rewrite Ha. simpl Nat.eqb. rewrite andb_false_r. cbv iota.
    eapply bind_returns.
    { apply ignoring_returns. eapply bind_returns.
      - unfold AdaExpFactory.reduce. rewrite Hsf.
        eapply bind_returns; [apply float_array_Some |].
        eapply bind_returns.
        { unfold Factory.get_expectation_values. rewrite Hy, Ha, Hlog.
          exact Hfit. }
        eapply bind_returns; reflexivity.
      - reflexivity. }
    eapply bind_returns; [simpl; rewrite getitem_last; reflexivity |].
    eapply bind_returns; reflexivity.
  - repeat split.
Qed.

End AdaptiveExamples.

Section ExpDecay.
Import LeastSquares.

Lemma eps_positive : (0 < 1.0e-6)%R.
Proof. lra. Qed.

Lemma exp_2_gt_1 : (1 < exp 2)%R.
Proof. rewrite <- exp_0. apply exp_increasing. lra. Qed.

Lemma exp_1_gt_1 : (1 < exp 1)%R.
Proof. rewrite <- exp_0 at 1. apply exp_increasing. lra. Qed.

Lemma exp_decay_sign :
  np_sign (- slope (weights None [1; 2; 3]%R) [1; 2; 3]%R
                   [exp 2; exp 1; exp 0]) = 1%R.
Proof.
  pose proof exp_2_gt_1 as H2. rewrite exp_0.
  unfold slope, det, weights, wsum, ones, total. simpl.
  unfold np_sign.
  destruct (Rlt_dec _ 0) as [Hneg | _]; [lra |].
  destruct (Rlt_dec 0 _) as [_ | Hnpos]; [reflexivity | lra].
Qed.

Lemma exp_decay_shifted :
  shifted_y 1 0 1.0e-6 [exp 2; exp 1; exp 0] = [exp 2; exp 1; exp 0].
Proof.
  pose proof exp_2_gt_1. pose proof exp_1_gt_1.
  unfold shifted_y. simpl. rewrite exp_0.
  rewrite !Rmax_left by lra. repeat f_equal; lra.
Qed.

Lemma exp_decay_exponent :
  slope (weights (log_weights [exp 2; exp 1; exp 0]) [1; 2; 3]%R)
        [1; 2; 3]%R (map ln [exp 2; exp 1; exp 0]) = (-1)%R.
Proof.
  pose proof (det_log_weights_123 1 0 1.0e-6 (exp 2) (exp 1) (exp 0)
                ltac:(lra)) as Hdet.
  rewrite exp_decay_shifted in Hdet.
  unfold slope. revert Hdet.
  unfold det, weights, log_weights, wsum, ones, total. simpl.
  rewrite !ln_exp.
  generalize (sqrt (Rabs (exp 2))) (sqrt (Rabs (exp 1))) (sqrt (Rabs (exp 0))).
  intros w1 w2 w3 Hdet. field. intros Hc. apply Hdet. lra.
Qed.


Lemma exp_decay_next :
  exists self',
    returns (@AdaExpFactory.next numerics exp_decay_state)
            ({[ "scale_factor" := AdaExpFactory.next_scale_factor (-1) 6 ]},
             self').
Proof.
  destruct (AdaExp_next_line exp_decay_state [1; 2; 3]%R
              [exp 2; exp 1; exp 0] 0 eq_refl eq_refl eq_refl eq_refl eq_refl
              ltac:(simpl; lia) det_123
              (det_log_weights_123 _ _ _ _ _ _ eps_positive))
    as (self' & Hnext & _).
  rewrite exp_decay_sign, exp_decay_shifted, exp_decay_exponent in Hnext.
  now exists self'.
Qed.

Lemma exp_decay_reduce :
  exists zne_limit probe intercept,
    returns (@AdaExpFactory.reduce numerics exp_decay_state) (zne_limit, probe)
    /\ _opt_params (AdaExp_super probe) = Some [0; intercept; -1]%R.
Proof.
  destruct (PolyExp_log_fit_line [1; 2; 3]%R [exp 2; exp 1; exp 0] 0 1.0e-6
              eq_refl ltac:(simpl; lia) det_123
              (det_log_weights_123 _ _ _ _ _ _ eps_positive))
    as (curve & Hfit).
  rewrite exp_decay_sign, exp_decay_shifted, exp_decay_exponent in Hfit.
  do 3 eexists. split.
  - unfold AdaExpFactory.reduce.
    eapply bind_returns; [apply (float_array_Some [1; 2; 3]%R) |].
    eapply bind_returns; [exact Hfit |].
    eapply bind_returns; reflexivity.
  - reflexivity.
Qed.

(** C4, the claim as stated fails: on three points of [exp (3 - x)] the
    probe fit has the exponent [-1], and [next] returns
    [1 + 1.27846 / |-1 + 1e-9|], which is not
    [min(1 + 1.27846 / (|-1| + 1e-9), max_scale_factor)]. *)
Lemma AdaExp_next_is_not_the_stated_rule :
  (3 <= length (_instack (AdaExp_super exp_decay_state)))%nat
  /\ exists d self' zne_limit probe params exponent,
      returns (@AdaExpFactory.next numerics exp_decay_state) (d, self')
      /\ returns (@AdaExpFactory.reduce numerics exp_decay_state)
                 (zne_limit, probe)
      /\ _opt_params (AdaExp_super probe) = Some params
      /\ getitem params 2 = ret exponent
      /\ d <> {[ "scale_factor" :=
                   Rmin (1 + 1.27846 / (Rabs exponent + 1.0e-9))
                        (max_scale_factor exp_decay_state) ]}.
Proof.
  split; [simpl; lia |].
  destruct exp_decay_next as (self' & Hnext).
  destruct exp_decay_reduce as (zne_limit & probe & i & Hred & Hp).
  exists {[ "scale_factor" := AdaExpFactory.next_scale_factor (-1) 6 ]},
         self', zne_limit, probe, [0; i; -1]%R, (-1)%R.
  repeat split; auto.
  intros Heq. apply (f_equal (fun m : gmap string R => m !! "scale_factor")) in Heq.
  rewrite !lookup_singleton_eq in Heq. injection Heq as Heq.
  revert Heq. simpl max_scale_factor.
  unfold AdaExpFactory.next_scale_factor, AdaExpFactory._EPSILON,
    AdaExpFactory._SHIFT_FACTOR.
  destruct (Req_dec_T (-1 + 1.0e-9) 0) as [Hz | _]; [lra |].
  rewrite (Rabs_left (-1 + 1.0e-9)) by lra.
  rewrite (Rabs_left (-1)) by lra.
  replace (- (-1 + 1.0e-9))%R with (1 - 1.0e-9)%R by lra.
  replace (- (-1) + 1.0e-9)%R with (1 + 1.0e-9)%R by lra.
  rewrite !Rmin_left by lra. lra.
Qed.

Lemma AdaExp_next_rule_witness :
  exists d self' zne_limit probe params exponent,
    returns (@AdaExpFactory.next numerics exp_decay_state) (d, self')
    /\ returns (@AdaExpFactory.reduce numerics exp_decay_state)
               (zne_limit, probe)
    /\ _opt_params (AdaExp_super probe) = Some params
    /\ getitem params 2 = ret exponent
    /\ ((exponent + 1.0e-9 <> 0)%R ->
        d = {[ "scale_factor" :=
                 Rmin (1 + 1.27846 / Rabs (exponent + 1.0e-9))
                      (max_scale_factor exp_decay_state) ]})
    /\ ((exponent + 1.0e-9 = 0)%R ->
        d = {[ "scale_factor" := max_scale_factor exp_decay_state ]})
    /\ _already_reduced (AdaExp_super self') = false
    /\ emits (@AdaExpFactory.next numerics exp_decay_state)
             ExtrapolationWarning = false.
Proof.
  destruct exp_decay_next as (self' & Hnext).
  destruct (@AdaExp_next_rule numerics exp_decay_state self' _
              ltac:(simpl; lia) Hnext)
    as (zne_limit & probe & params & exponent & Hall).
  exists {[ "scale_factor" := AdaExpFactory.next_scale_factor (-1) 6 ]},
         self', zne_limit, probe, params, exponent.
  tauto.
Defined.

End ExpDecay.

Section LogFitWitnesses.
Import LeastSquares.

Lemma exp_decay_fit :
  exists r,
    returns (@PolyExpFactory.extrapolate numerics [1; 2; 3]%R
               [exp 2; exp 1; exp 0] 1 (Some 0%R) false 1.0e-6 true) r.
Proof.
  destruct (PolyExp_log_fit_line [1; 2; 3]%R [exp 2; exp 1; exp 0] 0 1.0e-6
              eq_refl ltac:(simpl; lia) det_123
              (det_log_weights_123 _ _ _ _ _ _ eps_positive))
    as (curve & Hfit).
  eexists. exact Hfit.
Qed.

Lemma PolyExp_log_fit_limit_witness :
  exists r,
    returns (@PolyExpFactory.extrapolate numerics [1; 2; 3]%R
               [exp 2; exp 1; exp 0] 1 (Some 0%R) false 1.0e-6 true) r
    /\ (exists linear_params cov0 slope z cov1,
          returns (@mitiq_polyfit numerics [1; 2; 3]%R [exp 2; exp 1; exp 0]
                                  1 None) (linear_params, cov0)
          /\ getitem linear_params 0 = ret slope
          /\ let sign := np_sign (- slope) in
             let shifted := shifted_y sign 0 1.0e-6 [exp 2; exp 1; exp 0] in
             returns (@mitiq_polyfit numerics [1; 2; 3]%R (map ln shifted) 1
                                     (log_weights shifted)) (z, cov1)
             /\ limit_of r = (0 + sign * exp (polyval z 0))%R)
    /\ raises (@PolyExpFactory.extrapolate numerics [1; 2; 3]%R
                 [exp 2; exp 1; exp 0] 1 (Some 0%R) false 1.0e-6 false)
              UNBOUND.
Proof.
  destruct exp_decay_fit as (r & Hr).
  exists r. split; [exact Hr |].
  exact (@PolyExp_log_fit_limit numerics _ _ _ _ _ _ Hr).
Defined.

Lemma PolyExp_log_fit_error_is_None_witness :
  exists r zne_limit opt_params zne_curve,
    returns (@PolyExpFactory.extrapolate numerics [1; 2; 3]%R
               [exp 2; exp 1; exp 0] 1 (Some 0%R) false 1.0e-6 true) r
    /\ r = Full zne_limit None opt_params None zne_curve.
Proof.
  destruct exp_decay_fit as (r & Hr).
  destruct (@PolyExp_log_fit_error_is_None numerics _ _ _ _ _ _ Hr)
    as (l & p & c & Heq).
  exists r, l, p, c. split; [exact Hr | exact Heq].
Defined.

End LogFitWitnesses.

(** ** The two stacks have the same length *)

Lemma mapM_Forall2 {A B} (f : A -> Py B) (l : list A) (bs : list B) :
  returns (mapM f l) bs -> Forall2 (fun a b => returns (f a) b) l bs.
Proof.
  revert bs. induction l as [| a l IH]; intros bs Hr; simpl in Hr.
  - apply ret_returns in Hr. subst. constructor.
  - apply bind_returns_inv in Hr as (b & Hb & Hr).
    apply bind_returns_inv in Hr as (bs' & Hbs & Hr).
    apply ret_returns in Hr. subst. constructor; auto.
Qed.

Lemma length_concat_uniform {A} (k : nat) (ls : list (list A)) :
  Forall (fun l => length l = k) ls -> length (concat ls) = (length ls * k)%nat.
Proof.
  induction 1 as [| l ls Hl _ IH]; simpl; [reflexivity |].
  rewrite length_app, IH, Hl. lia.
Qed.

Lemma length_split_rows (rows k : nat) (l : list R) :
  length (split_rows rows k l) = rows.
Proof.
  revert l. induction rows as [| r IH]; intros l; simpl; [reflexivity |].
  now rewrite IH.
Qed.

Lemma reshape_length (res : list R) (k : Z) (rows : list (list R)) (n : nat) :
  returns (reshape res k) rows -> length res = (n * Z.to_nat k)%nat ->
  length rows = n.
Proof.
  unfold reshape. destruct (k <=? 0)%Z eqn:Hk; [intros Hr; py_inv Hr |].
  apply Z.leb_gt in Hk.
  destruct (Nat.eqb (length res mod Z.to_nat k) 0); [| intros Hr; py_inv Hr].
  intros Hr Hlen. apply ret_returns in Hr. subst rows.
  rewrite length_split_rows, Hlen. apply Nat.div_mul. lia.
Qed.

Lemma push_balanced (f f' : Factory) (i : gmap string R) (o : R) :
  returns (Factory.push f i o) f' -> balanced f -> balanced f'.
Proof.
  unfold Factory.push, balanced. intros Hr Hb.
  apply bind_returns_inv in Hr as (u & _ & Hr).
  destruct (_outstack f) as [xs | xs] eqn:Hout; [| py_inv Hr].
  apply ret_returns in Hr. subst f'. simpl in *.
  rewrite !length_app, Hb. reflexivity.
Qed.

(** The number of records built by [_batch_populate_instack]. *)
Lemma populate_length (self : BatchedFactory) :
  (length (_instack (Batched_super
                       (BatchedFactory._batch_populate_instack self)))
   <= length (_scale_factors self))%nat.
Proof.
  unfold BatchedFactory._batch_populate_instack. simpl.
  destruct (truthy (_shot_list self)).
  - rewrite length_map, length_zip_with. lia.
  - now rewrite length_map.
Qed.

Lemma length_get_keyword_args (self : BatchedFactory) (k : Z)
    (kwargs_list : list (gmap string R)) :
  returns (BatchedFactory._get_keyword_args self k) kwargs_list ->
  length kwargs_list
  = (length (_instack (Batched_super self)) * Z.to_nat k)%nat.
Proof.
  unfold BatchedFactory._get_keyword_args. intros Hr.
  apply bind_returns_inv in Hr as (params & Hp & Hr).
  apply ret_returns in Hr. subst kwargs_list.
  apply mapM_length in Hp.
  rewrite (length_concat_uniform (Z.to_nat k)).
  - now rewrite length_map, Hp.
  - apply Forall_forall. intros l Hin. apply list_elem_of_In in Hin.
    apply in_map_iff in Hin as (d & <- & _). apply length_replicate.
Qed.

Lemma length_generate_circuits {Q : Type} (self : BatchedFactory) (qp : Q)
    (scale_noise : Q -> R -> Py Q) (k : Z) (to_run : list Q) :
  returns (BatchedFactory._generate_circuits Q self qp scale_noise k) to_run ->
  length to_run = (length (_instack (Batched_super self)) * Z.to_nat k)%nat.
Proof.
  unfold BatchedFactory._generate_circuits. intros Hr.
  apply bind_returns_inv in Hr as (scales & Hs & Hr).
  apply bind_returns_inv in Hr as (per_scale & Hp & Hr).
  apply ret_returns in Hr. subst to_run.
  apply mapM_length in Hs.
  unfold BatchedFactory.get_scale_factors, Factory.get_scale_factors in Hs.
  rewrite length_map in Hs.
  pose proof (mapM_length _ _ _ Hp) as Hlen.
  rewrite (length_concat_uniform (Z.to_nat k)); [congruence |].
  apply mapM_Forall2 in Hp. clear Hs Hlen.
  induction Hp as [| s row scales' rows Hrow _ IH]; constructor;
    [| exact IH].
  apply mapM_length in Hrow. now rewrite length_replicate in Hrow.
Qed.

Lemma run_classical_balanced (self self' : BatchedFactory)
    (fn : R -> gmap string R -> Py R) :
  returns (BatchedFactory.run_classical self fn) self' ->
  balanced (Batched_super self').
Proof.
  unfold BatchedFactory.run_classical. intros Hr.
  apply bind_returns_inv in Hr as (kwargs_list & Hkw & Hr).
  apply bind_returns_inv in Hr as (out & Hout & Hr).
  apply ret_returns in Hr. subst self'.
  apply mapM_length in Hout. apply length_get_keyword_args in Hkw.
  rewrite length_zip_with, Hkw in Hout.
  pose proof (populate_length (BatchedFactory.reset self)) as Hle.
  unfold balanced. simpl in *. lia.
Qed.

Lemma run_balanced {Q : Type} (self self' : BatchedFactory) (qp : Q)
    (executor : Executor Q) (scale_noise : Q -> R -> Py Q) (k : Z) :
  one_value_per_circuit executor ->
  returns (BatchedFactory.run Q self qp executor scale_noise k) self' ->
  balanced (Batched_super self').
Proof.
  unfold BatchedFactory.run. intros Hc Hr.
  apply bind_returns_inv in Hr as (to_run & Hgen & Hr).
  apply bind_returns_inv in Hr as (kwargs_list & Hkw & Hr).
  apply bind_returns_inv in Hr as (res & Hres & Hr).
  apply bind_returns_inv in Hr as (rows & Hrows & Hr).
  apply ret_returns in Hr. subst self'.
  apply length_generate_circuits in Hgen.
  apply length_get_keyword_args in Hkw.
  assert (Hlen : length res = length to_run).
  { destruct executor as [call | call].
    - apply mapM_length in Hres.
      rewrite length_zip_with, Hkw in Hres. lia.
    - simpl in Hc.
      destruct (forallb _ _); eapply Hc; exact Hres. }
  rewrite Hgen in Hlen.
  apply (reshape_length _ _ _ _ Hrows) in Hlen.
  unfold balanced. simpl. now rewrite length_map.
Qed.

Lemma batched_call_balanced {Q : Type} (self self' : BatchedFactory)
    (c : BatchedCall Q) :
  call_respects_contract c -> balanced (Batched_super self) ->
  returns (batched_call self c) self' -> balanced (Batched_super self').
Proof.
  destruct c as [i o | qp executor scale_noise k | fn]; simpl; intros Hc Hb Hr.
  - unfold BatchedFactory.push in Hr.
    apply bind_returns_inv in Hr as (f & Hf & Hr).
    apply ret_returns in Hr. subst self'. simpl.
    eapply push_balanced; eauto.
  - eapply run_balanced; eauto.
  - eapply run_classical_balanced; eauto.
Qed.

Lemma batched_calls_balanced {Q : Type} (calls : list (BatchedCall Q))
    (self self' : BatchedFactory) :
  Forall call_respects_contract calls -> balanced (Batched_super self) ->
  returns (batched_calls self calls) self' -> balanced (Batched_super self').
Proof.
  revert self. induction calls as [| c calls IH]; intros self Hc Hb Hr;
    simpl in Hr.
  - apply ret_returns in Hr. now subst.
  - apply bind_returns_inv in Hr as (s & Hs & Hr).
    inversion Hc as [| c' calls' Hc1 Hc2]; subst.
    apply (IH s Hc2); [| exact Hr].
    exact (batched_call_balanced self s c Hc1 Hb Hs).
Qed.

Section AdaptiveInvariant.
Context {T : Type} `{Adaptive T}.
Hypothesis super_set_super : forall (s : T) (f : Factory), super (set_super s f) = f.
Hypothesis next_keeps_stacks :
  forall (s s' : T) (d : gmap string R),
    returns (next s) (d, s') ->
    _instack (super s') = _instack (super s)
    /\ _outstack (super s') = _outstack (super s).

Lemma adaptive_push_balanced (self self' : T) (i : gmap string R) (o : R) :
  returns (AdaptiveFactory.push self i o) self' ->
  balanced (super self) -> balanced (super self').
Proof.
  unfold AdaptiveFactory.push. intros Hr Hb.
  apply bind_returns_inv in Hr as (f & Hf & Hr).
  apply ret_returns in Hr. subst self'. rewrite super_set_super.
  eapply push_balanced; eauto.
Qed.

Lemma iterations_balanced (fn : R -> gmap string R -> Py R) (remaining : nat) :
  forall (counter counter' : Z) (self self' : T),
    balanced (super self) ->
    returns (AdaptiveFactory.iterations remaining counter self fn)
            (counter', self') ->
    balanced (super self').
Proof.
  induction remaining as [| remaining IH]; intros counter counter' self self' Hb Hr;
    simpl in Hr;
    apply bind_returns_inv in Hr as (converged & _ & Hr);
    destruct converged;
    try (apply ret_returns in Hr; injection Hr as <- <-; exact Hb).
  apply bind_returns_inv in Hr as ([d s1] & Hnext & Hr).
  apply bind_returns_inv in Hr as (scale_factor & _ & Hr).
  apply bind_returns_inv in Hr as (next_expval & _ & Hr).
  apply bind_returns_inv in Hr as (s2 & Hpush & Hr).
  apply next_keeps_stacks in Hnext as [Hin Hout].
  apply (IH (counter + 1)%Z counter' s2 self'); [| exact Hr].
  apply (adaptive_push_balanced s1 s2 _ _ Hpush).
  unfold balanced in *. now rewrite Hin, Hout.
Qed.

Lemma adaptive_run_classical_balanced (self self' : T)
    (fn : R -> gmap string R -> Py R) (max_iterations : Z) :
  returns (AdaptiveFactory.run_classical self fn max_iterations) self' ->
  balanced (super self').
Proof.
  unfold AdaptiveFactory.run_classical. intros Hr.
  apply bind_returns_inv in Hr as ([counter s] & Hloop & Hr).
  apply bind_returns_inv in Hr as (u & _ & Hr).
  apply ret_returns in Hr. subst self'.
  eapply iterations_balanced; [| exact Hloop].
  unfold AdaptiveFactory.reset. rewrite super_set_super. reflexivity.
Qed.

Lemma adaptive_calls_balanced {Q : Type} (calls : list (AdaptiveCall Q))
    (self self' : T) :
  balanced (super self) ->
  returns (adaptive_calls self calls) self' -> balanced (super self').
Proof.
  revert self. induction calls as [| c calls IH]; intros self Hb Hr;
    simpl in Hr.
  - apply ret_returns in Hr. now subst.
  - apply bind_returns_inv in Hr as (s & Hs & Hr).
    apply (IH s); [| exact Hr].
    destruct c as [i o | qp executor scale_noise n m | fn m]; simpl in Hs.
    + eapply adaptive_push_balanced; eauto.
    + eapply adaptive_run_classical_balanced; exact Hs.
    + eapply adaptive_run_classical_balanced; exact Hs.
Qed.

End AdaptiveInvariant.

Lemma AdaExp_next_keeps_stacks `{Numerics} (s s' : AdaExpFactory)
    (d : gmap string R) :
  returns (AdaExpFactory.next s) (d, s') ->
  _instack (AdaExp_super s') = _instack (AdaExp_super s)
  /\ _outstack (AdaExp_super s') = _outstack (AdaExp_super s)
  /\ _steps s' = _steps s.
Proof.
  unfold AdaExpFactory.next.
  destruct (Nat.eqb _ 0); [intros Hr; apply ret_returns in Hr;
                           injection Hr as <- <-; auto |].
  destruct (Nat.eqb _ 1); [intros Hr; apply ret_returns in Hr;
                           injection Hr as <- <-; auto |].
  destruct (Nat.eqb _ 2 && _); [intros Hr; apply ret_returns in Hr;
                                injection Hr as <- <-; auto |].
  intros Hr.
  apply bind_returns_inv in Hr as (probe' & Hprobe & Hr).
  apply ignoring_returns in Hprobe.
  apply bind_returns_inv in Hprobe as ([zne_limit probe] & Hred & Hprobe).
  apply ret_returns in Hprobe. subst probe'.
  apply bind_returns_inv in Hr as ([[[ins outs] params] lim] & _ & Hr).
  apply bind_returns_inv in Hr as (exponent & _ & Hr).
  apply ret_returns in Hr. injection Hr as <- <-.
  unfold AdaExpFactory.reduce in Hred.
  apply bind_returns_inv in Hred as (sf & _ & Hred).
  apply bind_returns_inv in Hred as (e & _ & Hred).
  apply bind_returns_inv in Hred as ([l f] & Hstore & Hred).
  apply ret_returns in Hred. injection Hred as <- <-.
  apply store_returns in Hstore as (err & p & cov & curve & -> & ->).
  simpl. auto.
Qed.

(** C1, the claim as stated fails: [run] does not compare the number of
    values a batched executor returns with the number of circuits.  On three
    scale factors and two circuits each, an executor that returns four
    values for the six circuits lets [run] complete, with three input
    records and two expectation values. *)
Lemma short_batch_leaves_unequal_stacks :
  exists self',
    returns (batched_calls batched_example
               [BatchedRun tt
                  (BatchedExecutor (fun _ _ => ret [1; 1; 1; 1]%R))
                  (fun qp _ => ret qp) 2])
            self'
    /\ length (BatchedFactory.get_scale_factors self') = 3%nat
    /\ length (BatchedFactory.get_expectation_values self') = 2%nat.
Proof.
  eexists. split; [reflexivity |]. split; reflexivity.
Qed.

(** C1, amended: after any sequence of [run], [run_classical] and [push]
    calls that completes, on a batched factory (every class derived from
    [BatchedFactory] inherits the three methods) and on the adaptive
    factory, [len(get_scale_factors()) == len(get_expectation_values())],
    provided the stacks have equal lengths at the start, as every
    constructor leaves them, and every batched executor passed to [run]
    returns one value per circuit. *)
Theorem stacks_have_equal_lengths `{Numerics} (QPROGRAM : Type) :
  (forall (self self' : BatchedFactory) (calls : list (BatchedCall QPROGRAM)),
      balanced (Batched_super self) ->
      Forall call_respects_contract calls ->
      returns (batched_calls self calls) self' ->
      length (BatchedFactory.get_scale_factors self')
      = length (BatchedFactory.get_expectation_values self'))
  /\ (forall (self self' : AdaExpFactory)
             (calls : list (AdaptiveCall QPROGRAM)),
      balanced (AdaExp_super self) ->
      returns (adaptive_calls self calls) self' ->
      length (AdaptiveFactory.get_scale_factors self')
      = length (AdaptiveFactory.get_expectation_values self')).
Proof.
  split.
  - intros self self' calls Hb Hc Hr.
    unfold BatchedFactory.get_scale_factors, Factory.get_scale_factors,
      BatchedFactory.get_expectation_values, Factory.get_expectation_values.
    rewrite length_map.
    exact (batched_calls_balanced calls self self' Hc Hb Hr).
  - intros self self' calls Hb Hr.
    unfold AdaptiveFactory.get_scale_factors, Factory.get_scale_factors,
      AdaptiveFactory.get_expectation_values, Factory.get_expectation_values.
    rewrite length_map.
    refine (adaptive_calls_balanced _ _ calls self self' Hb Hr).
    + reflexivity.
    + intros s s' d Hn. apply AdaExp_next_keeps_stacks in Hn. tauto.
Qed.

Section CallSequenceWitness.
Existing Instance LeastSquares.numerics.

Lemma stacks_have_equal_lengths_witness :
  (exists self',
      returns (batched_calls batched_example batched_example_calls) self'
      /\ length (BatchedFactory.get_scale_factors self')
         = length (BatchedFactory.get_expectation_values self'))
  /\ (exists self',
      returns (adaptive_calls adaptive_example adaptive_example_calls) self'
      /\ length (AdaptiveFactory.get_scale_factors self')
         = length (AdaptiveFactory.get_expectation_values self')).
Proof.
  split.
  - eexists. split; [reflexivity |].
    apply (proj1 (@stacks_have_equal_lengths LeastSquares.numerics unit)
             batched_example _ batched_example_calls).
    + reflexivity.
    + repeat constructor.
    + reflexivity.
  - eexists. split; [reflexivity |].
    apply (proj2 (@stacks_have_equal_lengths LeastSquares.numerics unit)
             adaptive_example _ adaptive_example_calls).
    + reflexivity.
    + reflexivity.
Defined.

End CallSequenceWitness.

(** ** Equality of factories *)

Lemma isclose_refl (x : R) : isclose x x = true.
Proof.
  unfold isclose, Rleb. destruct (Rle_dec _ _) as [_ | Hn]; [reflexivity |].
  exfalso. apply Hn.
  replace (x - x)%R with 0%R by lra. rewrite Rabs_R0.
  pose proof (Rabs_pos x). lra.
Qed.

Lemma all_isclose_refl (l : list R) : all_isclose l l = true.
Proof.
  induction l as [| x l IH]; simpl; [reflexivity |].
  now rewrite isclose_refl, IH.
Qed.

Lemma allclose_refl (l : list R) : allclose l l = ret true.
Proof. unfold allclose. now rewrite Nat.eqb_refl, all_isclose_refl. Qed.

Lemma and_then_raises_l (a b : Py bool) (e : Exn) :
  raises a e -> raises (a &&& b) e.
Proof. apply bind_raises_l. Qed.

Lemma and_then_raises_r (a b : Py bool) (e : Exn) :
  returns a true -> raises b e -> raises (a &&& b) e.
Proof. intros Ha Hb. eapply bind_raises_r; eauto. Qed.

Lemma and_then_false (a b : Py bool) :
  returns a false -> returns (a &&& b) false.
Proof. intros Ha. eapply bind_returns; [exact Ha | reflexivity]. Qed.

Lemma outcome_cases {A} (m : Py A) :
  (exists e, raises m e) \/ (exists a, returns m a).
Proof. destruct m as [ws [e | a]]; [left | right]; eexists; reflexivity. Qed.

(** With [asymptote = None] on the left, [PolyExpFactory.__eq__] never
    answers [True]: it answers [False] or raises. *)
Lemma PolyExp_eq_None_asymptote (self : PolyExpFactory) (other : Any) :
  PolyExp_asymptote self = None ->
  returns (PolyExpFactory.__eq__ self other) false
  \/ exists e, raises (PolyExpFactory.__eq__ self other) e.
Proof.
  intros Hnone. unfold PolyExpFactory.__eq__. rewrite Hnone.
  destruct (outcome_cases
              (BatchedFactory.__eq__ (PolyExp_super self) other
               &&& ret match other with
                       | OfPolyExpFactory _ => true
                       | _ => false
                       end)) as [[e He] | [[|] Hb]].
  - right. exists e. now do 3 apply and_then_raises_l.
  - right.
    assert (Hiso : exists e, raises (let! theirs := attr_asymptote other in
                                     isclose_opt None theirs) e).
    { destruct (outcome_cases (attr_asymptote other)) as [[e He] | [a Ha]].
      - exists e. now apply bind_raises_l.
      - eexists. eapply bind_raises_r; [exact Ha |]. reflexivity. }
    destruct Hiso as (e & He). exists e.
    do 2 apply and_then_raises_l. now apply and_then_raises_r.
  - left. now do 3 apply and_then_false.
Qed.

Lemma and_then_true (a b : Py bool) :
  returns a true -> returns b true -> returns (a &&& b) true.
Proof. intros Ha Hb. eapply bind_returns; [exact Ha | exact Hb]. Qed.

Lemma are_close_dict_refl (d : gmap string R) : _are_close_dict d d = true.
Proof.
  unfold _are_close_dict. rewrite bool_decide_eq_true_2 by reflexivity.
  simpl. apply forallb_forall. intros [k v] Hin.
  apply list_elem_of_In, elem_of_map_to_list in Hin. simpl.
  rewrite Hin. apply isclose_refl.
Qed.

Lemma instacks_close_refl (l : list (gmap string R)) :
  Factory.instacks_close l l = true.
Proof.
  unfold Factory.instacks_close.
  induction l as [| d l IH]; simpl; [reflexivity |].
  now rewrite are_close_dict_refl, IH.
Qed.

(** An object compares equal to itself under [Factory.__eq__] and
    [BatchedFactory.__eq__], once its input records do. *)
Lemma Factory_eq_refl (f : Factory) (other : Any) :
  as_Factory other = Some f ->
  Factory.instacks_close (_instack f) (_instack f) = true ->
  returns (Factory.__eq__ f other) true.
Proof.
  intros Ho Hclose. unfold Factory.__eq__. rewrite Ho.
  rewrite eqb_reflx, Nat.eqb_refl, Hclose. simpl.
  now rewrite allclose_refl.
Qed.

Lemma BatchedFactory_eq_refl (b : BatchedFactory) (other : Any) :
  as_BatchedFactory other = Some b ->
  Factory.instacks_close (_instack (Batched_super b))
                         (_instack (Batched_super b)) = true ->
  returns (BatchedFactory.__eq__ b other) true.
Proof.
  intros Ho Hclose. unfold BatchedFactory.__eq__. apply and_then_true.
  - apply Factory_eq_refl; [| exact Hclose].
    destruct other; simpl in *; congruence.
  - unfold attr_scale_factors. rewrite Ho.
    eapply bind_returns; [reflexivity |]. now rewrite allclose_refl.
Qed.

(** C9, on the code: two [PolyExpFactory] objects built with the same
    arguments and [asymptote=None], and likewise two [AdaExpFactory]
    objects, do not compare equal: the comparison reaches
    [np.isclose(self.asymptote, other.asymptote)] on [None] and raises
    [TypeError].  [ExpFactory.__eq__] tests the [None] cases before it calls
    [np.isclose]. *)
Theorem eq_raises_on_None_asymptote :
  (exists self,
      returns (PolyExpFactory.__init__ [1; 2; 3]%R 1 PyNone false None) self
      /\ exists msg,
          raises (PolyExpFactory.__eq__ self (OfPolyExpFactory self))
                 (TypeError msg))
  /\ (exists self,
      returns (AdaExpFactory.__init__ 4 2 PyNone false 6) self
      /\ exists msg,
          raises (AdaExpFactory.__eq__ self (OfAdaExpFactory self))
                 (TypeError msg)).
Proof.
  split.
  - eexists. split; [reflexivity |].
    eexists. unfold PolyExpFactory.__eq__.
    do 2 apply and_then_raises_l. apply and_then_raises_r.
    + apply and_then_true; [now apply BatchedFactory_eq_refl | reflexivity].
    + reflexivity.
  - exists (mkAdaExpFactory Factory.__init__ 4 2 None false 6 []). split.
    + unfold AdaExpFactory.__init__. simpl.
      destruct (Rle_dec 2 1) as [Hle | _]; [lra |].
      destruct (Rle_dec 6 1) as [Hle | _]; [lra |]. reflexivity.
    + eexists. unfold AdaExpFactory.__eq__.
      apply and_then_raises_r; [now apply Factory_eq_refl |].
      do 2 apply and_then_raises_l. apply and_then_raises_r.
      * apply and_then_true; [reflexivity |]. simpl.
        destruct (Req_dec_T 2 2) as [_ | Hne]; [reflexivity | contradiction].
      * reflexivity.
Qed.

(** ** The curve returned by the fake-nodes extrapolation *)

(** Under [full_output=True] the fake-nodes extrapolation returns the
    outputs of the Richardson extrapolation on the fake nodes as they are,
    the curve included. *)
Lemma FakeNodes_extrapolate_full `{Numerics} (scale_factors exp_values : list R)
    (r : Extrapolation) :
  returns (FakeNodesFactory.extrapolate scale_factors exp_values true) r ->
  exists lo hi,
    returns (py_min scale_factors) lo /\ returns (py_max scale_factors) hi
    /\ returns (RichardsonFactory.extrapolate
                  (FakeNodesFactory._map_to_fake_nodes scale_factors 0 (lo + hi))
                  exp_values true) r.
Proof.
  unfold FakeNodesFactory.extrapolate. intros Hr.
  apply bind_returns_inv in Hr as (spaced & _ & Hr).
  destruct spaced; simpl in Hr; [| py_inv Hr].
  apply bind_returns_inv in Hr as (lo & Hlo & Hr).
  apply bind_returns_inv in Hr as (hi & Hhi & Hr).
  apply bind_returns_inv in Hr as (e & He & Hr).
  exists lo, hi. repeat split; auto.
  destruct e; [py_inv Hr |]. apply ret_returns in Hr. now subst r.
Qed.

Section FakeNodesExample.
Import LeastSquares.

Lemma fake_node_1 : FakeNodesFactory.S 0 4 1 = (2 - 2 * (1 / sqrt 2))%R.
Proof.
  unfold FakeNodesFactory.S.
  replace (PI * (1 - 0) / (4 - 0))%R with (PI / 4)%R by lra.
  rewrite cos_PI4. lra.
Qed.

Lemma fake_node_3 : FakeNodesFactory.S 0 4 3 = (2 + 2 * (1 / sqrt 2))%R.
Proof.
  unfold FakeNodesFactory.S.
  replace (PI * (3 - 0) / (4 - 0))%R with (3 * (PI / 4))%R by lra.
  rewrite cos_3PI4. lra.
Qed.

Lemma fake_node_8 : FakeNodesFactory.S 0 4 8 = 0%R.
Proof.
  unfold FakeNodesFactory.S.
  replace (PI * (8 - 0) / (4 - 0))%R with (2 * PI)%R by lra.
  rewrite cos_2PI. lra.
Qed.

Lemma inv_sqrt2_pos : (0 < 1 / sqrt 2)%R.
Proof. apply Rdiv_lt_0_compat; [lra | apply sqrt_lt_R0; lra]. Qed.

Lemma is_equally_spaced_13 :
  FakeNodesFactory._is_equally_spaced [1; 3]%R = ret true.
Proof.
  unfold FakeNodesFactory._is_equally_spaced, np_sort. simpl.
  destruct (Rle_dec 1 3) as [_ | Hn]; [| lra]. simpl.
  unfold getitem; simpl. unfold bind; simpl.
  now rewrite isclose_refl.
Qed.

Lemma det_two_points (x1 x2 : R) :
  x1 <> x2 -> det (weights None [x1; x2]) [x1; x2] <> 0%R.
Proof.
  intros Hne. unfold det, weights, wsum, ones, total. simpl.
  intros Hz. apply Hne. nra.
Qed.

Lemma slope_two_points (x1 x2 : R) :
  x1 <> x2 ->
  slope (weights None [x1; x2]) [x1; x2] [0; 1]%R = (1 / (x2 - x1))%R.
Proof.
  intros Hne. unfold slope, det, weights, wsum, ones, total. simpl.
  field. split; [lra |]. intros Hz. apply Hne. nra.
Qed.

Lemma fake_nodes_13 :
  FakeNodesFactory._map_to_fake_nodes [1; 3]%R 0 4
  = [(2 - 2 * (1 / sqrt 2))%R; (2 + 2 * (1 / sqrt 2))%R].
Proof.
  unfold FakeNodesFactory._map_to_fake_nodes. simpl.
  now rewrite fake_node_1, fake_node_3.
Qed.

(** C5, on the code: on the equally spaced scale factors [1, 3] with the
    values [0, 1], the curve returned under [full_output=True] is the
    polynomial fitted on the fake nodes evaluated at its argument, for every
    argument; at [x = 8], where the map [S] with [a = 0] and [b = 1 + 3]
    gives [0], its value differs from that of the polynomial at [S(8)].
    The composed function [new_curve] is defined and not returned. *)
Theorem FakeNodes_curve_is_not_mapped :
  exists zne_limit zne_error opt_params params_cov zne_curve,
    returns (@FakeNodesFactory.extrapolate numerics [1; 3]%R [0; 1]%R true)
            (Full zne_limit zne_error opt_params params_cov zne_curve)
    /\ returns (@RichardsonFactory.extrapolate numerics
                  (FakeNodesFactory._map_to_fake_nodes [1; 3]%R 0 (1 + 3))
                  [0; 1]%R true)
               (Full zne_limit zne_error opt_params params_cov zne_curve)
    /\ (forall x : R, zne_curve x = polyval opt_params x)
    /\ zne_curve 8%R <> polyval opt_params (FakeNodesFactory.S 0 (1 + 3) 8).
Proof.
  pose proof inv_sqrt2_pos as Hpos.
  set (x1 := (2 - 2 * (1 / sqrt 2))%R).
  set (x2 := (2 + 2 * (1 / sqrt 2))%R).
  assert (Hne : x1 <> x2) by (unfold x1, x2; lra).
  destruct (PolyFactory_extrapolate_line [x1; x2] [0; 1]%R eq_refl
              (det_two_points x1 x2 Hne)) as (err & cov & Hfit).
  rewrite (slope_two_points x1 x2 Hne) in Hfit.
  replace (1 + 3)%R with 4%R by lra.
  set (b := intercept (weights None [x1; x2]) [x1; x2] [0; 1]%R) in Hfit.
  assert (Hrich : returns (@RichardsonFactory.extrapolate numerics
                             (FakeNodesFactory._map_to_fake_nodes [1; 3]%R 0 4)
                             [0; 1]%R true)
                    (Full b err [(1 / (x2 - x1))%R; b] cov
                          (polyval [(1 / (x2 - x1))%R; b]))).
  { rewrite fake_nodes_13. exact Hfit. }
  do 5 eexists. split; [| split; [exact Hrich | split]].
  - unfold FakeNodesFactory.extrapolate. rewrite is_equally_spaced_13.
    eapply bind_returns; [reflexivity |]. simpl negb. cbv iota.
    eapply bind_returns; [reflexivity |].
    eapply bind_returns; [reflexivity |]. simpl.
    rewrite Rmin_left, Rmax_right by lra.
    replace (1 + 3)%R with 4%R by lra.
    eapply bind_returns; [exact Hrich |]. reflexivity.
  - reflexivity.
  - rewrite fake_node_8. unfold polyval. simpl.
    assert (Hs : (1 / (x2 - x1) <> 0)%R).
    { apply Rgt_not_eq. apply Rdiv_lt_0_compat; unfold x1, x2; lra. }
    lra.
Qed.

End FakeNodesExample.

(** ** The convergence warning of [AdaptiveFactory.run_classical] *)

Lemma emits_bind_r {A B} (m : Py A) (k : A -> Py B) (a : A)
    (c : WarningCategory) :
  returns m a -> emits (k a) c = true -> emits (bind m k) c = true.
Proof.
  unfold returns, outcome, emits, warnings_of, bind.
  destruct m as [ws [e | a']]; simpl; [discriminate |].
  intros [= ->] Hk. destruct (k a) as [ws' r]; simpl in *.
  rewrite existsb_app, Hk. apply orb_true_r.
Qed.

Lemma is_converged_returns `{Numerics} (self : AdaExpFactory) (b : bool) :
  returns (AdaExpFactory.is_converged self) b ->
  balanced (AdaExp_super self)
  /\ b = (Z.of_nat (length (items (_outstack (AdaExp_super self))))
          =? _steps self)%Z.
Proof.
  unfold AdaExpFactory.is_converged, balanced.
  destruct (Nat.eqb _ _) eqn:Hlen; simpl; intros Hr; [| py_inv Hr].
  apply ret_returns in Hr. apply Nat.eqb_eq in Hlen. auto.
Qed.

Lemma AdaExp_push_returns `{Numerics} (s s' : AdaExpFactory)
    (i : gmap string R) (o : R) :
  returns (AdaptiveFactory.push s i o) s' ->
  length (items (_outstack (AdaExp_super s')))
  = S (length (items (_outstack (AdaExp_super s))))
  /\ _steps s' = _steps s.
Proof.
  unfold AdaptiveFactory.push. simpl. intros Hr.
  apply bind_returns_inv in Hr as (f & Hf & Hr).
  apply ret_returns in Hr. subst s'. simpl. split; [| reflexivity].
  unfold Factory.push in Hf.
  apply bind_returns_inv in Hf as (u & _ & Hf).
  destruct (_outstack (AdaExp_super s)) as [xs | xs]; [| py_inv Hf].
  apply ret_returns in Hf. subst f. simpl. rewrite length_app. simpl. lia.
Qed.

(** When the loop ends with the cap equal to the number of steps, the
    counter has reached the cap and the factory has converged. *)
Lemma iterations_reach_steps `{Numerics} (fn : R -> gmap string R -> Py R)
    (steps : Z) (remaining : nat) :
  forall (counter counter' : Z) (self self' : AdaExpFactory),
    _steps self = steps ->
    Z.of_nat (length (items (_outstack (AdaExp_super self)))) = counter ->
    remaining = Z.to_nat (steps - counter) -> (counter <= steps)%Z ->
    returns (AdaptiveFactory.iterations remaining counter self fn)
            (counter', self') ->
    counter' = steps /\ returns (AdaExpFactory.is_converged self') true.
Proof.
  induction remaining as [| remaining IH];
    intros counter counter' self self' Hsteps Hlen Hrem Hle Hr;
    simpl in Hr;
    apply bind_returns_inv in Hr as (converged & Hconv & Hr);
    pose proof (is_converged_returns _ _ Hconv) as [Hb Hc];
    rewrite Hlen, Hsteps in Hc.
  - assert (Heq : counter = steps) by lia.
    rewrite Heq, Z.eqb_refl in Hc. subst converged.
    apply ret_returns in Hr. injection Hr as <- <-. auto.
  - destruct converged.
    + apply ret_returns in Hr. injection Hr as <- <-.
      symmetry in Hc. apply Z.eqb_eq in Hc. auto.
    + apply bind_returns_inv in Hr as ([d s1] & Hnext & Hr).
      apply bind_returns_inv in Hr as (scale_factor & _ & Hr).
      apply bind_returns_inv in Hr as (next_expval & _ & Hr).
      apply bind_returns_inv in Hr as (s2 & Hpush & Hr).
      apply AdaExp_next_keeps_stacks in Hnext as (_ & Hout & Hst).
      apply AdaExp_push_returns in Hpush as (Hlen2 & Hst2).
      symmetry in Hc. apply Z.eqb_neq in Hc.
      apply (IH (counter + 1)%Z counter' s2 self');
        first [exact Hr | congruence | rewrite ?Hlen2, ?Hout; lia].
Qed.

(** C8, on the code: when [max_iterations] equals the number of steps of an
    [AdaExpFactory], a call of [run_classical] that returns leaves the
    factory converged and has nevertheless emitted the
    [ConvergenceWarning]: the warning is tied to [counter == max_iterations]
    alone. *)
Theorem ConvergenceWarning_although_converged `{Numerics}
    (self self' : AdaExpFactory) (fn : R -> gmap string R -> Py R) :
  (3 <= _steps self)%Z ->
  returns (AdaptiveFactory.run_classical self fn (_steps self)) self' ->
  returns (AdaExpFactory.is_converged self') true
  /\ emits (AdaptiveFactory.run_classical self fn (_steps self))
           ConvergenceWarning = true.
Proof.
  intros Hsteps Hr. pose proof Hr as Hr'.
  unfold AdaptiveFactory.run_classical in Hr'.
  apply bind_returns_inv in Hr' as ([counter s] & Hloop & Hr').
  apply bind_returns_inv in Hr' as (u & _ & Hr').
  apply ret_returns in Hr'. subst s.
  assert (Hend : counter = _steps self
                 /\ returns (AdaExpFactory.is_converged self') true).
  { apply (iterations_reach_steps fn (_steps self)
             (Z.to_nat (_steps self)) 0%Z counter
             (AdaptiveFactory.reset self) self').
    - reflexivity.
    - reflexivity.
    - f_equal. lia.
    - lia.
    - exact Hloop. }
  destruct Hend as [-> Hconv].
  split; [exact Hconv |].
  unfold AdaptiveFactory.run_classical.
  eapply emits_bind_r; [exact Hloop |].
  cbv beta iota. rewrite Z.eqb_refl. reflexivity.
Qed.

Lemma iterations_step {T : Type} `{Adaptive T}
    (fn : R -> gmap string R -> Py R) (remaining : nat) (counter : Z)
    (self s1 s2 : T) (d : gmap string R) (sf v : R) (r : Z * T) :
  returns (is_converged self) false ->
  returns (next self) (d, s1) ->
  d !! "scale_factor" = Some sf ->
  returns (fn sf (delete "scale_factor" d)) v ->
  returns (AdaptiveFactory.push s1 d v) s2 ->
  returns (AdaptiveFactory.iterations remaining (counter + 1) s2 fn) r ->
  returns (AdaptiveFactory.iterations (S remaining) counter self fn) r.
Proof.
  intros Hc Hn Hd Hf Hp Hr. simpl.
  eapply bind_returns; [exact Hc |]. cbv iota.
  eapply bind_returns; [exact Hn |]. cbv beta iota.
  eapply bind_returns; [rewrite Hd; reflexivity |].
  eapply bind_returns; [exact Hf |].
  eapply bind_returns; [exact Hp |]. exact Hr.
Qed.

Lemma iterations_stop {T : Type} `{Adaptive T}
    (fn : R -> gmap string R -> Py R) (remaining : nat) (counter : Z)
    (self : T) :
  returns (is_converged self) true ->
  returns (AdaptiveFactory.iterations remaining counter self fn)
          (counter, self).
Proof.
  intros Hc. destruct remaining; simpl;
    (eapply bind_returns; [exact Hc | reflexivity]).
Qed.

Lemma AdaExp_push_succeeds `{Numerics} (s : AdaExpFactory) (xs : list R)
    (i : gmap string R) (o : R) :
  _outstack (AdaExp_super s) = PyList xs ->
  exists s',
    returns (AdaptiveFactory.push s i o) s'
    /\ _instack (AdaExp_super s') = _instack (AdaExp_super s) ++ [i]
    /\ _outstack (AdaExp_super s') = PyList (xs ++ [o])
    /\ _steps s' = _steps s.
Proof.
  intros Hout. eexists. split.
  - unfold AdaptiveFactory.push. eapply bind_returns.
    + unfold Factory.push. simpl super. rewrite Hout.
      eapply bind_returns; [| reflexivity].
      destruct (_already_reduced (AdaExp_super s)); reflexivity.
    + reflexivity.
  - simpl. auto.
Qed.

Section ConvergenceWitness.
Import LeastSquares.
Existing Instance LeastSquares.numerics.

Lemma det_log_weights_two (sign a eps x1 x2 y1 y2 : R) :
  (0 < eps)%R -> x1 <> x2 ->
  det (weights (log_weights (shifted_y sign a eps [y1; y2])) [x1; x2])
      [x1; x2] <> 0%R.
Proof.
  intros Heps Hne.
  unfold det, weights, log_weights, shifted_y, wsum, ones, total. simpl.
  rewrite !sqrt_sqrt by apply Rabs_pos.
  pose proof (shifted_positive sign a eps y1 Heps) as H1.
  pose proof (shifted_positive sign a eps y2 Heps) as H2.
  revert H1 H2.
  generalize (Rabs (Rmax (sign * (y1 - a)) eps))
             (Rabs (Rmax (sign * (y2 - a)) eps)).
  intros W1 W2 H1 H2 Hz.
  assert (Hsq : (0 < (x1 - x2) * (x1 - x2))%R) by nra.
  assert (Hw : (0 < W1 * W2)%R) by (apply Rmult_lt_0_compat; assumption).
  assert (Hp : (0 < W1 * W2 * ((x1 - x2) * (x1 - x2)))%R)
    by (apply Rmult_lt_0_compat; assumption).
  nra.
Qed.

Lemma adaptive_example_run :
  exists self',
    returns (AdaptiveFactory.run_classical adaptive_example decay
                                           (_steps adaptive_example)) self'.
Proof.
  assert (Hne : (1.0 <> 2)%R) by lra.
  set (s2 := mkAdaExpFactory
               (mkFactory [record 1.0; record 2]%R
                          (PyList [exp (- (1.0)); exp (- (2))])
                          None None None None None false)
               3 2%R (Some 0%R) false 6%R []).
  destruct (AdaExp_next_line s2 [1.0; 2]%R [exp (- (1.0)); exp (- (2))] 0
              eq_refl eq_refl eq_refl eq_refl eq_refl (le_n 2)
              (det_two_points _ _ Hne)
              (det_log_weights_two _ _ _ _ _ _ _ eps_positive Hne))
    as (s2' & Hnext & Hin & Hout & Hred & Hst).
  set (v := AdaExpFactory.next_scale_factor _ _) in Hnext.
  destruct (AdaExp_push_succeeds s2' [exp (- (1.0)); exp (- (2))]
              {[ "scale_factor" := v ]} (exp (- v)) Hout)
    as (s3 & Hpush & Hin3 & Hout3 & Hst3).
  exists s3. unfold AdaptiveFactory.run_classical.
  apply (bind_returns _ _ (3%Z, s3)); [| reflexivity].
  change (Z.to_nat (_steps adaptive_example)) with 3%nat.
  eapply iterations_step; try reflexivity.
  eapply iterations_step; try reflexivity.
  eapply (iterations_step _ _ _ s2); try reflexivity.
  - exact Hnext.
  - apply lookup_singleton_eq.
  - exact Hpush.
  - apply iterations_stop.
    unfold is_converged; simpl. unfold AdaExpFactory.is_converged.
    rewrite Hin3, Hout3, Hin, Hst3, Hst. reflexivity.
Qed.

Lemma ConvergenceWarning_although_converged_witness :
  exists self',
    returns (AdaptiveFactory.run_classical adaptive_example decay
                                           (_steps adaptive_example)) self'
    /\ returns (AdaExpFactory.is_converged self') true
    /\ emits (AdaptiveFactory.run_classical adaptive_example decay
                                            (_steps adaptive_example))
             ConvergenceWarning = true.
Proof.
  destruct adaptive_example_run as (self' & Hr).
  exists self'. split; [exact Hr |].
  apply (ConvergenceWarning_although_converged adaptive_example self' decay);
    [simpl; lia | exact Hr].
Defined.

End ConvergenceWitness.

(** ** Constructors *)

(** The constructors leave two empty stacks. *)
Lemma BatchedFactory_init_balanced (scale_factors : list R)
    (shot_list : option (list PyVal)) (self : BatchedFactory) :
  returns (BatchedFactory.__init__ scale_factors shot_list) self ->
  balanced (Batched_super self).
Proof.
  unfold BatchedFactory.__init__.
  repeat match goal with
         | |- context [if ?c then _ else _] => destruct c
         end; intros Hr; py_inv Hr; now subst self.
Qed.

Lemma AdaExpFactory_init_balanced (steps : Z) (scale_factor : R)
    (asymptote : PyVal) (avoid_log : bool) (max_scale_factor : R)
    (self : AdaExpFactory) :
  returns (AdaExpFactory.__init__ steps scale_factor asymptote avoid_log
                                  max_scale_factor) self ->
  balanced (AdaExp_super self) /\ (3 <= _steps self)%Z.
Proof.
  unfold AdaExpFactory.__init__. intros Hr.
  apply bind_returns_inv in Hr as (a & _ & Hr).
  destruct (Rle_dec scale_factor 1); [py_inv Hr |].
  destruct (steps <? 3 + (if is_None a then 1 else 0))%Z eqn:Hs; [py_inv Hr |].
  destruct (Rle_dec max_scale_factor 1); [py_inv Hr |].
  apply ret_returns in Hr. subst self. simpl. split; [reflexivity |].
  apply Z.ltb_ge in Hs. destruct (is_None a); lia.
Qed.

(** * Further properties *)

(** ** Batched collection: what [run] and [run_classical] store *)

Lemma always_raises_bind {A B} (m : Py A) (k : A -> Py B) :
  (forall a, returns m a -> exists e, raises (k a) e) ->
  exists e, raises (bind m k) e.
Proof.
  intros Hk. destruct (outcome_cases m) as [[e He] | [a Ha]].
  - exists e. now apply bind_raises_l.
  - destruct (Hk a Ha) as (e & He). exists e.
    eapply bind_raises_r; eauto.
Qed.

Lemma Forall2_mapM {A B} (f : A -> Py B) (l : list A) (bs : list B) :
  Forall2 (fun a b => returns (f a) b) l bs -> returns (mapM f l) bs.
Proof.
  induction 1 as [| a b l bs Hab _ IH]; simpl; [reflexivity |].
  eapply bind_returns; [exact Hab |].
  eapply bind_returns; [exact IH | reflexivity].
Qed.

Lemma concat_replicate_1 {A} (l : list A) :
  concat (map (fun k => replicate (Z.to_nat 1) k) l) = l.
Proof.
  induction l as [| a l IH]; simpl in *; [reflexivity |].
  now rewrite IH.
Qed.

Lemma delete_scale_factor_shots (s n : R) :
  delete "scale_factor" ({[ "scale_factor" := s; "shots" := n ]} : gmap string R)
  = {[ "shots" := n ]}.
Proof.
  rewrite delete_insert_eq. apply delete_singleton_ne. discriminate.
Qed.

Lemma bind_ret_l {A B} (a : A) (k : A -> Py B) : bind (ret a) k = k a.
Proof. unfold bind, ret. now destruct (k a). Qed.

Lemma populated_records_with_shots (sf : list R) (shots : list Z) :
  length shots = length sf ->
  map (fun params : gmap string R => params !! "scale_factor")
      (map (fun ss : R * Z =>
              {[ "scale_factor" := ss.1; "shots" := IZR ss.2 ]})
           (zip sf shots))
  = map Some sf
  /\ mapM BatchedFactory.pop_scale_factor
          (map (fun ss : R * Z =>
                  {[ "scale_factor" := ss.1; "shots" := IZR ss.2 ]})
               (zip sf shots))
     = ret (map (fun n : Z => {[ "shots" := IZR n ]}) shots).
Proof.
  revert shots. induction sf as [| s sf IH]; intros [| n shots] Hlen;
    simpl in *; try discriminate; [split; reflexivity |].
  injection Hlen as Hlen. destruct (IH shots Hlen) as [IH1 IH2].
  rewrite IH1, IH2, lookup_insert_eq.
  unfold BatchedFactory.pop_scale_factor.
  rewrite lookup_insert_eq, delete_scale_factor_shots, !bind_ret_l.
  split; reflexivity.
Qed.

Lemma populated_records_without_shots (sf : list R) :
  map (fun params : gmap string R => params !! "scale_factor")
      (map (fun scale : R => {[ "scale_factor" := scale ]}) sf)
  = map Some sf
  /\ mapM BatchedFactory.pop_scale_factor
          (map (fun scale : R => ({[ "scale_factor" := scale ]} : gmap string R))
               sf)
     = ret (map (fun _ : R => ∅) sf).
Proof.
  induction sf as [| s sf [IH1 IH2]]; simpl; [split; reflexivity |].
  rewrite IH1, IH2, lookup_singleton_eq.
  unfold BatchedFactory.pop_scale_factor.
  rewrite lookup_singleton_eq, delete_singleton_eq, !bind_ret_l.
  split; reflexivity.
Qed.

(** The records and the keywords of a factory populated from a consistent
    configuration. *)
Lemma populated_factory (self : BatchedFactory) :
  shots_consistent self ->
  BatchedFactory.get_scale_factors
    (BatchedFactory._batch_populate_instack (BatchedFactory.reset self))
  = map Some (_scale_factors self)
  /\ BatchedFactory._get_keyword_args
       (BatchedFactory._batch_populate_instack (BatchedFactory.reset self)) 1
     = ret (expected_kwargs self).
Proof.
  intros Hc.
  unfold BatchedFactory.get_scale_factors, Factory.get_scale_factors,
    BatchedFactory._get_keyword_args, expected_kwargs, shots_consistent in *.
  simpl.
  destruct (truthy (_shot_list self)).
  - destruct (populated_records_with_shots _ _ (Hc eq_refl)) as [H1 H2].
    rewrite H1, H2, bind_ret_l.
    split; [reflexivity | f_equal; apply concat_replicate_1].
  - destruct (populated_records_without_shots (_scale_factors self))
      as [H1 H2].
    rewrite H1, H2, bind_ret_l.
    split; [reflexivity | f_equal; apply concat_replicate_1].
Qed.

Lemma length_expected_kwargs (self : BatchedFactory) :
  shots_consistent self ->
  length (expected_kwargs self) = length (_scale_factors self).
Proof.
  unfold shots_consistent, expected_kwargs. intros Hc.
  destruct (truthy (_shot_list self)); rewrite length_map; auto.
Qed.

(** What the constructor returns is consistent. *)
Lemma BatchedFactory_init_consistent (scale_factors : list R)
    (shot_list : option (list PyVal)) (self : BatchedFactory) :
  returns (BatchedFactory.__init__ scale_factors shot_list) self ->
  shots_consistent self /\ _scale_factors self = scale_factors.
Proof.
  unfold BatchedFactory.__init__, shots_consistent.
  destruct (length scale_factors <? 2)%nat; [intros Hr; py_inv Hr |].
  destruct (truthy shot_list && negb (forallb is_int (default [] shot_list)));
    [intros Hr; py_inv Hr |].
  destruct (truthy shot_list
            && negb (Nat.eqb (length scale_factors)
                             (length (default [] shot_list)))) eqn:Hlen;
    [intros Hr; py_inv Hr |].
  intros Hr. apply ret_returns in Hr. subst self. simpl. split; [| reflexivity].
  destruct shot_list as [[| v l] |]; simpl in *; try discriminate.
  intros _. apply negb_false_iff, Nat.eqb_eq in Hlen.
  rewrite length_map. simpl in Hlen. lia.
Qed.

(** X1: after a [run] that completes, [push] raises [AttributeError]: [run]
    stores the array of averages in [_outstack], and an array has no
    [append]. *)
Theorem push_after_run_raises {Q : Type} (self self' : BatchedFactory)
    (qp : Q) (executor : Executor Q) (scale_noise : Q -> R -> Py Q)
    (num_to_average : Z) (instack_val : gmap string R) (outstack_val : R) :
  returns (BatchedFactory.run Q self qp executor scale_noise num_to_average)
          self' ->
  exists msg,
    raises (BatchedFactory.push self' instack_val outstack_val)
           (AttributeError msg).
Proof.
  unfold BatchedFactory.run. intros Hr.
  apply bind_returns_inv in Hr as (to_run & _ & Hr).
  apply bind_returns_inv in Hr as (kwargs_list & _ & Hr).
  apply bind_returns_inv in Hr as (res & _ & Hr).
  apply bind_returns_inv in Hr as (rows & _ & Hr).
  apply ret_returns in Hr. subst self'.
  eexists. unfold BatchedFactory.push. apply bind_raises_l.
  unfold Factory.push. simpl.
  eapply bind_raises_r; reflexivity.
Qed.

Lemma push_after_run_raises_witness :
  exists self' msg,
    returns (BatchedFactory.run unit batched_example tt
               (SingleExecutor (fun _ _ => ret 1%R)) (fun qp _ => ret qp) 2)
            self'
    /\ raises (BatchedFactory.push self' (record 4) 9%R) (AttributeError msg).
Proof.
  eexists.
  assert (Hr : returns (BatchedFactory.run unit batched_example tt
                          (SingleExecutor (fun _ _ => ret 1%R))
                          (fun qp _ => ret qp) 2) _) by reflexivity.
  destruct (push_after_run_raises _ _ _ _ _ _ (record 4) 9%R Hr) as (msg & Hm).
  exists msg. split; [exact Hr | exact Hm].
Defined.

(** X2: [run] with [num_to_average <= 0] never completes: whatever the
    executor returns cannot be reshaped into rows of that many columns. *)
Theorem run_needs_positive_average {Q : Type} (self : BatchedFactory)
    (qp : Q) (executor : Executor Q) (scale_noise : Q -> R -> Py Q)
    (num_to_average : Z) :
  (num_to_average <= 0)%Z ->
  exists e,
    raises (BatchedFactory.run Q self qp executor scale_noise num_to_average) e.
Proof.
  intros Hk. unfold BatchedFactory.run.
  apply always_raises_bind. intros to_run _.
  apply always_raises_bind. intros kwargs_list _.
  apply always_raises_bind. intros res _.
  eexists. apply bind_raises_l. unfold reshape.
  apply Z.leb_le in Hk. rewrite Hk. reflexivity.
Qed.

Lemma run_needs_positive_average_witness :
  exists e,
    raises (BatchedFactory.run unit batched_example tt
              (SingleExecutor (fun _ _ => ret 1%R)) (fun qp _ => ret qp) 0) e.
Proof.
  apply (run_needs_positive_average batched_example tt
           (SingleExecutor (fun _ _ => ret 1%R)) (fun qp _ => ret qp) 0).
  lia.
Defined.

(** X3: [run_classical] discards what the factory held: two factories with
    the same scale factors and shot list give the same computation, whatever
    their stacks and cached fit outputs, the curve apart, which [reset]
    leaves in place. *)
Theorem run_classical_discards_earlier_data (a b : BatchedFactory)
    (fn : R -> gmap string R -> Py R) :
  _scale_factors a = _scale_factors b ->
  _shot_list a = _shot_list b ->
  _zne_curve (Batched_super a) = _zne_curve (Batched_super b) ->
  BatchedFactory.run_classical a fn = BatchedFactory.run_classical b fn.
Proof.
  destruct a as [fa sfa sha], b as [fb sfb shb]. simpl.
  intros -> -> Hc.
  unfold BatchedFactory.run_classical, BatchedFactory._get_keyword_args,
    BatchedFactory._batch_populate_instack, BatchedFactory.reset,
    BatchedFactory.set_super, BatchedFactory.set_instack,
    BatchedFactory.set_outstack, Factory.reset.
  simpl. now rewrite Hc.
Qed.

Lemma run_classical_discards_earlier_data_witness :
  BatchedFactory.run_classical linear_data (fun x _ => ret (x * x)%R)
  = BatchedFactory.run_classical
      (mkBatchedFactory Factory.__init__ [1; 2; 3]%R None)
      (fun x _ => ret (x * x)%R).
Proof.
  apply (run_classical_discards_earlier_data linear_data
           (mkBatchedFactory Factory.__init__ [1; 2; 3]%R None));
    reflexivity.
Defined.

(** X4: a [run_classical] that completes stores the configured scale
    factors, in order, and beside each the value the function returned on
    that scale factor and its keywords: [shots] under a shot list, none
    otherwise.  The output stack is a list again. *)
Theorem run_classical_collects (self self' : BatchedFactory)
    (fn : R -> gmap string R -> Py R) :
  shots_consistent self ->
  returns (BatchedFactory.run_classical self fn) self' ->
  BatchedFactory.get_scale_factors self' = map Some (_scale_factors self)
  /\ Forall2 (fun (sk : R * gmap string R) (out : R) =>
                returns (fn sk.1 sk.2) out)
             (zip (_scale_factors self) (expected_kwargs self))
             (BatchedFactory.get_expectation_values self')
  /\ _outstack (Batched_super self')
     = PyList (BatchedFactory.get_expectation_values self').
Proof.
  intros Hc Hr. destruct (populated_factory self Hc) as [Hsf Hkw].
  unfold BatchedFactory.run_classical in Hr. rewrite Hkw, bind_ret_l in Hr.
  apply bind_returns_inv in Hr as (out & Hout & Hr).
  apply ret_returns in Hr. subst self'.
  apply mapM_Forall2 in Hout.
  repeat split; [exact Hsf | exact Hout].
Qed.

Lemma run_classical_collects_witness :
  exists self',
    returns (BatchedFactory.run_classical batched_example
               (fun x kwargs => ret (x + default 0%R (kwargs !! "shots"))%R))
            self'
    /\ BatchedFactory.get_scale_factors self'
       = map Some (_scale_factors batched_example)
    /\ Forall2 (fun (sk : R * gmap string R) (out : R) =>
                  returns (ret (sk.1 + default 0%R (sk.2 !! "shots"))%R) out)
               (zip (_scale_factors batched_example)
                    (expected_kwargs batched_example))
               (BatchedFactory.get_expectation_values self')
    /\ _outstack (Batched_super self')
       = PyList (BatchedFactory.get_expectation_values self').
Proof.
  eexists. split; [reflexivity |].
  apply (run_classical_collects batched_example _
           (fun x kwargs => ret (x + default 0%R (kwargs !! "shots"))%R)).
  - intros _. reflexivity.
  - reflexivity.
Defined.

Lemma pop_scale_factor_returns (d d' : gmap string R) :
  returns (BatchedFactory.pop_scale_factor d) d' ->
  d' !! "scale_factor" = None /\ is_Some (d !! "scale_factor").
Proof.
  unfold BatchedFactory.pop_scale_factor.
  destruct (d !! "scale_factor") as [v |] eqn:Hd; intros Hr; py_inv Hr.
  subst d'. split; [apply lookup_delete_eq | eauto].
Qed.

(** X5: [_get_keyword_args] pops [scale_factor] from the copy of every
    input record.  When it returns, every record held that key and no
    keyword dictionary holds it; when a record lacks the key, it raises
    [KeyError]. *)
Theorem keyword_args_without_scale_factor (self : BatchedFactory)
    (num_to_average : Z) :
  (forall kwargs_list,
      returns (BatchedFactory._get_keyword_args self num_to_average)
              kwargs_list ->
      Forall (fun kwargs : gmap string R => kwargs !! "scale_factor" = None)
             kwargs_list
      /\ Forall (fun d : gmap string R => is_Some (d !! "scale_factor"))
                (_instack (Batched_super self)))
  /\ (Exists (fun d : gmap string R => d !! "scale_factor" = None)
             (_instack (Batched_super self)) ->
      exists msg,
        raises (BatchedFactory._get_keyword_args self num_to_average)
               (KeyError msg)).
Proof.
  unfold BatchedFactory._get_keyword_args. split.
  - intros kwargs_list Hr.
    apply bind_returns_inv in Hr as (params & Hp & Hr).
    apply ret_returns in Hr. subst kwargs_list.
    apply mapM_Forall2 in Hp. split.
    + apply Forall_concat, Forall_forall. intros l Hin.
      apply list_elem_of_In, in_map_iff in Hin as (d & <- & Hd).
      apply Forall_replicate. apply list_elem_of_In in Hd.
      induction Hp as [| d0 d1 ds ps Hpop _ IH]; [inversion Hd |].
      apply elem_of_cons in Hd as [-> | Hd]; [| now apply IH].
      now apply pop_scale_factor_returns in Hpop.
    + induction Hp as [| d0 d1 ds ps Hpop _ IH]; constructor; [| exact IH].
      now apply pop_scale_factor_returns in Hpop.
  - intros Hex. eexists. apply bind_raises_l.
    induction Hex as [d ds Hd | d ds _ IH]; simpl.
    + apply bind_raises_l. unfold BatchedFactory.pop_scale_factor.
      rewrite Hd. reflexivity.
    + destruct (outcome_cases (BatchedFactory.pop_scale_factor d))
        as [[e He] | [d' Hd']].
      * unfold BatchedFactory.pop_scale_factor in *.
        destruct (d !! "scale_factor"); [discriminate He |].
        apply bind_raises_l. reflexivity.
      * eapply bind_raises_r; [exact Hd' |]. apply bind_raises_l. exact IH.
Qed.

Lemma returns_unique {A} (m : Py A) (a b : A) :
  returns m a -> returns m b -> a = b.
Proof. unfold returns. intros Ha Hb. congruence. Qed.

Lemma split_rows_1 (l : list R) :
  split_rows (length l) 1 l = map (fun r => [r]) l.
Proof.
  induction l as [| r l IH]; simpl; [reflexivity |].
  rewrite drop_0. now rewrite IH.
Qed.

Lemma reshape_1 (res : list R) :
  reshape res 1 = ret (map (fun r => [r]) res).
Proof.
  unfold reshape. change (1 <=? 0)%Z with false. cbv iota.
  change (Z.to_nat 1) with 1%nat.
  rewrite Nat.mod_1_r, Nat.div_1_r. cbn [Nat.eqb].
  now rewrite split_rows_1.
Qed.

Lemma average_singleton (r : R) : average [r] = r.
Proof. unfold average. simpl. field. Qed.

Lemma map_average_singletons (res : list R) :
  map average (map (fun r => [r]) res) = res.
Proof.
  induction res as [| r res IH]; simpl; [reflexivity |].
  now rewrite average_singleton, IH.
Qed.

(** One circuit per scale factor: the circuits are the scaled circuits. *)
Lemma generate_circuits_1 {Q : Type} (self : BatchedFactory) (qp : Q)
    (scale_noise : Q -> R -> Py Q) (sf : list R) (to_run : list Q) :
  BatchedFactory.get_scale_factors self = map Some sf ->
  returns (BatchedFactory._generate_circuits Q self qp scale_noise 1) to_run ->
  Forall2 (fun s c => returns (scale_noise qp s) c) sf to_run.
Proof.
  intros Hsf Hr. unfold BatchedFactory._generate_circuits in Hr.
  rewrite Hsf in Hr.
  apply bind_returns_inv in Hr as (scales & Hs & Hr).
  apply (returns_unique _ _ _ (float_array_Some sf)) in Hs. subst scales.
  apply bind_returns_inv in Hr as (per_scale & Hp & Hr).
  apply ret_returns in Hr. subst to_run.
  apply mapM_Forall2 in Hp. clear Hsf.
  induction Hp as [| s row sf' rows Hrow _ IH]; simpl; [constructor |].
  simpl in Hrow.
  apply bind_returns_inv in Hrow as (c & Hc & Hrow).
  apply bind_returns_inv in Hrow as (cs & Hcs & Hrow).
  apply ret_returns in Hcs. apply ret_returns in Hrow. subst cs row.
  simpl. constructor; [exact Hc | exact IH].
Qed.

Lemma Forall2_zip_compose {Q : Type} (scale : R -> Py Q)
    (call : Q -> gmap string R -> Py R) (sf : list R) (to_run : list Q) :
  Forall2 (fun s c => returns (scale s) c) sf to_run ->
  forall (kw : list (gmap string R)) (res : list R),
    Forall2 (fun (ck : Q * gmap string R) r => returns (call ck.1 ck.2) r)
            (zip to_run kw) res ->
    Forall2 (fun (sk : R * gmap string R) r =>
               returns (let! c := scale sk.1 in call c sk.2) r)
            (zip sf kw) res.
Proof.
  induction 1 as [| s c sf to_run Hc _ IH]; intros [| k kw] res Hres;
    simpl in *; inversion Hres; subst; constructor.
  - eapply bind_returns; eauto.
  - now apply IH.
Qed.

(** X6: with one circuit per scale factor and a single executor, [run]
    collects what [run_classical] collects on the function that scales the
    circuit and then executes it: the same input records and the same
    expectation values. *)
Theorem run_once_is_run_classical {Q : Type} (self self' : BatchedFactory)
    (qp : Q) (call : Q -> gmap string R -> Py R)
    (scale_noise : Q -> R -> Py Q) :
  shots_consistent self ->
  returns (BatchedFactory.run Q self qp (SingleExecutor call) scale_noise 1)
          self' ->
  exists self'',
    returns (BatchedFactory.run_classical self
               (fun scale_factor kwargs =>
                  let! scaled := scale_noise qp scale_factor in
                  call scaled kwargs))
            self''
    /\ BatchedFactory.get_scale_factors self''
       = BatchedFactory.get_scale_factors self'
    /\ BatchedFactory.get_expectation_values self''
       = BatchedFactory.get_expectation_values self'.
Proof.
  intros Hc Hr. destruct (populated_factory self Hc) as [Hsf Hkw].
  unfold BatchedFactory.run in Hr. rewrite Hkw in Hr.
  apply bind_returns_inv in Hr as (to_run & Hgen & Hr).
  rewrite bind_ret_l in Hr.
  apply bind_returns_inv in Hr as (res & Hres & Hr).
  rewrite reshape_1 in Hr.
  apply bind_returns_inv in Hr as (rows & Hrows & Hr).
  apply ret_returns in Hrows. apply ret_returns in Hr. subst rows self'.
  apply (generate_circuits_1 _ _ _ _ _ Hsf) in Hgen.
  apply mapM_Forall2 in Hres.
  pose proof (Forall2_zip_compose _ _ _ _ Hgen _ _ Hres) as Hall.
  apply Forall2_mapM in Hall.
  eexists. split.
  - unfold BatchedFactory.run_classical. rewrite Hkw, bind_ret_l.
    eapply bind_returns; [exact Hall | reflexivity].
  - split; [reflexivity |].
    unfold BatchedFactory.get_expectation_values,
      Factory.get_expectation_values. simpl.
    now rewrite map_average_singletons.
Qed.

Lemma run_once_is_run_classical_witness :
  exists self' self'',
    returns (BatchedFactory.run unit batched_example tt
               (SingleExecutor
                  (fun _ kwargs => ret (default 0%R (kwargs !! "shots"))))
               (fun qp _ => ret qp) 1)
            self'
    /\ returns (BatchedFactory.run_classical batched_example
                  (fun scale_factor kwargs =>
                     let! scaled := ret tt in
                     ret (default 0%R (kwargs !! "shots"))))
               self''
    /\ BatchedFactory.get_scale_factors self''
       = BatchedFactory.get_scale_factors self'
    /\ BatchedFactory.get_expectation_values self''
       = BatchedFactory.get_expectation_values self'.
Proof.
  eexists.
  assert (Hr : returns (BatchedFactory.run unit batched_example tt
                          (SingleExecutor
                             (fun _ kwargs =>
                                ret (default 0%R (kwargs !! "shots"))))
                          (fun qp _ => ret qp) 1) _) by reflexivity.
  destruct (run_once_is_run_classical batched_example _ tt
              (fun _ kwargs => ret (default 0%R (kwargs !! "shots")))
              (fun qp _ => ret qp) (fun _ => eq_refl) Hr)
    as (self'' & H1 & H2 & H3).
  exists self''. exact (conj Hr (conj H1 (conj H2 H3))).
Defined.

(** ** The cached outputs of a fit *)

Lemma reduce_with_stores (ex : list R -> list R -> Py Extrapolation)
    (self : BatchedFactory) (l : R) (b : BatchedFactory) :
  returns (BatchedFactory.reduce_with ex self) (l, b) ->
  exists sf err p cov curve,
    returns (Factory.float_array (BatchedFactory.get_scale_factors self)) sf
    /\ returns (ex sf (BatchedFactory.get_expectation_values self))
               (Full l err p cov curve)
    /\ b = BatchedFactory.set_super self
             (mkFactory (_instack (Batched_super self))
                        (_outstack (Batched_super self))
                        (Some p) cov (Some l) err (Some curve) true).
Proof.
  unfold BatchedFactory.reduce_with. intros Hr.
  apply bind_returns_inv in Hr as (sf & Hsf & Hr).
  apply bind_returns_inv in Hr as (e & He & Hr).
  apply bind_returns_inv in Hr as ([l1 f1] & Hstore & Hr).
  apply ret_returns in Hr. injection Hr as <- <-.
  apply store_returns in Hstore as (err & p & cov & curve & -> & ->).
  exists sf, err, p, cov, curve. auto.
Qed.

Lemma AdaExp_reduce_stores `{Numerics} (self : AdaExpFactory) (l : R)
    (self' : AdaExpFactory) :
  returns (AdaExpFactory.reduce self) (l, self') ->
  exists err p cov curve,
    let f := mkFactory (_instack (AdaExp_super self))
                       (_outstack (AdaExp_super self))
                       (Some p) cov (Some l) err (Some curve) true in
    self' = AdaExpFactory.with_state self f
              (history self
               ++ [(_instack (AdaExp_super self),
                    _outstack (AdaExp_super self), p, l)]).
Proof.
  unfold AdaExpFactory.reduce. intros Hr.
  apply bind_returns_inv in Hr as (sf & Hsf & Hr).
  apply bind_returns_inv in Hr as (e & He & Hr).
  apply bind_returns_inv in Hr as ([l1 f1] & Hstore & Hr).
  apply ret_returns in Hr. injection Hr as <- <-.
  apply store_returns in Hstore as (err & p & cov & curve & -> & ->).
  exists err, p, cov, curve. reflexivity.
Qed.

(** What [reduce] leaves in the [Factory] attributes of any class. *)
Lemma reduce_of_stores `{Numerics} (obj obj' : Any) (l : R) :
  returns (reduce_of obj) (l, obj') ->
  exists f err p cov curve,
    as_Factory obj = Some f
    /\ as_Factory obj'
       = Some (mkFactory (_instack f) (_outstack f)
                         (Some p) cov (Some l) err (Some curve) true).
Proof.
  destruct obj as [o | o | o | o | o | o | o | o |]; simpl; intros Hr;
    try (apply bind_returns_inv in Hr as ([l0 o0] & Hv & Hr);
         apply ret_returns in Hr; injection Hr as <- <-).
  - unfold PolyFactory.reduce in Hv.
    apply bind_returns_inv in Hv as ([l1 b] & Hv & Hr).
    apply ret_returns in Hr. injection Hr as <- <-.
    apply reduce_with_stores in Hv as (sf & err & p & cov & curve & _ & _ & ->).
    simpl. eauto 10.
  - apply reduce_with_stores in Hv as (sf & err & p & cov & curve & _ & _ & ->).
    simpl. eauto 10.
  - apply reduce_with_stores in Hv as (sf & err & p & cov & curve & _ & _ & ->).
    simpl. eauto 10.
  - apply reduce_with_stores in Hv as (sf & err & p & cov & curve & _ & _ & ->).
    simpl. eauto 10.
  - unfold ExpFactory.reduce in Hv.
    apply bind_returns_inv in Hv as ([l1 b] & Hv & Hr).
    apply ret_returns in Hr. injection Hr as <- <-.
    apply reduce_with_stores in Hv as (sf & err & p & cov & curve & _ & _ & ->).
    simpl. eauto 10.
  - unfold PolyExpFactory.reduce in Hv.
    apply bind_returns_inv in Hv as ([l1 b] & Hv & Hr).
    apply ret_returns in Hr. injection Hr as <- <-.
    apply reduce_with_stores in Hv as (sf & err & p & cov & curve & _ & _ & ->).
    simpl. eauto 10.
  - apply reduce_with_stores in Hv as (sf & err & p & cov & curve & _ & _ & ->).
    simpl. eauto 10.
  - apply AdaExp_reduce_stores in Hv as (err & p & cov & curve & ->).
    simpl. eauto 10.
  - unfold no_attribute in Hr. py_inv Hr.
Qed.

(** X7: after a [reduce] that returns, on a factory of any class, the
    accessors of the limit, of the parameters and of the curve return, the
    limit accessor gives the value [reduce] returned, and the collected data
    is as it was. *)
Theorem reduce_fills_the_caches `{Numerics} (obj obj' : Any) (zne_limit : R) :
  returns (reduce_of obj) (zne_limit, obj') ->
  exists f f' params curve,
    as_Factory obj = Some f /\ as_Factory obj' = Some f'
    /\ returns (Factory.get_zero_noise_limit f') zne_limit
    /\ returns (Factory.get_optimal_parameters f') params
    /\ returns (Factory.get_extrapolation_curve f') curve
    /\ _already_reduced f' = true
    /\ Factory.get_scale_factors f' = Factory.get_scale_factors f
    /\ Factory.get_expectation_values f' = Factory.get_expectation_values f.
Proof.
  intros Hr.
  apply reduce_of_stores in Hr as (f & err & p & cov & curve & Hf & Hf').
  exists f. eexists. exists p, curve.
  split; [exact Hf |]. split; [exact Hf' |]. repeat split.
Qed.

Section CacheWitnesses.
Import LeastSquares.

Lemma reduce_fills_the_caches_witness :
  exists zne_limit obj' f f' params curve,
    returns (@reduce_of numerics linear_example) (zne_limit, obj')
    /\ as_Factory linear_example = Some f /\ as_Factory obj' = Some f'
    /\ returns (Factory.get_zero_noise_limit f') zne_limit
    /\ returns (Factory.get_optimal_parameters f') params
    /\ returns (Factory.get_extrapolation_curve f') curve
    /\ _already_reduced f' = true
    /\ Factory.get_scale_factors f' = Factory.get_scale_factors f
    /\ Factory.get_expectation_values f' = Factory.get_expectation_values f.
Proof.
  destruct linear_example_reduces as (l & obj' & Hred).
  destruct (@reduce_fills_the_caches numerics _ _ _ Hred)
    as (f & f' & params & curve & Hall).
  exists l, obj', f, f', params, curve. exact (conj Hred Hall).
Defined.

End CacheWitnesses.

(** X8: a [push] after a [reduce] that returned always emits the
    [ExtrapolationWarning].  When the output stack is a list (the data came
    from [run_classical] or [push]) it appends the new point and leaves the
    cached limit as it was: [get_zero_noise_limit] still returns the value
    fitted before the push.  When the output stack is the array stored by
    [run], it raises [AttributeError] instead. *)
Theorem push_after_reduce_keeps_the_limit `{Numerics} (obj obj' : Any)
    (zne_limit : R) (f' : Factory) (instack_val : gmap string R)
    (outstack_val : R) :
  returns (reduce_of obj) (zne_limit, obj') ->
  as_Factory obj' = Some f' ->
  emits (Factory.push f' instack_val outstack_val) ExtrapolationWarning = true
  /\ (forall xs,
        _outstack f' = PyList xs ->
        exists f'',
          returns (Factory.push f' instack_val outstack_val) f''
          /\ returns (Factory.get_zero_noise_limit f'') zne_limit
          /\ _instack f'' = _instack f' ++ [instack_val]
          /\ _outstack f'' = PyList (xs ++ [outstack_val]))
  /\ (forall xs,
        _outstack f' = NdArray xs ->
        exists msg,
          raises (Factory.push f' instack_val outstack_val)
                 (AttributeError msg)).
Proof.
  intros Hr Hf'.
  apply reduce_of_stores in Hr as (f & err & p & cov & curve & _ & Hf2).
  rewrite Hf' in Hf2. injection Hf2 as ->.
  unfold Factory.push. simpl.
  split; [destruct (_outstack f); reflexivity |].
  split; intros xs Hxs; rewrite Hxs.
  - eexists. split; [reflexivity |]. split; [reflexivity |].
    split; reflexivity.
  - eexists. reflexivity.
Qed.

Section StaleLimitWitness.
Import LeastSquares.

Lemma push_after_reduce_keeps_the_limit_witness :
  exists zne_limit obj' f' f'',
    returns (@reduce_of numerics linear_example) (zne_limit, obj')
    /\ as_Factory obj' = Some f'
    /\ emits (Factory.push f' (record 4) 9%R) ExtrapolationWarning = true
    /\ returns (Factory.push f' (record 4) 9%R) f''
    /\ returns (Factory.get_zero_noise_limit f'') zne_limit
    /\ _instack f'' = _instack f' ++ [record 4]
    /\ _outstack f'' = PyList ([3; 5; 7]%R ++ [9%R]).
Proof.
  destruct linear_example_reduces as (l & obj' & Hred).
  destruct (@reduce_of_stores numerics _ _ _ Hred)
    as (f & err & p & cov & curve & Hf & Hf').
  injection Hf as <-.
  destruct (@push_after_reduce_keeps_the_limit numerics _ _ _ _
              (record 4) 9%R Hred Hf') as (Hwarn & Hlist & _).
  destruct (Hlist [3; 5; 7]%R eq_refl) as (f'' & Hpush & Hlim & Hin & Hout).
  exists l, obj'. eexists. exists f''.
  exact (conj Hred (conj Hf' (conj Hwarn (conj Hpush
           (conj Hlim (conj Hin Hout)))))).
Defined.

End StaleLimitWitness.

Lemma reduce_with_again (ex : list R -> list R -> Py Extrapolation)
    (self b : BatchedFactory) (l : R) :
  returns (BatchedFactory.reduce_with ex self) (l, b) ->
  BatchedFactory.reduce_with ex b = BatchedFactory.reduce_with ex self
  /\ _scale_factors b = _scale_factors self
  /\ _shot_list b = _shot_list self.
Proof.
  intros Hr.
  apply reduce_with_stores in Hr as (sf & err & p & cov & curve & _ & _ & ->).
  destruct self as [f scales shots].
  unfold BatchedFactory.reduce_with, Factory.store. simpl. auto.
Qed.

(** X9: on a factory of a class derived from [BatchedFactory] that fits
    with [np.polyfit] or [curve_fit] (every one but [ExpBayesFactory], whose
    fit draws samples), a second [reduce] is the first one again: it makes
    the same fit on the same data, returns the same limit and leaves the
    same factory. *)
Theorem batched_reduce_twice `{Numerics} (obj obj' : Any) (zne_limit : R)
    (b : BatchedFactory) :
  as_BatchedFactory obj = Some b ->
  (forall o, obj <> OfExpBayesFactory o) ->
  returns (reduce_of obj) (zne_limit, obj') ->
  returns (reduce_of obj') (zne_limit, obj').
Proof.
  destruct obj as [o | o | o | o | o | o | o | o |]; simpl; intros Hb Hne Hr;
    try discriminate; try (now destruct (Hne o));
    apply bind_returns_inv in Hr as ([l0 o0] & Hv & Hr);
    apply ret_returns in Hr; injection Hr as <- <-; simpl.
  - unfold PolyFactory.reduce in *.
    apply bind_returns_inv in Hv as ([l1 b1] & Hv & Hr).
    apply ret_returns in Hr. injection Hr as <- <-. simpl.
    destruct (reduce_with_again _ _ _ _ Hv) as (-> & _ & _).
    eapply bind_returns;
      [eapply bind_returns; [exact Hv | reflexivity] | reflexivity].
  - unfold RichardsonFactory.reduce in *.
    destruct (reduce_with_again _ _ _ _ Hv) as (-> & _ & _).
    eapply bind_returns; [exact Hv | reflexivity].
  - unfold FakeNodesFactory.reduce in *.
    destruct (reduce_with_again _ _ _ _ Hv) as (-> & _ & _).
    eapply bind_returns; [exact Hv | reflexivity].
  - unfold LinearFactory.reduce in *.
    destruct (reduce_with_again _ _ _ _ Hv) as (-> & _ & _).
    eapply bind_returns; [exact Hv | reflexivity].
  - unfold ExpFactory.reduce in *.
    apply bind_returns_inv in Hv as ([l1 b1] & Hv & Hr).
    apply ret_returns in Hr. injection Hr as <- <-. simpl.
    destruct (reduce_with_again _ _ _ _ Hv) as (-> & _ & _).
    eapply bind_returns;
      [eapply bind_returns; [exact Hv | reflexivity] | reflexivity].
  - unfold PolyExpFactory.reduce in *.
    apply bind_returns_inv in Hv as ([l1 b1] & Hv & Hr).
    apply ret_returns in Hr. injection Hr as <- <-. simpl.
    destruct (reduce_with_again _ _ _ _ Hv) as (-> & _ & _).
    eapply bind_returns;
      [eapply bind_returns; [exact Hv | reflexivity] | reflexivity].
Qed.

Section ReduceTwiceWitness.
Import LeastSquares.

Lemma batched_reduce_twice_witness :
  exists zne_limit obj',
    returns (@reduce_of numerics linear_example) (zne_limit, obj')
    /\ returns (@reduce_of numerics obj') (zne_limit, obj').
Proof.
  destruct linear_example_reduces as (l & obj' & Hred).
  exists l, obj'.
  exact (conj Hred
           (@batched_reduce_twice numerics linear_example obj' l linear_data
              eq_refl (fun o Ho => eq_ind linear_example
                         (fun a => match a with
                                   | OfLinearFactory _ => True
                                   | _ => False
                                   end) I _ Ho) Hred)).
Defined.

End ReduceTwiceWitness.

(** X10: [AdaExpFactory.reduce] is not such a fixed point: every call that
    returns appends one entry to [history], holding the data, the fitted
    parameters the accessor then returns, and the limit. *)
Theorem AdaExp_reduce_extends_history `{Numerics} (self self' : AdaExpFactory)
    (zne_limit : R) :
  returns (AdaExpFactory.reduce self) (zne_limit, self') ->
  exists params,
    returns (Factory.get_optimal_parameters (AdaExp_super self')) params
    /\ history self'
       = history self
         ++ [(_instack (AdaExp_super self), _outstack (AdaExp_super self),
              params, zne_limit)]
    /\ _steps self' = _steps self
    /\ _scale_factor self' = _scale_factor self
    /\ max_scale_factor self' = max_scale_factor self.
Proof.
  intros Hr.
  apply AdaExp_reduce_stores in Hr as (err & p & cov & curve & ->).
  exists p. repeat split.
Qed.

Section HistoryWitness.
Import LeastSquares.
Existing Instance LeastSquares.numerics.

Lemma AdaExp_reduce_extends_history_witness :
  exists zne_limit self' params,
    returns (AdaExpFactory.reduce exp_decay_state) (zne_limit, self')
    /\ returns (Factory.get_optimal_parameters (AdaExp_super self')) params
    /\ history self'
       = history exp_decay_state
         ++ [(_instack (AdaExp_super exp_decay_state),
              _outstack (AdaExp_super exp_decay_state), params, zne_limit)]
    /\ _steps self' = _steps exp_decay_state
    /\ _scale_factor self' = _scale_factor exp_decay_state
    /\ max_scale_factor self' = max_scale_factor exp_decay_state.
Proof.
  destruct exp_decay_reduce as (l & self' & ic & Hred & _).
  destruct (AdaExp_reduce_extends_history _ _ _ Hred) as (params & Hall).
  exists l, self', params. exact (conj Hred Hall).
Defined.

End HistoryWitness.

(** ** The numeric wrappers *)

Lemma replaced_category_absent (old : WarningCategory) (ws : list Warning) :
  old <> ExtrapolationWarning ->
  existsb (fun w => category_eqb (category w) old)
          (map (replace_category old) ws) = false.
Proof.
  intros Hne. induction ws as [| w ws IH]; simpl; [reflexivity |].
  rewrite IH, orb_false_r. unfold replace_category.
  destruct (category_eqb (category w) old) eqn:Hw; [| exact Hw].
  simpl. destruct old; try reflexivity. contradiction.
Qed.

(** X11: the wrappers never let the warning they translate through:
    [mitiq_polyfit] emits no [RankWarning] and [mitiq_curve_fit] no
    [OptimizeWarning], whatever [np.polyfit] and [curve_fit] do. *)
Theorem wrappers_translate_fit_warnings `{Numerics}
    (ansatz : R -> list R -> R) (scale_factors exp_values : list R)
    (deg : Z) (weights init_params : option (list R)) :
  emits (mitiq_polyfit scale_factors exp_values deg weights) RankWarning
  = false
  /\ emits (mitiq_curve_fit ansatz scale_factors exp_values init_params)
           OptimizeWarning = false.
Proof.
  split.
  - unfold emits, warnings_of, mitiq_polyfit.
    set (first := np_polyfit scale_factors exp_values deg weights true).
    set (second := np_polyfit scale_factors exp_values deg weights false).
    destruct first as [ws [e | r]]; [| now apply replaced_category_absent].
    destruct e; try reflexivity;
      destruct second as [ws' [e' | r']]; simpl;
      first [reflexivity | now apply replaced_category_absent].
  - unfold emits, warnings_of, mitiq_curve_fit.
    destruct (curve_fit ansatz scale_factors exp_values init_params)
      as [ws [e | [p cov]]].
    + destruct e; reflexivity.
    + now apply replaced_category_absent.
Qed.

(** X12: when [curve_fit] fails with [RuntimeError], [mitiq_curve_fit]
    raises [ExtrapolationError] with the fixed message, and the warnings
    recorded up to the failure are dropped. *)
Theorem curve_fit_failure_is_ExtrapolationError `{Numerics}
    (ansatz : R -> list R -> R) (scale_factors exp_values : list R)
    (init_params : option (list R)) (msg : string) :
  raises (curve_fit ansatz scale_factors exp_values init_params)
         (RuntimeError msg) ->
  raises (mitiq_curve_fit ansatz scale_factors exp_values init_params)
         (ExtrapolationError _EXTR_ERR)
  /\ warnings_of (mitiq_curve_fit ansatz scale_factors exp_values init_params)
     = [].
Proof.
  unfold raises, outcome, warnings_of, mitiq_curve_fit.
  destruct (curve_fit ansatz scale_factors exp_values init_params)
    as [ws [e | [p cov]]]; simpl; intros Hr; [| discriminate].
  injection Hr as ->. split; reflexivity.
Qed.

Lemma curve_fit_failure_is_ExtrapolationError_witness :
  raises (@mitiq_curve_fit LeastSquares.numerics
            PolyExpFactory._ansatz_unknown [1; 2; 3]%R [3; 5; 7]%R None)
         (ExtrapolationError _EXTR_ERR)
  /\ warnings_of (@mitiq_curve_fit LeastSquares.numerics
                    PolyExpFactory._ansatz_unknown [1; 2; 3]%R [3; 5; 7]%R
                    None) = [].
Proof.
  apply (@curve_fit_failure_is_ExtrapolationError LeastSquares.numerics
           PolyExpFactory._ansatz_unknown [1; 2; 3]%R [3; 5; 7]%R None
           "Optimal parameters not found").
  reflexivity.
Defined.

(** X13: when [np.polyfit] with [cov=True] raises [ValueError] or
    [LinAlgError], [mitiq_polyfit] fits again without the covariance and
    returns those coefficients with [params_cov = None]. *)
Theorem polyfit_retries_without_covariance `{Numerics}
    (scale_factors exp_values : list R) (deg : Z) (weights : option (list R))
    (msg : string) (opt_params : list R) :
  raises (np_polyfit scale_factors exp_values deg weights true)
         (ValueError msg)
  \/ raises (np_polyfit scale_factors exp_values deg weights true)
            (LinAlgError msg) ->
  returns (np_polyfit scale_factors exp_values deg weights false)
          (Coeffs opt_params) ->
  returns (mitiq_polyfit scale_factors exp_values deg weights)
          (opt_params, None).
Proof.
  unfold raises, returns, outcome, mitiq_polyfit.
  destruct (np_polyfit scale_factors exp_values deg weights true)
    as [ws [e | r]]; simpl; intros [He | He] Hr; try discriminate;
    injection He as ->;
    destruct (np_polyfit scale_factors exp_values deg weights false)
      as [ws' [e' | r']]; simpl in *; try discriminate;
    injection Hr as ->; reflexivity.
Qed.

Section RetryWitness.
Import LeastSquares.

Lemma polyfit_retries_without_covariance_witness :
  returns (@mitiq_polyfit numerics [1; 2]%R [3; 5]%R 1 None)
          ([slope (weights None [1; 2]%R) [1; 2]%R [3; 5]%R;
            intercept (weights None [1; 2]%R) [1; 2]%R [3; 5]%R], None).
Proof.
  assert (Hne : (1 <> 2)%R) by lra.
  pose proof (det_two_points 1 2 Hne) as Hdet.
  apply (@polyfit_retries_without_covariance numerics [1; 2]%R [3; 5]%R 1 None
           "the number of data points must exceed order to scale the covariance matrix").
  - left. unfold np_polyfit; simpl. unfold polyfit; simpl.
    destruct (Req_dec_T _ 0) as [Hz | _]; [contradiction | reflexivity].
  - unfold np_polyfit; simpl. unfold polyfit; simpl.
    destruct (Req_dec_T _ 0) as [Hz | _]; [contradiction | reflexivity].
Defined.

End RetryWitness.

(** ** The adaptive loop *)

Lemma iterations_count `{Numerics} (fn : R -> gmap string R -> Py R)
    (remaining : nat) :
  forall (counter counter' : Z) (self self' : AdaExpFactory),
    Z.of_nat (length (items (_outstack (AdaExp_super self)))) = counter ->
    returns (AdaptiveFactory.iterations remaining counter self fn)
            (counter', self') ->
    Z.of_nat (length (items (_outstack (AdaExp_super self')))) = counter'
    /\ _steps self' = _steps self
    /\ (counter' = _steps self \/ counter' = counter + Z.of_nat remaining)%Z
    /\ (counter <= counter' <= counter + Z.of_nat remaining)%Z
    /\ ((counter <= _steps self)%Z -> (counter' <= _steps self)%Z).
Proof.
  induction remaining as [| remaining IH];
    intros counter counter' self self' Hlen Hr;
    simpl in Hr;
    apply bind_returns_inv in Hr as (converged & Hconv & Hr);
    pose proof (is_converged_returns _ _ Hconv) as [Hb Hc];
    rewrite Hlen in Hc.
  - assert (Hend : counter' = counter /\ self' = self).
    { destruct converged; apply ret_returns in Hr; injection Hr as <- <-;
        auto. }
    destruct Hend as [-> ->]. repeat split; try lia.
  - destruct converged.
    + apply ret_returns in Hr. injection Hr as <- <-.
      symmetry in Hc. apply Z.eqb_eq in Hc. repeat split; lia.
    + apply bind_returns_inv in Hr as ([d s1] & Hnext & Hr).
      apply bind_returns_inv in Hr as (scale_factor & _ & Hr).
      apply bind_returns_inv in Hr as (next_expval & _ & Hr).
      apply bind_returns_inv in Hr as (s2 & Hpush & Hr).
      apply AdaExp_next_keeps_stacks in Hnext as (_ & Hout & Hst).
      apply AdaExp_push_returns in Hpush as (Hlen2 & Hst2).
      symmetry in Hc. apply Z.eqb_neq in Hc.
      assert (Hlen3 : Z.of_nat (length (items (_outstack (AdaExp_super s2))))
                      = (counter + 1)%Z)
        by (rewrite Hlen2, Hout; lia).
      destruct (IH (counter + 1)%Z counter' s2 self' Hlen3 Hr)
        as (H1 & H2 & H3 & H4 & H5).
      rewrite Hst2, Hst in H2, H3, H5.
      repeat split; try lia; try congruence.
Qed.

(** X14: an adaptive [run_classical] that returns has collected at most
    [max_iterations] points, and it has stopped either at [steps] points or
    at the cap. *)
Theorem adaptive_run_stops_at_steps_or_cap `{Numerics}
    (self self' : AdaExpFactory) (fn : R -> gmap string R -> Py R)
    (max_iterations : Z) :
  returns (AdaptiveFactory.run_classical self fn max_iterations) self' ->
  (Z.of_nat (length (AdaptiveFactory.get_expectation_values self'))
   <= Z.max 0 max_iterations)%Z
  /\ (Z.of_nat (length (AdaptiveFactory.get_expectation_values self'))
      = _steps self
      \/ Z.of_nat (length (AdaptiveFactory.get_expectation_values self'))
         = Z.max 0 max_iterations)
  /\ length (AdaptiveFactory.get_scale_factors self')
     = length (AdaptiveFactory.get_expectation_values self').
Proof.
  intros Hr. pose proof Hr as Hr'.
  unfold AdaptiveFactory.run_classical in Hr'.
  apply bind_returns_inv in Hr' as ([counter s] & Hloop & Hr').
  apply bind_returns_inv in Hr' as (u & _ & Hr').
  apply ret_returns in Hr'. subst s.
  pose proof (iterations_count fn _ 0%Z counter (AdaptiveFactory.reset self)
                self' eq_refl Hloop) as (H1 & H2 & H3 & H4 & _).
  unfold AdaptiveFactory.get_expectation_values,
    Factory.get_expectation_values. simpl super.
  rewrite H1. simpl in H3.
  split; [lia |]. split; [lia |].
  unfold AdaptiveFactory.get_scale_factors, Factory.get_scale_factors.
  rewrite length_map.
  refine (adaptive_run_classical_balanced _ _ self self' fn max_iterations Hr).
  - reflexivity.
  - intros a a' d Hn. apply AdaExp_next_keeps_stacks in Hn. tauto.
Qed.

Section AdaptiveCountWitness.
Existing Instance LeastSquares.numerics.

Lemma adaptive_run_stops_at_steps_or_cap_witness :
  exists self',
    returns (AdaptiveFactory.run_classical adaptive_example decay 3) self'
    /\ (Z.of_nat (length (AdaptiveFactory.get_expectation_values self'))
        <= Z.max 0 3)%Z
    /\ (Z.of_nat (length (AdaptiveFactory.get_expectation_values self'))
        = _steps adaptive_example
        \/ Z.of_nat (length (AdaptiveFactory.get_expectation_values self'))
           = Z.max 0 3)
    /\ length (AdaptiveFactory.get_scale_factors self')
       = length (AdaptiveFactory.get_expectation_values self').
Proof.
  destruct adaptive_example_run as (self' & Hr).
  exists self'.
  exact (conj Hr (adaptive_run_stops_at_steps_or_cap adaptive_example self'
                    decay 3 Hr)).
Defined.

End AdaptiveCountWitness.

Lemma next_scale_factor_bounds (exponent max_scale : R) :
  (1 < max_scale)%R ->
  (1 < AdaExpFactory.next_scale_factor exponent max_scale <= max_scale)%R.
Proof.
  intros Hm. unfold AdaExpFactory.next_scale_factor.
  destruct (Req_dec_T (exponent + AdaExpFactory._EPSILON) 0) as [Hz | Hnz];
    [lra |].
  split; [| apply Rmin_r].
  apply Rmin_glb_lt; [| exact Hm].
  assert (Hpos : (0 < Rabs (exponent + AdaExpFactory._EPSILON))%R)
    by now apply Rabs_pos_lt.
  assert (Hq : (0 < AdaExpFactory._SHIFT_FACTOR
                    / Rabs (exponent + AdaExpFactory._EPSILON))%R).
  { apply Rdiv_lt_0_compat; [unfold AdaExpFactory._SHIFT_FACTOR; lra |].
    exact Hpos. }
  lra.
Qed.

(** X15: on a factory whose [scale_factor] and [max_scale_factor] exceed
    one, as the constructor requires, [next] returns a record with the
    single key [scale_factor] and a value of at least one; from the third
    collected point on the value is at most [max_scale_factor]. *)
Theorem AdaExp_next_scale_factor_bounds `{Numerics}
    (self self' : AdaExpFactory) (d : gmap string R) :
  (1 < _scale_factor self)%R -> (1 < max_scale_factor self)%R ->
  returns (AdaExpFactory.next self) (d, self') ->
  exists s,
    d = {[ "scale_factor" := s ]} /\ (1 <= s)%R
    /\ ((3 <= length (_instack (AdaExp_super self)))%nat ->
        (s <= max_scale_factor self)%R).
Proof.
  intros Hsf Hmax. unfold AdaExpFactory.next.
  destruct (length (_instack (AdaExp_super self))) as [| [| n]] eqn:Hn;
    simpl Nat.eqb; cbv iota.
  - intros Hr. apply ret_returns in Hr. injection Hr as <- <-.
    eexists. split; [reflexivity |]. split; [lra | lia].
  - intros Hr. apply ret_returns in Hr. injection Hr as <- <-.
    eexists. split; [reflexivity |]. split; [lra | lia].
  - destruct (Nat.eqb n 0 && is_None (AdaExp_asymptote self)) eqn:Hthird.
    + intros Hr. apply ret_returns in Hr. injection Hr as <- <-.
      eexists. split; [reflexivity |]. split; [lra |].
      apply andb_true_iff in Hthird as [Hn0 _]. apply Nat.eqb_eq in Hn0. lia.
    + intros Hr.
      apply bind_returns_inv in Hr as (probe' & Hprobe & Hr).
      apply ignoring_returns in Hprobe.
      apply bind_returns_inv in Hprobe as ([zne_limit probe] & Hred & Hprobe).
      apply ret_returns in Hprobe. subst probe'.
      apply AdaExp_reduce_stores in Hred as (err & p & cov & curve & ->).
      apply bind_returns_inv in Hr as ([[[ins outs] params] lim] & _ & Hr).
      apply bind_returns_inv in Hr as (exponent & _ & Hr).
      apply ret_returns in Hr. injection Hr as <- <-. simpl.
      pose proof (next_scale_factor_bounds exponent _ Hmax) as [Hlo Hhi].
      eexists. split; [reflexivity |]. split; [lra | intros _; exact Hhi].
Qed.

Section NextBoundsWitness.
Existing Instance LeastSquares.numerics.

Lemma AdaExp_next_scale_factor_bounds_witness :
  exists d self' s,
    returns (AdaExpFactory.next exp_decay_state) (d, self')
    /\ d = {[ "scale_factor" := s ]} /\ (1 <= s)%R
    /\ (s <= max_scale_factor exp_decay_state)%R.
Proof.
  destruct exp_decay_next as (self' & Hnext).
  assert (H2 : (1 < _scale_factor exp_decay_state)%R) by (simpl; lra).
  assert (H6 : (1 < max_scale_factor exp_decay_state)%R) by (simpl; lra).
  destruct (AdaExp_next_scale_factor_bounds exp_decay_state self' _ H2 H6 Hnext)
    as (s & Hd & Hlo & Hhi).
  eexists. exists self', s.
  exact (conj Hnext (conj Hd (conj Hlo (Hhi (le_n 3))))).
Defined.

End NextBoundsWitness.

(** X16: [iterate] warns that it is deprecated and runs [run_classical]
    with the default cap of 100, whatever [max_iterations] it is given: a
    factory of fewer than 100 steps comes back with [steps] points. *)
Theorem iterate_ignores_max_iterations `{Numerics}
    (self self' : AdaExpFactory) (fn : R -> gmap string R -> Py R)
    (max_iterations : Z) :
  (0 <= _steps self < 100)%Z ->
  returns (iterate_on_adaptive self fn max_iterations) self' ->
  Z.of_nat (length (AdaptiveFactory.get_expectation_values self'))
  = _steps self
  /\ emits (iterate_on_adaptive self fn max_iterations) DeprecationWarning
     = true.
Proof.
  intros Hsteps Hr. split.
  - unfold iterate_on_adaptive in Hr.
    apply bind_returns_inv in Hr as (u & _ & Hr).
    unfold AdaptiveFactory.run_classical in Hr.
    apply bind_returns_inv in Hr as ([counter s] & Hloop & Hr).
    apply bind_returns_inv in Hr as (u' & _ & Hr).
    apply ret_returns in Hr. subst s.
    pose proof (iterations_count fn _ 0%Z counter (AdaptiveFactory.reset self)
                  self' eq_refl Hloop) as (H1 & H2 & H3 & H4 & H5).
    unfold AdaptiveFactory.get_expectation_values,
      Factory.get_expectation_values. simpl super.
    rewrite H1. simpl in H3, H5. lia.
  - unfold iterate_on_adaptive, emits, warnings_of, bind, warn.
    destruct (AdaptiveFactory.run_classical self fn 100) as [ws r].
    reflexivity.
Qed.

Section IterateWitness.
Import LeastSquares.
Existing Instance LeastSquares.numerics.

Lemma adaptive_example_iterations (cap : nat) :
  exists self',
    returns (AdaptiveFactory.iterations (3 + cap) 0
               (AdaptiveFactory.reset adaptive_example) decay) (3%Z, self').
Proof.
  assert (Hne : (1.0 <> 2)%R) by lra.
  set (s2 := mkAdaExpFactory
               (mkFactory [record 1.0; record 2]%R
                          (PyList [exp (- (1.0)); exp (- (2))])
                          None None None None None false)
               3 2%R (Some 0%R) false 6%R []).
  destruct (AdaExp_next_line s2 [1.0; 2]%R [exp (- (1.0)); exp (- (2))] 0
              eq_refl eq_refl eq_refl eq_refl eq_refl (le_n 2)
              (det_two_points _ _ Hne)
              (det_log_weights_two _ _ _ _ _ _ _ eps_positive Hne))
    as (s2' & Hnext & Hin & Hout & Hred & Hst).
  set (v := AdaExpFactory.next_scale_factor _ _) in Hnext.
  destruct (AdaExp_push_succeeds s2' [exp (- (1.0)); exp (- (2))]
              {[ "scale_factor" := v ]} (exp (- v)) Hout)
    as (s3 & Hpush & Hin3 & Hout3 & Hst3).
  exists s3. change (3 + cap)%nat with (S (S (S cap))).
  eapply iterations_step; try reflexivity.
  eapply iterations_step; try reflexivity.
  eapply (iterations_step _ _ _ s2); try reflexivity.
  - exact Hnext.
  - apply lookup_singleton_eq.
  - exact Hpush.
  - apply iterations_stop.
    unfold is_converged; simpl. unfold AdaExpFactory.is_converged.
    rewrite Hin3, Hout3, Hin, Hst3, Hst. reflexivity.
Qed.

Lemma iterate_ignores_max_iterations_witness :
  exists self',
    returns (iterate_on_adaptive adaptive_example decay 1) self'
    /\ Z.of_nat (length (AdaptiveFactory.get_expectation_values self'))
       = _steps adaptive_example
    /\ emits (iterate_on_adaptive adaptive_example decay 1) DeprecationWarning
       = true.
Proof.
  destruct (adaptive_example_iterations 97) as (self' & Hloop).
  assert (Hr : returns (iterate_on_adaptive adaptive_example decay 1) self').
  { unfold iterate_on_adaptive.
    eapply bind_returns; [reflexivity |].
    unfold AdaptiveFactory.run_classical.
    apply (bind_returns _ _ (3%Z, self')); [exact Hloop | reflexivity]. }
  exists self'.
  refine (conj Hr (iterate_ignores_max_iterations adaptive_example self'
                     decay 1 _ Hr)).
  simpl. lia.
Defined.

End IterateWitness.

Lemma AdaExp_next_first_records `{Numerics} (s s' : AdaExpFactory)
    (d : gmap string R) :
  returns (AdaExpFactory.next s) (d, s') ->
  _scale_factor s' = _scale_factor s
  /\ (length (_instack (AdaExp_super s)) = 0%nat -> d = record 1.0)
  /\ (length (_instack (AdaExp_super s)) = 1%nat ->
      d = record (_scale_factor s)).
Proof.
  unfold AdaExpFactory.next.
  destruct (length (_instack (AdaExp_super s))) as [| [| n]] eqn:Hn;
    simpl Nat.eqb; cbv iota.
  - intros Hr. apply ret_returns in Hr. injection Hr as <- <-.
    split; [reflexivity |]. split; [reflexivity | discriminate].
  - intros Hr. apply ret_returns in Hr. injection Hr as <- <-.
    split; [reflexivity |]. split; [discriminate | reflexivity].
  - destruct (Nat.eqb n 0 && is_None (AdaExp_asymptote s)).
    + intros Hr. apply ret_returns in Hr. injection Hr as <- <-.
      split; [reflexivity |]. split; discriminate.
    + intros Hr.
      apply bind_returns_inv in Hr as (probe' & Hprobe & Hr).
      apply ignoring_returns in Hprobe.
      apply bind_returns_inv in Hprobe as ([zne_limit probe] & Hred & Hprobe).
      apply ret_returns in Hprobe. subst probe'.
      apply AdaExp_reduce_stores in Hred as (err & p & cov & curve & ->).
      apply bind_returns_inv in Hr as ([[[ins outs] params] lim] & _ & Hr).
      apply bind_returns_inv in Hr as (exponent & _ & Hr).
      apply ret_returns in Hr. injection Hr as <- <-. simpl.
      split; [reflexivity |]. split; discriminate.
Qed.

Lemma AdaExp_push_appends `{Numerics} (s s' : AdaExpFactory)
    (i : gmap string R) (o : R) :
  returns (AdaptiveFactory.push s i o) s' ->
  _instack (AdaExp_super s') = _instack (AdaExp_super s) ++ [i]
  /\ _scale_factor s' = _scale_factor s.
Proof.
  unfold AdaptiveFactory.push. simpl. intros Hr.
  apply bind_returns_inv in Hr as (f & Hf & Hr).
  apply ret_returns in Hr. subst s'. simpl. split; [| reflexivity].
  unfold Factory.push in Hf.
  apply bind_returns_inv in Hf as (u & _ & Hf).
  destruct (_outstack (AdaExp_super s)) as [xs | xs]; [| py_inv Hf].
  apply ret_returns in Hf. now subst f.
Qed.

Lemma iterations_first_records `{Numerics} (fn : R -> gmap string R -> Py R)
    (scale : R) (remaining : nat) :
  forall (counter counter' : Z) (self self' : AdaExpFactory),
    _scale_factor self = scale ->
    take 2 (_instack (AdaExp_super self))
    = take (length (_instack (AdaExp_super self)))
           [record 1.0; record scale] ->
    returns (AdaptiveFactory.iterations remaining counter self fn)
            (counter', self') ->
    take 2 (_instack (AdaExp_super self'))
    = take (length (_instack (AdaExp_super self')))
           [record 1.0; record scale].
Proof.
  induction remaining as [| remaining IH];
    intros counter counter' self self' Hscale Hpre Hr;
    simpl in Hr;
    apply bind_returns_inv in Hr as (converged & _ & Hr);
    destruct converged;
    try (apply ret_returns in Hr; injection Hr as <- <-; exact Hpre).
  apply bind_returns_inv in Hr as ([d s1] & Hnext & Hr).
  apply bind_returns_inv in Hr as (scale_factor & _ & Hr).
  apply bind_returns_inv in Hr as (next_expval & _ & Hr).
  apply bind_returns_inv in Hr as (s2 & Hpush & Hr).
  pose proof (AdaExp_next_keeps_stacks _ _ _ Hnext) as (Hin & _ & _).
  apply AdaExp_next_first_records in Hnext as (Hsc1 & Hd0 & Hd1).
  apply AdaExp_push_appends in Hpush as (Hin2 & Hsc2).
  apply (IH (counter + 1)%Z counter' s2 self'); [congruence | | exact Hr].
  rewrite Hin2, Hin. rewrite Hscale in Hd1.
  destruct (_instack (AdaExp_super self)) as [| a [| b l]]; simpl in *.
  - now rewrite Hd0.
  - injection Hpre as ->. now rewrite Hd1.
  - injection Hpre as -> ->. now rewrite !take_nil.
Qed.

(** X17: an adaptive [run_classical] starts from the unscaled circuit: the
    first collected scale factor is [1.0] and the second is the
    [scale_factor] the factory was built with, whatever the function
    returns. *)
Theorem adaptive_run_first_scale_factors `{Numerics}
    (self self' : AdaExpFactory) (fn : R -> gmap string R -> Py R)
    (max_iterations : Z) :
  returns (AdaptiveFactory.run_classical self fn max_iterations) self' ->
  take 2 (AdaptiveFactory.get_scale_factors self')
  = take (length (AdaptiveFactory.get_scale_factors self'))
         [Some 1.0%R; Some (_scale_factor self)].
Proof.
  intros Hr. unfold AdaptiveFactory.run_classical in Hr.
  apply bind_returns_inv in Hr as ([counter s] & Hloop & Hr).
  apply bind_returns_inv in Hr as (u & _ & Hr).
  apply ret_returns in Hr. subst s.
  apply (iterations_first_records fn (_scale_factor self)) in Hloop;
    [| reflexivity | reflexivity].
  unfold AdaptiveFactory.get_scale_factors, Factory.get_scale_factors.
  simpl super. rewrite length_map, firstn_map, Hloop.
  destruct (length (_instack (AdaExp_super self'))) as [| [| n]]; simpl;
    unfold record; rewrite ?lookup_singleton_eq, ?take_nil; reflexivity.
Qed.

Section FirstRecordsWitness.
Existing Instance LeastSquares.numerics.

Lemma adaptive_run_first_scale_factors_witness :
  exists self',
    returns (AdaptiveFactory.run_classical adaptive_example decay 3) self'
    /\ take 2 (AdaptiveFactory.get_scale_factors self')
       = take (length (AdaptiveFactory.get_scale_factors self'))
              [Some 1.0%R; Some (_scale_factor adaptive_example)].
Proof.
  destruct adaptive_example_run as (self' & Hr).
  exists self'.
  exact (conj Hr (adaptive_run_first_scale_factors adaptive_example self'
                    decay 3 Hr)).
Defined.

End FirstRecordsWitness.

(** ** The checks and the curve of the extrapolations *)

(** X18: [PolyExpFactory.extrapolate] refuses data of unequal lengths, fewer
    than two points, and an order above the number of points minus one (minus
    two when the asymptote is to be fitted), with a [ValueError] raised
    before any fit is attempted. *)
Theorem PolyExp_extrapolate_checks_data `{Numerics}
    (scale_factors exp_values : list R) (order : Z) (asymptote : option R)
    (avoid_log : bool) (eps : R) (full_output : bool) :
  length scale_factors <> length exp_values
  \/ (length scale_factors < 2)%nat
  \/ (Z.of_nat (length scale_factors)
      - (1 + (if is_None asymptote then 1 else 0)) < order)%Z ->
  (exists msg,
      raises (PolyExpFactory.extrapolate scale_factors exp_values order
                asymptote avoid_log eps full_output) (ValueError msg))
  /\ warnings_of (PolyExpFactory.extrapolate scale_factors exp_values order
                    asymptote avoid_log eps full_output) = [].
Proof.
  intros Hbad. unfold PolyExpFactory.extrapolate.
  destruct (negb (Nat.eqb (length scale_factors) (length exp_values))
            || (length scale_factors <? 2)%nat) eqn:Hdata.
  - split; [eexists |]; reflexivity.
  - apply orb_false_iff in Hdata as [Hlen Hmin].
    apply negb_false_iff, Nat.eqb_eq in Hlen. apply Nat.ltb_ge in Hmin.
    destruct Hbad as [Hbad | [Hbad | Hbad]]; [contradiction | lia |].
    assert (Horder : (order >? Z.of_nat (length scale_factors)
                               - (1 + match asymptote with
                                      | None => 1
                                      | Some _ => 0
                                      end))%Z = true).
    { rewrite Z.gtb_ltb. apply Z.ltb_lt. destruct asymptote; exact Hbad. }
    rewrite Horder. split; [eexists |]; reflexivity.
Qed.

Lemma PolyExp_extrapolate_checks_data_witness :
  (exists msg,
      raises (@PolyExpFactory.extrapolate LeastSquares.numerics
                [1; 2]%R [3; 5]%R 1 None false 1.0e-6 true) (ValueError msg))
  /\ warnings_of (@PolyExpFactory.extrapolate LeastSquares.numerics
                    [1; 2]%R [3; 5]%R 1 None false 1.0e-6 true) = [].
Proof.
  apply (@PolyExp_extrapolate_checks_data LeastSquares.numerics
           [1; 2]%R [3; 5]%R 1 None false 1.0e-6 true).
  right. right. simpl. lia.
Defined.

(** X19: an [ExpFactory] without asymptote on two scale factors is accepted
    by the constructor's check and can collect its data, but its [reduce]
    always raises [ValueError]: the fit of the asymptote needs three
    points. *)
Theorem ExpFactory_needs_three_points `{Numerics} (self : ExpFactory)
    (fn : R -> gmap string R -> Py R) (b : BatchedFactory) :
  Exp_asymptote self = None ->
  length (_scale_factors (Exp_super self)) = 2%nat ->
  shots_consistent (Exp_super self) ->
  returns (BatchedFactory.run_classical (Exp_super self) fn) b ->
  exists msg,
    raises (ExpFactory.reduce
              (mkExpFactory b (Exp_asymptote self) (Exp_avoid_log self)))
           (ValueError msg).
Proof.
  intros Hnone Hlen Hc Hr.
  destruct (populated_factory _ Hc) as [Hsf Hkw].
  unfold BatchedFactory.run_classical in Hr. rewrite Hkw, bind_ret_l in Hr.
  apply bind_returns_inv in Hr as (out & Hout & Hr).
  apply ret_returns in Hr.
  assert (Hsfb : BatchedFactory.get_scale_factors b
                 = map Some (_scale_factors (Exp_super self)))
    by (subst b; exact Hsf).
  assert (Hevb : BatchedFactory.get_expectation_values b = out)
    by (subst b; reflexivity).
  clear Hr Hsf Hkw.
  apply mapM_length in Hout. rewrite length_zip_with in Hout.
  pose proof (length_expected_kwargs _ Hc) as Hkw.
  unfold BatchedFactory._batch_populate_instack, BatchedFactory.reset,
    BatchedFactory.set_super in Hout. simpl in Hout.
  assert (Hout2 : length out = 2%nat) by lia.
  eexists. unfold ExpFactory.reduce. apply bind_raises_l.
  unfold BatchedFactory.reduce_with. simpl.
  rewrite Hsfb, Hevb, Hnone.
  eapply bind_raises_r; [apply float_array_Some |].
  apply bind_raises_l.
  unfold ExpFactory.extrapolate, PolyExpFactory.extrapolate.
  rewrite Hlen, Hout2. reflexivity.
Qed.

Lemma ExpFactory_needs_three_points_witness :
  exists self b msg,
    returns (@ExpFactory.__init__ [1; 2]%R PyNone false None) self
    /\ returns (BatchedFactory.run_classical (Exp_super self) decay) b
    /\ raises (@ExpFactory.reduce LeastSquares.numerics
                 (mkExpFactory b (Exp_asymptote self) (Exp_avoid_log self)))
              (ValueError msg).
Proof.
  eexists. eexists.
  assert (Hinit : returns (@ExpFactory.__init__ [1; 2]%R PyNone false None) _)
    by reflexivity.
  assert (Hrun : returns (BatchedFactory.run_classical
                            (mkBatchedFactory Factory.__init__ [1; 2]%R None)
                            decay) _)
    by reflexivity.
  assert (Hcons : shots_consistent
                    (mkBatchedFactory Factory.__init__ [1; 2]%R None))
    by (intros Hf; discriminate Hf).
  destruct (@ExpFactory_needs_three_points LeastSquares.numerics
              (mkExpFactory (mkBatchedFactory Factory.__init__ [1; 2]%R None)
                            None false)
              decay _ eq_refl eq_refl Hcons Hrun)
    as (msg & Hm).
  exists msg. exact (conj Hinit (conj Hrun Hm)).
Defined.

Lemma Poly_extrapolate_full `{Numerics} (scale_factors exp_values : list R)
    (order : Z) (r : Extrapolation) :
  returns (PolyFactory.extrapolate scale_factors exp_values order true) r ->
  exists l err p cov,
    r = Full l err p cov (polyval p) /\ getitem p (-1) = ret l.
Proof.
  unfold PolyFactory.extrapolate. intros Hr.
  apply bind_returns_inv in Hr as ([p cov] & _ & Hr).
  apply bind_returns_inv in Hr as (l & Hl & Hr).
  simpl in Hr.
  apply bind_returns_inv in Hr as (err & _ & Hr).
  apply ret_returns in Hr. subst r.
  apply getitem_returns in Hl.
  exists l, err, p, cov. auto.
Qed.

(** X20: the curve returned by the polynomial extrapolations
    ([PolyFactory], [RichardsonFactory], [LinearFactory] and
    [FakeNodesFactory]) is the polynomial of the returned parameters, and
    its value at zero is the returned limit, the last parameter. *)
Theorem polynomial_curve_at_zero_is_the_limit `{Numerics}
    (scale_factors exp_values : list R) (order : Z) (r : Extrapolation) :
  returns (PolyFactory.extrapolate scale_factors exp_values order true) r
  \/ returns (RichardsonFactory.extrapolate scale_factors exp_values true) r
  \/ returns (LinearFactory.extrapolate scale_factors exp_values true) r
  \/ returns (FakeNodesFactory.extrapolate scale_factors exp_values true) r ->
  exists l err p cov curve,
    r = Full l err p cov curve
    /\ curve = polyval p /\ curve 0%R = l /\ getitem p (-1) = ret l.
Proof.
  intros Hr.
  assert (Hfull : exists l err p cov,
             r = Full l err p cov (polyval p) /\ getitem p (-1) = ret l).
  { destruct Hr as [Hr | [Hr | [Hr | Hr]]].
    - exact (Poly_extrapolate_full _ _ _ _ Hr).
    - exact (Poly_extrapolate_full _ _ _ _ Hr).
    - exact (Poly_extrapolate_full _ _ _ _ Hr).
    - apply FakeNodes_extrapolate_full in Hr as (lo & hi & _ & _ & Hr).
      exact (Poly_extrapolate_full _ _ _ _ Hr). }
  destruct Hfull as (l & err & p & cov & -> & Hl).
  exists l, err, p, cov, (polyval p).
  split; [reflexivity |]. split; [reflexivity |].
  split; [now apply polyval_0 | exact Hl].
Qed.

Section PolynomialCurveWitness.
Import LeastSquares.

Lemma polynomial_curve_at_zero_is_the_limit_witness :
  exists r l err p cov curve,
    returns (@LinearFactory.extrapolate numerics [1; 2; 3]%R [3; 5; 7]%R true)
            r
    /\ r = Full l err p cov curve
    /\ curve = polyval p /\ curve 0%R = l /\ getitem p (-1) = ret l.
Proof.
  destruct (PolyFactory_extrapolate_line [1; 2; 3]%R [3; 5; 7]%R eq_refl
              det_123) as (err0 & cov0 & Hex).
  destruct (@polynomial_curve_at_zero_is_the_limit numerics
              [1; 2; 3]%R [3; 5; 7]%R 1 _ (or_intror (or_intror (or_introl Hex))))
    as (l & err & p & cov & curve & Hall).
  eexists. exists l, err, p, cov, curve. exact (conj Hex Hall).
Defined.

End PolynomialCurveWitness.

Lemma getitem_nth {A} (l : list A) (i : nat) (a d : A) :
  returns (getitem l (Z.of_nat i)) a -> nth i l d = a.
Proof.
  unfold getitem, py_index.
  destruct (0 <=? Z.of_nat i)%Z eqn:Hi; [| apply Z.leb_gt in Hi; lia].
  rewrite Nat2Z.id. destruct (l !! i) as [a' |] eqn:Hl; intros Hr;
    py_inv Hr. subst a'.
  apply nth_lookup_Some with (d := d) in Hl. exact Hl.
Qed.

(** X21: when the asymptote is fitted, or given and the fit is made on the
    logarithm, the curve returned by [PolyExpFactory.extrapolate] takes the
    returned limit at zero. *)
Theorem PolyExp_curve_at_zero_is_the_limit `{Numerics}
    (scale_factors exp_values : list R) (order : Z) (asymptote : option R)
    (avoid_log : bool) (eps l : R) (err : option R) (p : list R)
    (cov : option matrix) (curve : R -> R) :
  asymptote = None \/ avoid_log = false ->
  returns (PolyExpFactory.extrapolate scale_factors exp_values order
             asymptote avoid_log eps true) (Full l err p cov curve) ->
  curve 0%R = l.
Proof.
  intros Hcase. unfold PolyExpFactory.extrapolate.
  destruct (negb (Nat.eqb (length scale_factors) (length exp_values))
            || (length scale_factors <? 2)%nat);
    [intros Hr; py_inv Hr |].
  destruct (order >? _)%Z; [intros Hr; py_inv Hr |].
  intros Hr.
  apply bind_returns_inv in Hr as ([linear_params cov0] & _ & Hr).
  apply bind_returns_inv in Hr as (slope & _ & Hr).
  destruct asymptote as [a |].
  - destruct Hcase as [Hcase | ->]; [discriminate |].
    apply bind_returns_inv in Hr as ([z cov1] & _ & Hr).
    apply bind_returns_inv in Hr as (z_last & Hlast & Hr).
    apply bind_returns_inv in Hr as (zne_error & _ & Hr).
    apply ret_returns in Hr. injection Hr as <- _ _ _ <-.
    apply getitem_returns in Hlast.
    now rewrite (polyval_0 z z_last Hlast).
  - apply bind_returns_inv in Hr as ([opt_params cov1] & _ & Hr).
    apply bind_returns_inv in Hr as (p0 & Hp0 & Hr).
    apply bind_returns_inv in Hr as (p1 & Hp1 & Hr).
    apply bind_returns_inv in Hr as (zne_error & _ & Hr).
    apply ret_returns in Hr. injection Hr as <- _ _ _ <-.
    unfold PolyExpFactory._ansatz_unknown, PolyExpFactory.coeff.
    rewrite (getitem_nth opt_params 0 p0 0%R Hp0),
      (getitem_nth opt_params 1 p1 0%R Hp1).
    rewrite Rmult_0_l, exp_0. lra.
Qed.

Section PolyExpCurveWitness.
Import LeastSquares.

Lemma PolyExp_curve_at_zero_is_the_limit_witness :
  exists l err p cov curve,
    returns (@PolyExpFactory.extrapolate numerics [1; 2; 3]%R
               [exp 2; exp 1; exp 0] 1 (Some 0%R) false 1.0e-6 true)
            (Full l err p cov curve)
    /\ curve 0%R = l.
Proof.
  destruct (PolyExp_log_fit_line [1; 2; 3]%R [exp 2; exp 1; exp 0] 0 1.0e-6
              eq_refl (le_S _ _ (le_n 2)) det_123
              (det_log_weights_123 _ _ _ _ _ _ eps_positive))
    as (curve & Hfit).
  do 4 eexists. exists curve.
  exact (conj Hfit
           (@PolyExp_curve_at_zero_is_the_limit numerics _ _ _ _ _ _ _ _ _ _ _
              (or_intror eq_refl) Hfit)).
Defined.

End PolyExpCurveWitness.

(** X22: with a given asymptote and [avoid_log=True], the returned limit is
    [asymptote + amplitude], [amplitude] being the first fitted parameter,
    but the returned curve is read off the parameter list after the
    asymptote has been put in front of it: it takes the asymptote for the
    amplitude, and its value at zero is twice the asymptote, not the
    limit. *)
Theorem avoid_log_curve_misses_the_limit `{Numerics}
    (scale_factors exp_values : list R) (order : Z) (asymptote eps l : R)
    (err : option R) (p : list R) (cov : option matrix) (curve : R -> R) :
  returns (PolyExpFactory.extrapolate scale_factors exp_values order
             (Some asymptote) true eps true) (Full l err p cov curve) ->
  exists fitted amplitude,
    p = asymptote :: fitted
    /\ getitem fitted 0 = ret amplitude
    /\ l = (asymptote + amplitude)%R
    /\ curve 0%R = (asymptote + asymptote)%R
    /\ forall x,
        curve x
        = (asymptote
           + asymptote * exp (x * polyval (rev fitted) x))%R.
Proof.
  unfold PolyExpFactory.extrapolate.
  destruct (negb (Nat.eqb (length scale_factors) (length exp_values))
            || (length scale_factors <? 2)%nat);
    [intros Hr; py_inv Hr |].
  destruct (order >? _)%Z; [intros Hr; py_inv Hr |].
  intros Hr.
  apply bind_returns_inv in Hr as ([linear_params cov0] & _ & Hr).
  apply bind_returns_inv in Hr as (slope & _ & Hr).
  apply bind_returns_inv in Hr as ([opt_params cov1] & _ & Hr).
  apply bind_returns_inv in Hr as (p0 & Hp0 & Hr).
  apply bind_returns_inv in Hr as (zne_error & _ & Hr).
  apply ret_returns in Hr. injection Hr as <- _ <- _ <-.
  apply getitem_returns in Hp0.
  exists opt_params, p0.
  split; [reflexivity |]. split; [exact Hp0 |]. split; [reflexivity |].
  unfold PolyExpFactory._ansatz_known, PolyExpFactory.coeff. simpl.
  split; [rewrite Rmult_0_l, exp_0; lra | reflexivity].
Qed.

Section AvoidLogWitness.
Import LeastSquares.

Lemma avoid_log_sign :
  np_sign (- slope (weights None [1; 2; 3]%R) [1; 2; 3]%R avoid_log_data)
  = 1%R.
Proof.
  assert (Hexp : (exp (3 * (0 * 3 + -1)) < exp (1 * (0 * 1 + -1)))%R)
    by (apply exp_increasing; lra).
  unfold avoid_log_data, PolyExpFactory._ansatz_known, PolyExpFactory.coeff,
    polyval, slope, det, weights, wsum, ones, total.
  simpl. revert Hexp.
  generalize (exp (3 * (0 * 3 + -1))) (exp (2 * (0 * 2 + -1)))
             (exp (1 * (0 * 1 + -1))).
  intros e3 e2 e1 Hexp. unfold np_sign.
  destruct (Rlt_dec _ 0) as [Hneg | _]; [lra |].
  destruct (Rlt_dec 0 _) as [_ | Hnpos]; [reflexivity | lra].
Qed.

Lemma avoid_log_reproduced :
  ExactFit.reproduces (PolyExpFactory._ansatz_known 0.5) [1; 2; 3]%R
                      avoid_log_data [1; -1]%R = true.
Proof.
  unfold ExactFit.reproduces, avoid_log_data. simpl.
  repeat (destruct (Req_dec_T _ _) as [_ | Hn];
          [| exfalso; apply Hn; reflexivity]).
  reflexivity.
Qed.

Lemma avoid_log_example :
  exists err p cov curve,
    returns (@PolyExpFactory.extrapolate ExactFit.numerics [1; 2; 3]%R
               avoid_log_data 1 (Some 0.5%R) true 1.0e-6 true)
            (Full (0.5 + 1) err p cov curve).
Proof.
  unfold PolyExpFactory.extrapolate.
  change (negb (Nat.eqb (length [1; 2; 3]%R) (length avoid_log_data))
          || (length [1; 2; 3]%R <? 2)%nat) with false.
  cbv iota.
  change (1 >? Z.of_nat (length [1; 2; 3]%R) - (1 + 0))%Z with false.
  cbv iota.
  do 4 eexists.
  eapply bind_returns.
  { change (@mitiq_polyfit ExactFit.numerics) with (@mitiq_polyfit numerics).
    rewrite (mitiq_polyfit_line [1; 2; 3]%R avoid_log_data None eq_refl det_123).
    reflexivity. }
  cbv beta iota.
  eapply bind_returns; [reflexivity |].
  rewrite avoid_log_sign.
  eapply bind_returns.
  { unfold mitiq_curve_fit, curve_fit. simpl. unfold ExactFit.fit.
    rewrite avoid_log_reproduced. reflexivity. }
  cbv beta iota.
  eapply bind_returns; [reflexivity |].
  eapply bind_returns; [reflexivity |].
  reflexivity.
Qed.

Lemma avoid_log_curve_misses_the_limit_witness :
  exists err p cov curve fitted amplitude,
    returns (@PolyExpFactory.extrapolate ExactFit.numerics [1; 2; 3]%R
               avoid_log_data 1 (Some 0.5%R) true 1.0e-6 true)
            (Full (0.5 + 1) err p cov curve)
    /\ p = 0.5%R :: fitted
    /\ getitem fitted 0 = ret amplitude
    /\ (0.5 + 1 = 0.5 + amplitude)%R
    /\ curve 0%R = (0.5 + 0.5)%R
    /\ forall x,
        curve x = (0.5 + 0.5 * exp (x * polyval (rev fitted) x))%R.
Proof.
  destruct avoid_log_example as (err & p & cov & curve & Hex).
  destruct (@avoid_log_curve_misses_the_limit ExactFit.numerics
              _ _ _ _ _ _ _ _ _ _ Hex) as (fitted & amplitude & Hall).
  exists err, p, cov, curve, fitted, amplitude. exact (conj Hex Hall).
Defined.

End AvoidLogWitness.

(** ** Comparisons across classes *)

(** X23: [PolyFactory.__eq__] is not symmetric across classes.  A
    [LinearFactory] compares equal to a [PolyFactory] holding the same
    data, by the inherited [BatchedFactory.__eq__]; the [PolyFactory]
    compared with the [LinearFactory] reads [other.order] and raises
    [AttributeError]. *)
Theorem Poly_eq_Linear_raises (b : BatchedFactory) (order : Z) :
  Factory.instacks_close (_instack (Batched_super b))
                         (_instack (Batched_super b)) = true ->
  returns (BatchedFactory.__eq__ b (OfPolyFactory (mkPolyFactory b order)))
          true
  /\ exists msg,
      raises (PolyFactory.__eq__ (mkPolyFactory b order) (OfLinearFactory b))
             (AttributeError msg).
Proof.
  intros Hclose. split.
  - now apply BatchedFactory_eq_refl.
  - eexists. unfold PolyFactory.__eq__. apply and_then_raises_r.
    + now apply BatchedFactory_eq_refl.
    + reflexivity.
Qed.

Lemma Poly_eq_Linear_raises_witness :
  returns (BatchedFactory.__eq__
             (mkBatchedFactory Factory.__init__ [1; 2]%R None)
             (OfPolyFactory
                (mkPolyFactory
                   (mkBatchedFactory Factory.__init__ [1; 2]%R None) 1)))
          true
  /\ exists msg,
      raises (PolyFactory.__eq__
                (mkPolyFactory
                   (mkBatchedFactory Factory.__init__ [1; 2]%R None) 1)
                (OfLinearFactory
                   (mkBatchedFactory Factory.__init__ [1; 2]%R None)))
             (AttributeError msg).
Proof.
  apply (Poly_eq_Linear_raises
           (mkBatchedFactory Factory.__init__ [1; 2]%R None) 1).
  reflexivity.
Defined.

(** X24: [ExpFactory.__eq__] looks at the [None] asymptotes first: two
    factories without asymptote are compared on their data and [avoid_log],
    and a non-zero asymptote against [None] gives [False]; but the test is
    on the truth value, so the asymptote [0.0] against [None] passes it and
    [np.isclose] raises [TypeError]. *)
Theorem Exp_eq_on_None_asymptote (b : BatchedFactory) (avoid_log : bool) :
  Factory.instacks_close (_instack (Batched_super b))
                         (_instack (Batched_super b)) = true ->
  returns (ExpFactory.__eq__ (mkExpFactory b None avoid_log)
             (OfExpFactory (mkExpFactory b None avoid_log))) true
  /\ (forall a : R,
        a <> 0%R ->
        returns (ExpFactory.__eq__ (mkExpFactory b (Some a) avoid_log)
                   (OfExpFactory (mkExpFactory b None avoid_log))) false
        /\ returns (ExpFactory.__eq__ (mkExpFactory b None avoid_log)
                      (OfExpFactory (mkExpFactory b (Some a) avoid_log)))
                   false)
  /\ exists msg,
      raises (ExpFactory.__eq__ (mkExpFactory b (Some 0%R) avoid_log)
                (OfExpFactory (mkExpFactory b None avoid_log)))
             (TypeError msg).
Proof.
  intros Hclose.
  assert (Hb : forall e,
             returns (BatchedFactory.__eq__ b (OfExpFactory
                        (mkExpFactory b e avoid_log))) true)
    by (intros e; now apply BatchedFactory_eq_refl).
  split; [| split].
  - unfold ExpFactory.__eq__. simpl.
    apply and_then_true; [apply Hb |]. now rewrite eqb_reflx.
  - intros a Ha. unfold ExpFactory.__eq__, asymptote_truthy. simpl.
    destruct (Req_dec_T a 0) as [Hz | _]; [contradiction |].
    split; reflexivity.
  - eexists. unfold ExpFactory.__eq__, asymptote_truthy. simpl.
    destruct (Req_dec_T 0 0) as [_ | Hn]; [| contradiction].
    simpl. apply and_then_raises_l. apply and_then_raises_r; [apply Hb |].
    reflexivity.
Qed.

Lemma Exp_eq_on_None_asymptote_witness :
  exists msg,
    raises (ExpFactory.__eq__
              (mkExpFactory (mkBatchedFactory Factory.__init__ [1; 2]%R None)
                            (Some 0%R) false)
              (OfExpFactory
                 (mkExpFactory
                    (mkBatchedFactory Factory.__init__ [1; 2]%R None)
                    None false)))
           (TypeError msg).
Proof.
  apply (Exp_eq_on_None_asymptote
           (mkBatchedFactory Factory.__init__ [1; 2]%R None) false).
  reflexivity.
Defined.

(** ** The fake nodes *)

Lemma fake_node_bounds (a b x : R) :
  (a < b)%R -> (a <= FakeNodesFactory.S a b x <= b)%R.
Proof.
  intros Hab. unfold FakeNodesFactory.S.
  pose proof (COS_bound (PI * (x - a) / (b - a))) as [Hlo Hhi].
  revert Hlo Hhi. generalize (cos (PI * (x - a) / (b - a))).
  intros c Hlo Hhi. split; nra.
Qed.

(** X25: the map to the fake nodes keeps every point, whatever it is,
    inside the interval [[a, b]], and it leaves the two end points where
    they are. *)
Theorem fake_nodes_stay_in_the_interval (a b : R) (x : list R) :
  (a < b)%R ->
  Forall (fun y => (a <= y <= b)%R) (FakeNodesFactory._map_to_fake_nodes x a b)
  /\ FakeNodesFactory._map_to_fake_nodes [a; b] a b = [a; b].
Proof.
  intros Hab. split.
  - unfold FakeNodesFactory._map_to_fake_nodes.
    induction x as [| y x IH]; simpl; constructor;
      [now apply fake_node_bounds | exact IH].
  - unfold FakeNodesFactory._map_to_fake_nodes, FakeNodesFactory.S. simpl.
    replace (PI * (a - a) / (b - a))%R with 0%R by (field; lra).
    replace (PI * (b - a) / (b - a))%R with PI by (field; lra).
    rewrite cos_0, cos_PI. repeat f_equal; lra.
Qed.

Lemma fake_nodes_stay_in_the_interval_witness :
  Forall (fun y => (0 <= y <= 4)%R)
         (FakeNodesFactory._map_to_fake_nodes [1; 2; 3]%R 0 4)
  /\ FakeNodesFactory._map_to_fake_nodes [0; 4]%R 0 4 = [0; 4]%R.
Proof.
  apply (fake_nodes_stay_in_the_interval 0 4 [1; 2; 3]%R). lra.
Defined.

(** X26: on fewer than two scale factors the spacing test of the fake-nodes
    extrapolation indexes an empty array of differences: the extrapolation
    ends with [IndexError], before the [ValueError] of the test. *)
Theorem FakeNodes_needs_two_points `{Numerics}
    (scale_factors exp_values : list R) (full_output : bool) :
  (length scale_factors < 2)%nat ->
  exists msg,
    raises (FakeNodesFactory._is_equally_spaced scale_factors)
           (IndexError msg)
    /\ raises (FakeNodesFactory.extrapolate scale_factors exp_values
                 full_output) (IndexError msg).
Proof.
  intros Hlen.
  assert (Hdiff : np_diff (np_sort scale_factors) = []).
  { destruct scale_factors as [| x [| y l]]; simpl in *;
      [reflexivity | reflexivity | lia]. }
  eexists. unfold FakeNodesFactory.extrapolate,
    FakeNodesFactory._is_equally_spaced.
  rewrite Hdiff. split; reflexivity.
Qed.

Lemma FakeNodes_needs_two_points_witness :
  exists msg,
    raises (FakeNodesFactory._is_equally_spaced [1%R]) (IndexError msg)
    /\ raises (@FakeNodesFactory.extrapolate LeastSquares.numerics
                 [1%R] [3%R] true) (IndexError msg).
Proof.
  apply (@FakeNodes_needs_two_points LeastSquares.numerics [1%R] [3%R] true).
  simpl. lia.
Defined.

(** ** The constructor of the adaptive factory *)

(** X27: [AdaExpFactory.__init__] returns only for a [scale_factor] and a
    [max_scale_factor] above one and at least three steps, four when the
    asymptote is to be fitted; the factory then holds these arguments, two
    empty stacks and an empty history.  [scale_factor] is not compared
    with [max_scale_factor]. *)
Theorem AdaExpFactory_init_requirements (steps : Z) (scale_factor : R)
    (asymptote : PyVal) (avoid_log : bool) (max_scale : R)
    (self : AdaExpFactory) :
  returns (AdaExpFactory.__init__ steps scale_factor asymptote avoid_log
                                  max_scale) self ->
  (1 < scale_factor)%R /\ (1 < max_scale)%R /\ (3 <= steps)%Z
  /\ (asymptote = PyNone /\ AdaExp_asymptote self = None /\ (4 <= steps)%Z
      \/ exists a, asymptote = PyFloat a /\ AdaExp_asymptote self = Some a)
  /\ self = mkAdaExpFactory Factory.__init__ steps scale_factor
              (AdaExp_asymptote self) avoid_log max_scale [].
Proof.
  unfold AdaExpFactory.__init__. intros Hr.
  apply bind_returns_inv in Hr as (a & Ha & Hr).
  destruct (Rle_dec scale_factor 1) as [| Hsf]; [py_inv Hr |].
  destruct (steps <? 3 + (if is_None a then 1 else 0))%Z eqn:Hs; [py_inv Hr |].
  destruct (Rle_dec max_scale 1) as [| Hmax]; [py_inv Hr |].
  apply ret_returns in Hr. subst self. simpl.
  apply Z.ltb_ge in Hs.
  split; [lra |]. split; [lra |].
  destruct asymptote; simpl in Ha; py_inv Ha; subst a; simpl in Hs.
  - split; [lia |]. split; [right; eauto | reflexivity].
  - split; [lia |]. split; [left; repeat split; lia | reflexivity].
Qed.

Lemma AdaExpFactory_init_requirements_witness :
  exists self,
    returns (AdaExpFactory.__init__ 4 2 PyNone false 6) self
    /\ (1 < 2)%R /\ (1 < 6)%R /\ (3 <= 4)%Z
    /\ (PyNone = PyNone /\ AdaExp_asymptote self = None /\ (4 <= 4)%Z
        \/ exists a, PyNone = PyFloat a /\ AdaExp_asymptote self = Some a)
    /\ self = mkAdaExpFactory Factory.__init__ 4 2
                (AdaExp_asymptote self) false 6 [].
Proof.
  exists (mkAdaExpFactory Factory.__init__ 4 2 None false 6 []).
  assert (Hr : returns (AdaExpFactory.__init__ 4 2 PyNone false 6)
                       (mkAdaExpFactory Factory.__init__ 4 2 None false 6 [])).
  { unfold AdaExpFactory.__init__. simpl.
    destruct (Rle_dec 2 1) as [Hle | _]; [lra |].
    destruct (Rle_dec 6 1) as [Hle | _]; [lra |]. reflexivity. }
  exact (conj Hr (AdaExpFactory_init_requirements 4 2 PyNone false 6 _ Hr)).
Defined.

(** ** From the constructor to the collected data *)

(** X28: whatever factory the [BatchedFactory] constructor returns, a
    [run_classical] that completes on it stores the scale factors given to
    the constructor, in order, with one value each; there are at least two
    of them. *)
Theorem constructed_factory_collects_its_scale_factors
    (scale_factors : list R) (shot_list : option (list PyVal))
    (self self' : BatchedFactory) (fn : R -> gmap string R -> Py R) :
  returns (BatchedFactory.__init__ scale_factors shot_list) self ->
  returns (BatchedFactory.run_classical self fn) self' ->
  BatchedFactory.get_scale_factors self' = map Some scale_factors
  /\ length (BatchedFactory.get_expectation_values self')
     = length scale_factors
  /\ (2 <= length scale_factors)%nat.
Proof.
  intros Hinit Hr.
  assert (Hmin : (2 <= length scale_factors)%nat).
  { unfold BatchedFactory.__init__ in Hinit.
    destruct (length scale_factors <? 2)%nat eqn:Hlt; [py_inv Hinit |].
    now apply Nat.ltb_ge in Hlt. }
  apply BatchedFactory_init_consistent in Hinit as [Hc <-].
  destruct (populated_factory self Hc) as [Hsf Hkw].
  pose proof (run_classical_balanced _ _ _ Hr) as Hb.
  unfold BatchedFactory.run_classical in Hr. rewrite Hkw, bind_ret_l in Hr.
  apply bind_returns_inv in Hr as (out & Hout & Hr).
  apply ret_returns in Hr. subst self'.
  split; [exact Hsf |]. split; [| exact Hmin].
  unfold balanced in Hb.
  unfold BatchedFactory.get_expectation_values,
    Factory.get_expectation_values.
  rewrite <- Hb.
  unfold BatchedFactory.get_scale_factors, Factory.get_scale_factors in Hsf.
  apply (f_equal length) in Hsf. rewrite !length_map in Hsf. exact Hsf.
Qed.

Lemma constructed_factory_collects_its_scale_factors_witness :
  exists self self',
    returns (BatchedFactory.__init__ [1; 2; 3]%R
               (Some [PyInt 100; PyInt 100; PyInt 100])) self
    /\ returns (BatchedFactory.run_classical self
                  (fun x _ => ret (2 * x + 1)%R)) self'
    /\ BatchedFactory.get_scale_factors self' = map Some [1; 2; 3]%R
    /\ length (BatchedFactory.get_expectation_values self')
       = length [1; 2; 3]%R
    /\ (2 <= length [1; 2; 3]%R)%nat.
Proof.
  eexists. eexists.
  assert (Hinit : returns (BatchedFactory.__init__ [1; 2; 3]%R
                             (Some [PyInt 100; PyInt 100; PyInt 100])) _)
    by reflexivity.
  assert (Hrun : returns (BatchedFactory.run_classical batched_example
                            (fun x _ => ret (2 * x + 1)%R)) _)
    by reflexivity.
  exact (conj Hinit (conj Hrun
           (constructed_factory_collects_its_scale_factors _ _ _ _ _
              Hinit Hrun))).
Defined.

Lemma shots_record_not_empty (n : R) :
  bool_decide (({[ "shots" := n ]} : gmap string R) = ∅) = false.
Proof.
  apply bool_decide_eq_false. intros Heq.
  apply (f_equal (fun m : gmap string R => m !! "shots")) in Heq.
  rewrite lookup_singleton_eq, lookup_empty in Heq. discriminate.
Qed.

Lemma keyword_args_populated (self : BatchedFactory) (k : Z) :
  shots_consistent self ->
  BatchedFactory._get_keyword_args
    (BatchedFactory._batch_populate_instack (BatchedFactory.reset self)) k
  = ret (concat (map (fun d => replicate (Z.to_nat k) d)
                     (expected_kwargs self))).
Proof.
  intros Hc.
  unfold BatchedFactory._get_keyword_args, expected_kwargs,
    shots_consistent in *. simpl.
  destruct (truthy (_shot_list self)).
  - now rewrite (proj2 (populated_records_with_shots _ _ (Hc eq_refl))),
      bind_ret_l.
  - now rewrite (proj2 (populated_records_without_shots _)), bind_ret_l.
Qed.

(** X29: what a batched executor is called with.  Without shot list it gets
    the circuits alone; with one, it gets besides them the keyword list, one
    [{"shots": n}] per circuit.  Either way there are [num_to_average]
    circuits for each scale factor. *)
Theorem batched_executor_keywords {Q : Type} (self self' : BatchedFactory)
    (qp : Q) (call : list Q -> option (list (gmap string R)) -> Py (list R))
    (scale_noise : Q -> R -> Py Q) (num_to_average : Z) :
  shots_consistent self ->
  returns (BatchedFactory.run Q self qp (BatchedExecutor call) scale_noise
                              num_to_average) self' ->
  exists to_run res,
    returns (call to_run
               (if truthy (_shot_list self)
                then Some (concat
                             (map (fun d => replicate (Z.to_nat num_to_average) d)
                                  (expected_kwargs self)))
                else None)) res
    /\ length to_run
       = (length (_scale_factors self) * Z.to_nat num_to_average)%nat
    /\ (0 < num_to_average)%Z.
Proof.
  intros Hc Hr. unfold BatchedFactory.run in Hr.
  rewrite (keyword_args_populated self num_to_average Hc) in Hr.
  apply bind_returns_inv in Hr as (to_run & Hgen & Hr).
  rewrite bind_ret_l in Hr.
  apply bind_returns_inv in Hr as (res & Hres & Hr).
  apply bind_returns_inv in Hr as (rows & Hrows & _).
  assert (Hk : (0 < num_to_average)%Z).
  { unfold reshape in Hrows.
    destruct (num_to_average <=? 0)%Z eqn:Hle; [py_inv Hrows |].
    now apply Z.leb_gt in Hle. }
  apply length_generate_circuits in Hgen.
  destruct (populated_factory self Hc) as [Hsf _].
  unfold BatchedFactory.get_scale_factors, Factory.get_scale_factors in Hsf.
  apply (f_equal length) in Hsf. rewrite !length_map in Hsf.
  rewrite Hsf in Hgen.
  exists to_run, res. split; [| split; [exact Hgen | exact Hk]].
  unfold expected_kwargs in *.
  destruct (truthy (_shot_list self)) eqn:Ht.
  - destruct (_shot_list self) as [[| n shots] |]; try discriminate.
    simpl in Hres.
    destruct (Z.to_nat num_to_average) as [| k] eqn:Hnat; [lia |].
    simpl in Hres. rewrite shots_record_not_empty in Hres. exact Hres.
  - assert (Hall : forallb (fun kwargs : gmap string R =>
                              bool_decide (kwargs = ∅))
                     (concat (map (fun d => replicate (Z.to_nat num_to_average) d)
                                  (map (fun _ : R => (∅ : gmap string R))
                                       (_scale_factors self)))) = true).
    { apply forallb_forall. intros d Hin.
      apply in_concat in Hin as (l & Hl & Hd).
      apply in_map_iff in Hl as (d0 & <- & Hd0).
      apply in_map_iff in Hd0 as (s & <- & _).
      apply list_elem_of_In, elem_of_replicate in Hd as [-> _].
      now apply bool_decide_eq_true. }
    rewrite Hall in Hres. exact Hres.
Qed.

Lemma batched_executor_keywords_witness :
  exists self' to_run res,
    returns (BatchedFactory.run unit batched_example tt
               (BatchedExecutor
                  (fun circuits _ => ret (map (fun _ => 1%R) circuits)))
               (fun qp _ => ret qp) 2) self'
    /\ returns (ret (map (fun _ : unit => 1%R) to_run)) res
    /\ length to_run
       = (length (_scale_factors batched_example) * Z.to_nat 2)%nat
    /\ (0 < 2)%Z.
Proof.
  eexists.
  assert (Hr : returns (BatchedFactory.run unit batched_example tt
                          (BatchedExecutor
                             (fun circuits _ =>
                                ret (map (fun _ => 1%R) circuits)))
                          (fun qp _ => ret qp) 2) _) by reflexivity.
  destruct (batched_executor_keywords batched_example _ tt
              (fun circuits _ => ret (map (fun _ => 1%R) circuits))
              (fun qp _ => ret qp) 2 (fun _ => eq_refl) Hr)
    as (to_run & res & Hall).
  exists to_run, res. exact (conj Hr Hall).
Defined.
